(** * Run-scoped log manager: [setup_logger] and its retention passes

    A shallow embedding of [DynamicPrompt/logger.py] (module [Dyn]: the
    whole-directory purge [_purge_old_logs_global]) and of
    [StaticPrompt/logger.py] (module [Sta]: the per-module purge
    [_purge_old_timestamped_logs]), with the library calls they make.

    Scope of the model.
    - One directory, [log_dir], whose path holds no glob metacharacter; its
      content is a list of entries in the order [os.scandir] yields them.
    - Characters are code points below 256, where [\d] is [0-9].
    - A POSIX timestamp (a float in the source) is an integer number of
      microseconds; only the order of timestamps and their conversion to
      local time are used.
    - The lines the logger emits ([logger.debug]) and the warning filters
      are left out: they come after the retention pass on every path and
      do not change what it sees or returns. *)

From Stdlib Require Import ZArith List Ascii String Bool Lia Permutation Sorted.
From stdpp Require Import gmap strings.
Import ListNotations.

Local Open Scope Z_scope.
Local Open Scope list_scope.

(** ** Naive datetimes *)

(** [datetime.datetime] without tzinfo. *)
Record datetime := mkdt {
  year : Z; month : Z; day : Z;
  hour : Z; minute : Z; second : Z; microsecond : Z
}.

Definition dt_fields (d : datetime) : list Z :=
  [year d; month d; day d; hour d; minute d; second d; microsecond d].

(** Comparison of two field tuples, first difference decides. *)
Fixpoint lexZ (a b : list Z) : comparison :=
  match a, b with
  | [], [] => Eq
  | [], _ :: _ => Lt
  | _ :: _, [] => Gt
  | x :: a', y :: b' =>
      match Z.compare x y with
      | Eq => lexZ a' b'
      | c => c
      end
  end.

Definition dt_compare (a b : datetime) : comparison :=
  lexZ (dt_fields a) (dt_fields b).

(** [a < b] on naive datetimes. *)
Definition dt_ltb (a b : datetime) : bool :=
  match dt_compare a b with Lt => true | _ => false end.

Definition is_leap (y : Z) : bool :=
  (y mod 4 =? 0) && (negb (y mod 100 =? 0) || (y mod 400 =? 0)).

Definition days_in_month (y m : Z) : Z :=
  if m =? 2 then (if is_leap y then 29 else 28)
  else if (m =? 4) || (m =? 6) || (m =? 9) || (m =? 11) then 30
  else 31.

(** What the [datetime] constructor accepts, at second granularity. *)
Definition dt_valid (d : datetime) : bool :=
  (1 <=? year d) && (year d <=? 9999) &&
  (1 <=? month d) && (month d <=? 12) &&
  (1 <=? day d) && (day d <=? days_in_month (year d) (month d)) &&
  (0 <=? hour d) && (hour d <=? 23) &&
  (0 <=? minute d) && (minute d <=? 59) &&
  (0 <=? second d) && (second d <=? 59).

(** [datetime.fromtimestamp] under [TZ=UTC]: the civil date of a count of
    microseconds since 1970-01-01T00:00:00. *)
Definition utc_fromtimestamp (t : Z) : datetime :=
  let secs := t / 1000000 in
  let days := secs / 86400 in
  let sod := secs mod 86400 in
  let z := days + 719468 in
  let era := z / 146097 in
  let doe := z mod 146097 in
  let yoe := (doe - doe / 1460 + doe / 36524 - doe / 146096) / 365 in
  let doy := doe - (365 * yoe + yoe / 4 - yoe / 100) in
  let mp := (5 * doy + 2) / 153 in
  let d := doy - (153 * mp + 2) / 5 + 1 in
  let m := if mp <? 10 then mp + 3 else mp - 9 in
  let y := yoe + era * 400 + (if m <=? 2 then 1 else 0) in
  mkdt y m d (sod / 3600) ((sod mod 3600) / 60) (sod mod 60) (t mod 1000000).

(** ** Characters and digits *)

Definition chars (s : string) : list ascii := list_ascii_of_string s.
Definition str (l : list ascii) : string := string_of_list_ascii l.

Definition is_digit (c : ascii) : bool :=
  let n := nat_of_ascii c in (48 <=? n)%nat && (n <=? 57)%nat.

Definition digit_val (c : ascii) : Z := Z.of_nat (nat_of_ascii c) - 48.

Definition digit_char (d : Z) : ascii := ascii_of_nat (Z.to_nat (48 + d mod 10)).

(** Value of a run of decimal digits, [None] when some character is not
    one ([int] on a [\d+] match). *)
Fixpoint num_acc (acc : Z) (l : list ascii) : option Z :=
  match l with
  | [] => Some acc
  | c :: l' => if is_digit c then num_acc (10 * acc + digit_val c) l' else None
  end.

Definition num (l : list ascii) : option Z :=
  match l with [] => None | _ => num_acc 0 l end.

Definition pad2 (n : Z) : list ascii := [digit_char (n / 10); digit_char n].
Definition pad4 (n : Z) : list ascii :=
  [digit_char (n / 1000); digit_char (n / 100); digit_char (n / 10); digit_char n].

(** [d.strftime("%Y-%m-%d_%H-%M-%S")], for a year of four digits. *)
Definition strftime_ts (d : datetime) : list ascii :=
  pad4 (year d) ++ ["-"%char] ++ pad2 (month d) ++ ["-"%char] ++ pad2 (day d)
  ++ ["_"%char] ++ pad2 (hour d) ++ ["-"%char] ++ pad2 (minute d)
  ++ ["-"%char] ++ pad2 (second d).

(** [time.strftime("%Y-%m-%d", ...)]: the suffix a [TimedRotatingFileHandler]
    rotating at midnight gives a rotated segment. *)
Definition strftime_date (d : datetime) : list ascii :=
  pad4 (year d) ++ ["-"%char] ++ pad2 (month d) ++ ["-"%char] ++ pad2 (day d).

(** ** [_TIMESTAMP_RE] and [_parse_timestamp_from_filename] *)

(** One position of the pattern: a digit [\d] or a literal character. *)
Inductive cls := D | L (c : ascii).

(** [_(\d{4}-\d{2}-\d{2}_\d{2}-\d{2}-\d{2})\.log], without the final [$]. *)
Definition TIMESTAMP_RE : list cls :=
  [L "_"; D; D; D; D; L "-"; D; D; L "-"; D; D; L "_";
   D; D; L "-"; D; D; L "-"; D; D; L "."; L "l"; L "o"; L "g"]%char.

Definition cls_match (k : cls) (c : ascii) : bool :=
  match k with
  | D => is_digit c
  | L a => Ascii.eqb a c
  end.

(** Match the pattern at the head of [s]: the matched text and the rest. *)
Fixpoint match_here (p : list cls) (s : list ascii)
  : option (list ascii * list ascii) :=
  match p with
  | [] => Some ([], s)
  | k :: p' =>
      match s with
      | [] => None
      | c :: s' =>
          if cls_match k c then
            match match_here p' s' with
            | Some (m, r) => Some (c :: m, r)
            | None => None
            end
          else None
      end
  end.

(** [$]: the end of the string, or just before a newline that ends it. *)
Definition at_dollar (r : list ascii) : bool :=
  match r with
  | [] => true
  | [c] => Ascii.eqb c "010"%char
  | _ => false
  end.

(** [_TIMESTAMP_RE.search(base)]: the leftmost match; the result is
    [m.group(1)], the nineteen characters after the underscore. *)
Fixpoint re_search (s : list ascii) : option (list ascii) :=
  match match_here TIMESTAMP_RE s with
  | Some (m, r) =>
      if at_dollar r then Some (firstn 19 (skipn 1 m))
      else match s with [] => None | _ :: s' => re_search s' end
  | None => match s with [] => None | _ :: s' => re_search s' end
  end.

Definition slice (i n : nat) (l : list ascii) : list ascii := firstn n (skipn i l).

(** [datetime.strptime(ts, "%Y-%m-%d_%H-%M-%S")] on a [ts] of the shape the
    pattern's group has (the only strings the source hands it); [None] is
    the [ValueError] of a field out of range. *)
Definition strptime (ts : list ascii) : option datetime :=
  match num (slice 0 4 ts), num (slice 5 2 ts), num (slice 8 2 ts),
        num (slice 11 2 ts), num (slice 14 2 ts), num (slice 17 2 ts) with
  | Some y, Some m, Some d, Some h, Some mi, Some s =>
      let dt := mkdt y m d h mi s 0 in
      if (length ts =? 19)%nat && dt_valid dt then Some dt else None
  | _, _, _, _, _, _ => None
  end.

(** [os.path.basename]: what follows the last separator. *)
Fixpoint basename_acc (acc : list ascii) (l : list ascii) : list ascii :=
  match l with
  | [] => rev acc
  | c :: l' => if Ascii.eqb c "/"%char then basename_acc [] l'
               else basename_acc (c :: acc) l'
  end.

Definition basename (p : string) : string := str (basename_acc [] (chars p)).

(** [os.path.join(a, b)] on POSIX. *)
Definition path_join (a b : string) : string :=
  match chars b with
  | c :: _ =>
      if Ascii.eqb c "/"%char then b
      else match rev (chars a) with
           | [] => b
           | e :: _ => if Ascii.eqb e "/"%char then (a +:+ b)%string
                       else (a +:+ "/" +:+ b)%string
           end
  | [] =>
      match rev (chars a) with
      | [] => b
      | e :: _ => if Ascii.eqb e "/"%char then a else (a +:+ "/")%string
      end
  end.

Definition _parse_timestamp_from_filename (path : string) : option datetime :=
  let base := basename path in
  match re_search (chars base) with
  | None => None
  | Some ts => strptime ts
  end.

(** ** The platform

    Two library behaviours are left open, so that every statement holds for
    each of them: the local-time conversion [datetime.fromtimestamp], which
    depends on the time zone of the process, and the membership test of a
    bracket expression of a glob pattern, which is the regular expression
    engine's. *)
Class Platform := {
  fromtimestamp : Z -> datetime;
  class_match : list ascii -> ascii -> bool
}.

(** A process running under [TZ=UTC] whose bracket expressions list their
    members literally, for the examples: times within the years
    [datetime] has, brackets without [!] or range. *)
Definition utc_platform : Platform := {|
  fromtimestamp := utc_fromtimestamp;
  class_match := fun stuff c => existsb (Ascii.eqb c) stuff
|}.

(** ** [fnmatch] and [glob] *)

Inductive token :=
| TStar
| TAny
| TLit (c : ascii)
| TClass (stuff : list ascii).

(** The text up to the first closing bracket, and what follows it. *)
Fixpoint scan_close (p : list ascii) : option (list ascii * list ascii) :=
  match p with
  | [] => None
  | c :: p' =>
      if Ascii.eqb c "]"%char then Some ([], p')
      else match scan_close p' with
           | Some (s, r) => Some (c :: s, r)
           | None => None
           end
  end.

(** Take a leading [x] off, if there is one. *)
Definition strip (x : ascii) (p : list ascii) : list ascii * list ascii :=
  match p with
  | c :: q => if Ascii.eqb c x then ([c], q) else ([], p)
  | [] => ([], p)
  end.

(** The scan [fnmatch.translate] makes after an opening bracket: a leading
    [!] and then a leading [[]]] belong to the expression. *)
Definition bracket (p : list ascii) : option (list ascii * list ascii) :=
  let '(pre1, p1) := strip "!" p in
  let '(pre2, p2) := strip "]" p1 in
  match scan_close p2 with
  | Some (s, r) => Some (pre1 ++ pre2 ++ s, r)
  | None => None
  end.

(** [fnmatch.translate], as a list of tokens; [skip] counts the characters
    of a bracket expression still to pass over. A bracket that is never
    closed is a literal. (The source merges a run of stars into one, which
    matches the same names.) *)
Fixpoint tokens (skip : nat) (p : list ascii) : list token :=
  match p with
  | [] => []
  | c :: p' =>
      match skip with
      | S k => tokens k p'
      | O =>
          if Ascii.eqb c "*"%char then TStar :: tokens 0 p'
          else if Ascii.eqb c "?"%char then TAny :: tokens 0 p'
          else if Ascii.eqb c "["%char then
            match bracket p' with
            | Some (stuff, _) => TClass stuff :: tokens (S (length stuff)) p'
            | None => TLit c :: tokens 0 p'
            end
          else TLit c :: tokens 0 p'
      end
  end.

Section Glob.
Context `{Platform}.

(** A whole-name match of the translated pattern. *)
Fixpoint glob_match (ts : list token) (s : list ascii) : bool :=
  match ts with
  | [] => match s with [] => true | _ => false end
  | TStar :: ts' =>
      (fix star (s : list ascii) : bool :=
         glob_match ts' s ||
         match s with [] => false | _ :: s' => star s' end) s
  | TAny :: ts' =>
      match s with [] => false | _ :: s' => glob_match ts' s' end
  | TLit a :: ts' =>
      match s with
      | [] => false
      | c :: s' => Ascii.eqb a c && glob_match ts' s'
      end
  | TClass stuff :: ts' =>
      match s with
      | [] => false
      | c :: s' => class_match stuff c && glob_match ts' s'
      end
  end.

Definition fnmatch (name pat : string) : bool :=
  glob_match (tokens 0 (chars pat)) (chars name).

(** [glob._ishidden] *)
Definition _ishidden (s : string) : bool :=
  match chars s with
  | c :: _ => Ascii.eqb c "."%char
  | [] => false
  end.

(** [glob._glob1] on one name: a name with a leading dot is only matched
    by a pattern with one. *)
Definition glob1 (pat name : string) : bool :=
  (_ishidden pat || negb (_ishidden name)) && fnmatch name pat.
End Glob.

(** ** The directory *)

(** An entry of [log_dir]. [mtime = None]: [os.path.getmtime] raises (a
    dangling link, an entry removed meanwhile). [removable = false]:
    [os.remove] raises (no permission, file in use, entry removed
    meanwhile). *)
Record file := mkfile {
  fname : string;
  mtime : option Z;
  removable : bool
}.

Definition dir := list file.

Definition name_is (n : string) (f : file) : bool := String.eqb (fname f) n.

(** The model has one directory, [log_dir]: a path is resolved by its base
    name, which is where the path is for a file name without separator. *)
Definition fs_find (fs : dir) (path : string) : option file :=
  List.find (name_is (basename path)) fs.

Definition getmtime (fs : dir) (path : string) : option Z :=
  match fs_find fs path with
  | Some f => mtime f
  | None => None
  end.

(** [os.remove]: the directory without the entry, [None] when it raises. *)
Definition os_remove (fs : dir) (path : string) : option dir :=
  match fs_find fs path with
  | Some f =>
      if removable f
      then Some (List.filter (fun g => negb (name_is (basename path) g)) fs)
      else None
  | None => None
  end.

(** [glob.glob(os.path.join(log_dir, pat))], in listing order, for a
    [log_dir] that [glob] lists as it is written: without glob
    metacharacter (it would be matched as a pattern, and the directories it
    matches listed) and without doubled separator at its end (which the
    returned paths would not have), and for a [pat] without separator. *)
Definition glob `{Platform} (fs : dir) (log_dir pat : string) : list string :=
  map (fun f => path_join log_dir (fname f))
      (List.filter (fun f => glob1 pat (fname f)) fs).

(** What the clock and the operating system decide during one call: the
    time, where a new entry appears in the listing, and whether the new
    entry can be removed while it is open. *)
Record env := mkenv {
  now : Z;
  slot : nat;
  new_removable : bool
}.

(** [open(path, "a")] followed by a close, when it succeeds: an existing
    entry is left as it is, a new one is made. *)
Definition fs_touch (fs : dir) (e : env) (path : string) : dir :=
  match fs_find fs path with
  | Some _ => fs
  | None =>
      firstn (slot e) fs
      ++ mkfile (basename path) (Some (now e)) (new_removable e)
      :: skipn (slot e) fs
  end.

(** ** Sorting and slicing *)

Section StableSort.
Context {A K : Type} (ltb : K -> K -> bool) (key : A -> K).

Fixpoint insert_by (x : A) (l : list A) : list A :=
  match l with
  | [] => [x]
  | y :: l' =>
      if ltb (key y) (key x) then y :: insert_by x l' else x :: l
  end.

(** [list.sort(key=...)]: ascending, and stable. *)
Definition sort_by (l : list A) : list A := fold_right insert_by [] l.
End StableSort.

(** [l[:j]] *)
Definition py_slice_to {A : Type} (l : list A) (j : Z) : list A :=
  let n := Z.of_nat (length l) in
  let j' := if j <? 0 then Z.max 0 (j + n) else Z.min j n in
  firstn (Z.to_nat j') l.

(** The deletion loop shared by the two passes:
    [for path in to_delete: try: os.remove(path); deleted.append(path)
     except Exception: pass]. *)
Fixpoint delete_loop (fs : dir) (to_delete deleted : list string)
  : list string * dir :=
  match to_delete with
  | [] => (deleted, fs)
  | path :: rest =>
      match os_remove fs path with
      | Some fs' => delete_loop fs' rest (deleted ++ [path])
      | None => delete_loop fs rest deleted
      end
  end.

(** ** Results and the logging registry *)

Inductive exn := OSError.

Inductive result (A : Type) :=
| Ok (a : A)
| Raise (e : exn).
Arguments Ok {A} a.
Arguments Raise {A} e.

Definition DEBUG : Z := 10.
Definition INFO : Z := 20.
Definition WARNING : Z := 30.
Definition NOTSET : Z := 0.

(** A handler with the settings it has once [setup_logger] has configured
    it. *)
Inductive handler :=
| TimedRotatingFileHandler
    (filename when : string) (backupCount : Z) (encoding : string)
    (utc : bool) (level : Z) (formatter : string)
| StreamHandler (level : Z) (formatter : string).

Definition h_level (h : handler) : Z :=
  match h with
  | TimedRotatingFileHandler _ _ _ _ _ l _ => l
  | StreamHandler l _ => l
  end.

Definition h_formatter (h : handler) : string :=
  match h with
  | TimedRotatingFileHandler _ _ _ _ _ _ f => f
  | StreamHandler _ f => f
  end.

Definition is_file_handler (h : handler) : bool :=
  match h with
  | TimedRotatingFileHandler _ _ _ _ _ _ _ => true
  | StreamHandler _ _ => false
  end.

Record logger := mklogger {
  lg_level : Z;
  lg_handlers : list handler
}.

(** A record as a formatter sees it. *)
Record log_record := mkrec {
  asctime : string;
  levelname : string;
  name : string;
  message : string
}.

(** [logging.Formatter("%(asctime)s - %(levelname)s - %(name)s - %(message)s")] *)
Definition FORMAT : string :=
  "%(asctime)s - %(levelname)s - %(name)s - %(message)s".

(** [Formatter.formatMessage]: [fmt % record.__dict__], for the part of
    [%]-formatting that [FORMAT] uses: [%(key)s] is replaced by the field of
    that name, [%%] by a percent sign, any other character stands for
    itself. [None] on a key that is none of the four fields, on another
    conversion and on a format that ends inside one. *)
Inductive fmt_state :=
| FText
| FPercent
| FKey (key : list ascii)
| FConv (key : list ascii).

Definition field (r : log_record) (key : string) : option string :=
  if String.eqb key "asctime" then Some (asctime r)
  else if String.eqb key "levelname" then Some (levelname r)
  else if String.eqb key "name" then Some (name r)
  else if String.eqb key "message" then Some (message r)
  else None.

Fixpoint render_from (st : fmt_state) (fmt : list ascii) (r : log_record)
  : option (list ascii) :=
  match fmt with
  | [] => match st with FText => Some [] | _ => None end
  | c :: fmt' =>
      match st with
      | FText =>
          if Ascii.eqb c "%"%char then render_from FPercent fmt' r
          else option_map (cons c) (render_from FText fmt' r)
      | FPercent =>
          if Ascii.eqb c "("%char then render_from (FKey []) fmt' r
          else if Ascii.eqb c "%"%char
               then option_map (cons c) (render_from FText fmt' r)
               else None
      | FKey key =>
          if Ascii.eqb c ")"%char then render_from (FConv key) fmt' r
          else render_from (FKey (key ++ [c])) fmt' r
      | FConv key =>
          if Ascii.eqb c "s"%char
          then match field r (str key), render_from FText fmt' r with
               | Some v, Some rest => Some (chars v ++ rest)
               | _, _ => None
               end
          else None
      end
  end.

Definition render (fmt : string) (r : log_record) : option string :=
  option_map str (render_from FText (chars fmt) r).

(** The line the description of the format gives:
    [<timestamp> - <LEVEL> - <moduleName> - <message>]. *)
Definition format_line (r : log_record) : string :=
  (asctime r +:+ " - " +:+ levelname r +:+ " - " +:+ name r +:+ " - "
   +:+ message r)%string.

(** [Handler.handle] lets a record through when its level is at least the
    handler's. *)
Definition h_accepts (h : handler) (levelno : Z) : bool := h_level h <=? levelno.

(** The state a call works on: the entries of [log_dir], the loggers of
    the process by name, and whether the directory can be made and a file
    in it opened for appending. *)
Record world := mkworld {
  w_files : dir;
  w_loggers : gmap string logger;
  w_makedirs_ok : bool;
  w_open_ok : bool
}.

(** [logging.getLogger]: the empty name is the root logger's. *)
Definition logger_key (module_name : string) : string :=
  if String.eqb module_name "" then "root"%string else module_name.

Definition getLogger (reg : gmap string logger) (module_name : string) : logger :=
  match reg !! logger_key module_name with
  | Some l => l
  | None =>
      mklogger (if String.eqb (logger_key module_name) "root" then WARNING
                else NOTSET) []
  end.

Definition setLevel (reg : gmap string logger) (module_name : string) (level : Z)
  : gmap string logger :=
  <[logger_key module_name :=
      mklogger level (lg_handlers (getLogger reg module_name))]> reg.

Definition addHandler (reg : gmap string logger) (module_name : string) (h : handler)
  : gmap string logger :=
  let l := getLogger reg module_name in
  <[logger_key module_name := mklogger (lg_level l) (lg_handlers l ++ [h])]> reg.

Definition noisy_loggers : list string :=
  ["urllib3"; "botocore"; "boto3"; "requests"; "streamlit"]%string.

(** [for noisy_logger in [...]: logging.getLogger(noisy_logger).setLevel(logging.WARNING)] *)
Definition quiet_noisy (reg : gmap string logger) : gmap string logger :=
  fold_left (fun r n => setLevel r n WARNING) noisy_loggers reg.

(** [f"{module_name}_{timestamp}.log"]: the name of the session file. *)
Definition session_name (module_name : string) (d : datetime) : string :=
  (module_name +:+ "_" +:+ str (strftime_ts d) +:+ ".log")%string.

(** [os.path.join(log_dir, f"{module_name}_{timestamp}.log")], the
    timestamp being that of [datetime.now()]. *)
Definition log_filename_of `{Platform} (e : env) (module_name log_dir : string) : string :=
  path_join log_dir (session_name module_name (fromtimestamp (now e))).

(** ** [DynamicPrompt/logger.py] *)
Module Dyn.
Section WithPlatform.
Context `{Platform}.

(** The key the loop at lines 44-53 gives a path: the timestamp of the
    name, else the modification time, else the epoch. *)
Definition sort_key (fs : dir) (p : string) : datetime :=
  match _parse_timestamp_from_filename p with
  | Some parsed_ts => parsed_ts
  | None =>
      match getmtime fs p with
      | Some t => fromtimestamp t
      | None => fromtimestamp 0
      end
  end.

(** [file_infos] once the loop has filled it, and once it is sorted. *)
Definition file_infos (fs : dir) (log_dir : string) : list (string * datetime) :=
  map (fun p => (p, sort_key fs p)) (glob fs log_dir "*.log").

Definition sorted_infos (fs : dir) (log_dir : string) : list (string * datetime) :=
  sort_by dt_ltb snd (file_infos fs log_dir).

(** The candidates of a pass: [file_infos[:total - keep]] when
    [total > keep]. *)
Definition to_delete (fs : dir) (log_dir : string) (keep : Z) : list string :=
  let sorted := sorted_infos fs log_dir in
  let total := Z.of_nat (length sorted) in
  if keep <? total
  then map fst (py_slice_to sorted (total - keep))
  else [].

(** The returned list of deleted paths, and the directory afterwards. *)
Definition _purge_old_logs_global (fs : dir) (log_dir : string) (keep : Z)
  : list string * dir :=
  match glob fs log_dir "*.log" with
  | [] => ([], fs)
  | _ :: _ => delete_loop fs (to_delete fs log_dir keep) []
  end.

(** The logger's name, the list the call reports as purged, and the
    state as the pass leaves it. Left out: the [ValueError] of the
    handler's constructor on a rollover interval it does not take, and the
    lines the call emits through the handlers after the pass. *)
Definition setup_logger (w : world) (e : env) (module_name log_dir : string)
    (level : Z) (when : string) (backup_count keep : Z)
  : result (string * list string * world) :=
  if negb (w_makedirs_ok w) then Raise OSError else
  let log_filename := log_filename_of e module_name log_dir in
  (* the file is touched at once, a failure to do so is passed over *)
  let fs1 := if w_open_ok w then fs_touch (w_files w) e log_filename
             else w_files w in
  let reg1 := setLevel (w_loggers w) module_name level in
  match lg_handlers (getLogger reg1 module_name) with
  | _ :: _ =>
      let '(deleted, fs2) := _purge_old_logs_global fs1 log_dir keep in
      Ok (logger_key module_name, deleted,
          mkworld fs2 reg1 (w_makedirs_ok w) (w_open_ok w))
  | [] =>
      if negb (w_open_ok w) then Raise OSError else
      let fs2 := fs_touch fs1 e log_filename in
      let file_handler :=
        TimedRotatingFileHandler log_filename when backup_count "utf-8"
          false level FORMAT in
      let reg2 := addHandler reg1 module_name file_handler in
      let console_handler := StreamHandler INFO FORMAT in
      let reg3 := addHandler reg2 module_name console_handler in
      let reg4 := quiet_noisy reg3 in
      let '(deleted, fs3) := _purge_old_logs_global fs2 log_dir keep in
      Ok (logger_key module_name, deleted,
          mkworld fs3 reg4 (w_makedirs_ok w) (w_open_ok w))
  end.
End WithPlatform.
End Dyn.

(** ** [StaticPrompt/logger.py] *)
Module Sta.
Section WithPlatform.
Context `{Platform}.

(** The keys of [files.sort(key=lambda p: os.path.getmtime(p))], one per
    path; [None] when a modification time cannot be read and the sort
    raises. *)
Fixpoint with_mtime (fs : dir) (files : list string) : option (list (string * Z)) :=
  match files with
  | [] => Some []
  | p :: rest =>
      match getmtime fs p, with_mtime fs rest with
      | Some t, Some l => Some ((p, t) :: l)
      | _, _ => None
      end
  end.

Definition pattern_of (module_name : string) : string :=
  (module_name +:+ "_*.log")%string.

(** [files] once sorted, [None] when the sort raises. *)
Definition sorted_files (fs : dir) (module_name log_dir : string)
  : option (list string) :=
  match with_mtime fs (glob fs log_dir (pattern_of module_name)) with
  | None => None
  | Some keyed => Some (map fst (sort_by Z.ltb snd keyed))
  end.

(** The candidates of a pass: [files[:-keep]] when [len(files) > keep]. *)
Definition to_delete (fs : dir) (module_name log_dir : string) (keep : Z)
  : option (list string) :=
  match sorted_files fs module_name log_dir with
  | None => None
  | Some files =>
      if keep <? Z.of_nat (length files)
      then Some (py_slice_to files (- keep))
      else Some []
  end.

Definition _purge_old_timestamped_logs (fs : dir) (module_name log_dir : string)
    (keep : Z) : result (list string * dir) :=
  match glob fs log_dir (pattern_of module_name) with
  | [] => Ok ([], fs)
  | _ :: _ =>
      match to_delete fs module_name log_dir keep with
      | None => Raise OSError
      | Some cands => Ok (delete_loop fs cands [])
      end
  end.

(** As in the global variant: the state as the pass leaves it, with the
    same two things left out. *)
Definition setup_logger (w : world) (e : env) (module_name log_dir : string)
    (level : Z) (when : string) (backup_count keep : Z)
  : result (string * list string * world) :=
  if negb (w_makedirs_ok w) then Raise OSError else
  let log_filename := log_filename_of e module_name log_dir in
  let reg1 := setLevel (w_loggers w) module_name level in
  match lg_handlers (getLogger reg1 module_name) with
  | _ :: _ =>
      match _purge_old_timestamped_logs (w_files w) module_name log_dir keep with
      | Raise x => Raise x
      | Ok (deleted, fs2) =>
          Ok (logger_key module_name, deleted,
              mkworld fs2 reg1 (w_makedirs_ok w) (w_open_ok w))
      end
  | [] =>
      if negb (w_open_ok w) then Raise OSError else
      let fs2 := fs_touch (w_files w) e log_filename in
      let file_handler :=
        TimedRotatingFileHandler log_filename when backup_count "utf-8"
          false level FORMAT in
      let reg2 := addHandler reg1 module_name file_handler in
      let console_handler := StreamHandler INFO FORMAT in
      let reg3 := addHandler reg2 module_name console_handler in
      let reg4 := quiet_noisy reg3 in
      match _purge_old_timestamped_logs fs2 module_name log_dir keep with
      | Raise x => Raise x
      | Ok (deleted, fs3) =>
          Ok (logger_key module_name, deleted,
              mkworld fs3 reg4 (w_makedirs_ok w) (w_open_ok w))
      end
  end.
End WithPlatform.
End Sta.

(** The arguments' defaults. *)
Definition default_log_dir : string := "logs".
Definition default_when : string := "midnight".
Definition default_backup_count : Z := 7.
Definition default_keep : Z := 10.

(** * The vocabulary of the statements *)

Section SortDefs.
Context {A K : Type} (ltb : K -> K -> bool) (key : A -> K).

(** [x] is not after [y]. *)
Definition not_after (x y : A) : Prop := ltb (key y) (key x) = false.

Definition ascending (l : list A) : Prop := StronglySorted not_after l.

(** Two keys that the order does not tell apart. *)
Definition keq (a b : K) : bool := negb (ltb a b) && negb (ltb b a).

End SortDefs.

(** A name without a path separator. *)
Definition plain_chars (l : list ascii) : bool :=
  forallb (fun c => negb (Ascii.eqb c "/"%char)) l.

Definition plain (n : string) : bool := plain_chars (chars n).

Definition trunc_seconds (d : datetime) : datetime :=
  mkdt (year d) (month d) (day d) (hour d) (minute d) (second d) 0.

(** A listing: names are distinct and hold no separator. *)
Definition wf_dir (fs : dir) : Prop :=
  List.NoDup (map fname fs) /\ List.Forall (fun g => plain (fname g) = true) fs.

(** The entries a pattern selects. *)
Definition matched `{Platform} (fs : dir) (pat : string) : list file :=
  List.filter (fun g => glob1 pat (fname g)) fs.

(** [os.remove] would succeed on the path. *)
Definition can_remove (fs : dir) (path : string) : bool :=
  match fs_find fs path with
  | Some g => removable g
  | None => false
  end.

(** The directory without the entries the paths name. *)
Definition fs_minus (fs : dir) (paths : list string) : dir :=
  List.filter (fun g => negb (existsb (fun p => name_is (basename p) g) paths)) fs.

Fixpoint is_prefix (p s : list ascii) : bool :=
  match p, s with
  | [], _ => true
  | _ :: _, [] => false
  | a :: p', c :: s' => Ascii.eqb a c && is_prefix p' s'
  end.

Definition has_suffix (suf s : list ascii) : bool := is_prefix (rev suf) (rev s).

(** The name ends in [.log]. *)
Definition ends_log (n : string) : bool := has_suffix (chars ".log") (chars n).

(** The tail [*.log] of both patterns. *)
Definition star_log : list token := TStar :: map TLit (chars ".log").

Definition no_close (l : list ascii) : bool :=
  forallb (fun c => negb (Ascii.eqb c "]"%char)) l.

(** A module name without a glob metacharacter. *)
Definition no_magic (m : string) : bool :=
  forallb (fun c => negb (Ascii.eqb c "*"%char || Ascii.eqb c "?"%char
                          || Ascii.eqb c "["%char)) (chars m).

Fixpoint nodupb (l : list string) : bool :=
  match l with
  | [] => true
  | x :: l' => negb (existsb (String.eqb x) l') && nodupb l'
  end.

Definition wf_dirb (fs : dir) : bool :=
  nodupb (map fname fs) && forallb (fun g => plain (fname g)) fs.

(** The entry name of a segment the file handler rotates out at midnight:
    the date is appended after the name. *)
Definition rotated_name (n : string) (d : datetime) : string :=
  (n +:+ "." +:+ str (strftime_date d))%string.

Definition entry (n : string) (t : Z) : file := mkfile n (Some t) true.

Definition C4_dir : dir :=
  [entry "svc_2024-01-01_00-00-00.log" 100;
   entry "other_2024-01-01_00-00-00.log" 50;
   entry "svc_2024-01-02_00-00-00.log" 200;
   entry "notes.txt" 10].

Definition C5_dir : dir :=
  [mkfile "svc_2024-01-01_00-00-00.log" (Some 100) false;
   mkfile "svc_2024-01-02_00-00-00.log" (Some 200) true;
   mkfile "svc_2024-01-03_00-00-00.log" (Some 300) true].

(** What C1 says of a pass that returned [deleted]: the count, and that
    the deleted files are the oldest by the timestamp in their names. *)
Definition C1_says (selected deleted : list string) (keep : Z) : Prop :=
  Z.of_nat (length deleted) = Z.max 0 (Z.of_nat (length selected) - keep) /\
  forall p q, In p deleted -> In q selected -> ~ In q deleted ->
    exists tp tq,
      _parse_timestamp_from_filename p = Some tp /\
      _parse_timestamp_from_filename q = Some tq /\
      dt_ltb tp tq = true.

(** Two files whose modification times run against their names. *)
Definition C1_dir : dir :=
  [entry "svc_2024-01-01_00-00-00.log" 200;
   entry "svc_2024-01-02_00-00-00.log" 100].

(** The name ends in [_YYYY-MM-DD_HH-MM-SS.log], the date and time being
    those of [d], a valid one. *)
Definition has_timestamp (n : string) (d : datetime) : Prop :=
  dt_valid d = true /\ microsecond d = 0 /\
  exists pre, chars n = pre ++ "_"%char :: strftime_ts d ++ chars ".log".

(** The key as C2 words it: the timestamp the name carries; for a name
    that carries none the modification time; the epoch when that cannot be
    read. *)
Definition claimed_key_is `{Platform} (fs : dir) (p : string) (k : datetime) : Prop :=
  has_timestamp (basename p) k \/
  ((forall d, ~ has_timestamp (basename p) d) /\
   match getmtime fs p with
   | Some t => k = fromtimestamp t
   | None => k = fromtimestamp 0
   end).

(** What C2 says of a pass that deleted [deleted]: by the claimed key, no
    file it kept is older than one it deleted. *)
Definition C2_says `{Platform} (fs : dir) (selected deleted : list string) : Prop :=
  forall p q kp kq,
    In p deleted -> In q selected -> ~ In q deleted ->
    claimed_key_is fs p kp -> claimed_key_is fs q kq ->
    dt_ltb kq kp = false.

Definition C2_dir : dir :=
  [mkfile "svc_a.log" None true; entry "svc_b.log" 5].

(** One path is not after another by modification time. *)
Definition mtime_not_after (fs : dir) (p q : string) : Prop :=
  exists tp tq, getmtime fs p = Some tp /\ getmtime fs q = Some tq /\ tp <= tq.

(** The modification time of a path is [t]. *)
Definition mtime_is (fs : dir) (t : Z) (p : string) : bool :=
  match getmtime fs p with
  | Some t' => t' =? t
  | None => false
  end.

(** Two files of one timestamp, listed in the two possible orders. *)
Definition C7_dir1 : dir :=
  [entry "b_2024-01-01_00-00-00.log" 10; entry "a_2024-01-01_00-00-00.log" 20].

Definition C7_dir2 : dir :=
  [entry "a_2024-01-01_00-00-00.log" 20; entry "b_2024-01-01_00-00-00.log" 10].

Definition C7_dir3 : dir :=
  [entry "b_2024-01-02_00-00-00.log" 10; entry "a_2024-01-01_00-00-00.log" 20].

Definition C7_dir4 : dir :=
  [entry "a_2024-01-01_00-00-00.log" 20; entry "b_2024-01-02_00-00-00.log" 10].

Definition names12 : list string :=
  ["svc_2024-01-01_00-00-00.log"; "svc_2024-01-02_00-00-00.log";
   "svc_2024-01-03_00-00-00.log"; "svc_2024-01-04_00-00-00.log";
   "svc_2024-01-05_00-00-00.log"; "svc_2024-01-06_00-00-00.log";
   "svc_2024-01-07_00-00-00.log"; "svc_2024-01-08_00-00-00.log";
   "svc_2024-01-09_00-00-00.log"; "svc_2024-01-10_00-00-00.log";
   "svc_2024-01-11_00-00-00.log"; "svc_2024-01-12_00-00-00.log"]%string.

(** The modification time of the first path is before that of the
    second. *)
Definition mtime_before (fs : dir) (p q : string) : Prop :=
  exists tp tq, getmtime fs p = Some tp /\ getmtime fs q = Some tq /\ tp < tq.

(** The timestamp of a name, for a name that has one. *)
Definition name_key (n : string) : datetime :=
  match _parse_timestamp_from_filename n with
  | Some d => d
  | None => mkdt 0 0 0 0 0 0 0
  end.

(** The modification time of a path, for a path that has one. *)
Definition mtime_of (fs : dir) (p : string) : Z :=
  match getmtime fs p with
  | Some t => t
  | None => 0
  end.

(** The directory holds the twelve files and nothing else. *)
Definition holds_names12 (fs : dir) : Prop := Permutation (map fname fs) names12.

(** The twelve files with modification times that run against their
    names. *)
Definition C6_dir : dir :=
  map (fun nt => entry (fst nt) (snd nt))
      (combine names12 [120; 110; 100; 90; 80; 70; 60; 50; 40; 30; 20; 10]).

(** The twelve files, listed out of order, with modification times that
    grow with the names. *)
Definition C6_dir_ok : dir :=
  rev (map (fun nt => entry (fst nt) (snd nt))
           (combine names12 [10; 20; 30; 40; 50; 60; 70; 80; 90; 100; 110; 120])).

(** The entry [fs_touch] makes. *)
Definition new_entry (e : env) (path : string) : file :=
  mkfile (basename path) (Some (now e)) (new_removable e).

(** The directory the pass of a call of the global variant works on. *)
Definition Dyn_touched `{Platform} (w : world) (e : env)
    (module_name log_dir : string) : dir :=
  if w_open_ok w
  then fs_touch (w_files w) e (log_filename_of e module_name log_dir)
  else w_files w.

Definition C8_world : world := mkworld [] ∅ true true.

Definition C8_env : env := mkenv 1704164645000000 0 true.

Definition C3_env1 : env := mkenv 1704164645000000 0 true.

Definition C3_env2 : env := mkenv 1704164646000000 0 true.

(** [c] is selected and no selected file is older by key. *)
Definition oldest_by_key `{Platform} (fs : dir) (selected : list string) (c : string)
  : Prop :=
  In c selected /\
  forall q, In q selected -> dt_ltb (Dyn.sort_key fs q) (Dyn.sort_key fs c) = false.

(** [c] is selected and no selected file has an earlier modification
    time. *)
Definition oldest_by_mtime (fs : dir) (selected : list string) (c : string) : Prop :=
  In c selected /\ forall q, In q selected -> mtime_not_after fs c q.

(** What C9 says of a call made with [keep] equal to the number of files
    selected before it: the pass deletes one file, a pre-existing one. *)
Definition C9_says (before deleted : list string) : Prop :=
  exists p, deleted = [p] /\ In p before.

(** A directory whose one log file is dated after the call. *)
Definition C9_world : world :=
  mkworld [entry "svc_2999-01-01_00-00-00.log" 5] ∅ true true.

(** A directory with one older log file, at a first call for ["svc"]. *)
Definition C9_world_ok : world :=
  mkworld [entry "svc_2023-12-31_00-00-00.log" 1703980800000000] ∅ true true.

(** [str.upper] on the letters [a] to [z]. *)
Definition upper (c : ascii) : ascii :=
  let n := nat_of_ascii c in
  if Nat.leb 97 n && Nat.leb n 122 then ascii_of_nat (n - 32) else c.

(** The rollover intervals [TimedRotatingFileHandler] takes, whatever the
    case of the letters; on any other its constructor raises [ValueError],
    which the model of [setup_logger] leaves out. *)
Definition valid_when (when : string) : bool :=
  existsb (String.eqb (str (map upper (chars when))))
    ["S"; "M"; "H"; "D"; "MIDNIGHT";
     "W0"; "W1"; "W2"; "W3"; "W4"; "W5"; "W6"]%string.

(** A directory path that [glob.glob] lists as it is written: no glob
    metacharacter in it (or the pass would list the directories the
    pattern matches, not [log_dir]) and no doubled separator at its end
    (which [os.path.split] drops from the paths it returns). *)
Definition tidy_dir (log_dir : string) : bool :=
  no_magic log_dir && negb (has_suffix (chars "//") (chars log_dir)).

(** A directory with a dot file, and one with a module whose name
    extends another's. *)
Definition X9_dir : dir :=
  [entry ".old_2020-01-01_00-00-00.log" 1; entry "svc_2024-01-01_00-00-00.log" 2].

Definition X10_dir : dir :=
  [entry "svc_worker_2024-01-01_00-00-00.log" 1;
   entry "svc_2024-01-02_00-00-00.log" 2].

(** The name is one of the third-party names the first call quiets. *)
Definition is_noisy (m : string) : bool :=
  existsb (fun n => String.eqb (logger_key n) (logger_key m)) noisy_loggers.

(** A logger for ["requests"] that a first call has set up. *)
Definition X13_world : world :=
  mkworld [entry "requests_2024-01-02_03-04-05.log" 1704164645000000]
    (<["requests"%string :=
         mklogger WARNING
           [TimedRotatingFileHandler "logs/requests_2024-01-02_03-04-05.log" "midnight"
              7 "utf-8" false DEBUG FORMAT;
            StreamHandler INFO FORMAT]]> ∅)
    true false.


Definition X17_world : world :=
  mkworld [entry "svc_2099-01-01_00-00-00.log" 5] ∅ true true.

(** * Properties *)

(** ** The stable sort *)

Section SortFacts.
Context {A K : Type} (ltb : K -> K -> bool) (key : A -> K).
Hypothesis ltb_irrefl : forall a, ltb a a = false.
Hypothesis ltb_trans :
  forall a b c, ltb a b = true -> ltb b c = true -> ltb a c = true.
Hypothesis ltb_negtrans :
  forall a b c, ltb a b = false -> ltb b c = false -> ltb a c = false.

Lemma ltb_asym a b : ltb a b = true -> ltb b a = false.
Proof.
  intros Hab. destruct (ltb b a) eqn:Hba; [|reflexivity].
  rewrite <- (ltb_irrefl a). symmetry. eapply ltb_trans; eauto.
Qed.

Lemma insert_by_perm x l : Permutation (insert_by ltb key x l) (x :: l).
Proof.
  induction l as [|y l IH]; simpl; [reflexivity|].
  destruct (ltb (key y) (key x)); [|reflexivity].
  rewrite IH. apply perm_swap.
Qed.

Lemma sort_by_perm l : Permutation (sort_by ltb key l) l.
Proof.
  induction l as [|x l IH]; simpl; [reflexivity|].
  rewrite insert_by_perm. now apply perm_skip.
Qed.

Lemma sort_by_length l : length (sort_by ltb key l) = length l.
Proof. apply Permutation_length, sort_by_perm. Qed.

Lemma insert_by_ascending x l :
  ascending ltb key l -> ascending ltb key (insert_by ltb key x l).
Proof.
  induction l as [|y l IH]; simpl; intros Hs.
  - repeat constructor.
  - apply StronglySorted_inv in Hs as [Hs Hy].
    destruct (ltb (key y) (key x)) eqn:Hyx.
    + constructor; [now apply IH|].
      rewrite List.Forall_forall in *. intros z Hz.
      apply (Permutation_in _ (insert_by_perm x l)) in Hz.
      destruct Hz as [<-|Hz]; [now apply ltb_asym|now apply Hy].
    + constructor; [now constructor|].
      constructor; [exact Hyx|].
      rewrite List.Forall_forall in *. intros z Hz.
      unfold not_after. eapply ltb_negtrans; [apply Hy, Hz|exact Hyx].
Qed.

Lemma sort_by_ascending l : ascending ltb key (sort_by ltb key l).
Proof.
  induction l as [|x l IH]; simpl; [constructor|].
  now apply insert_by_ascending.
Qed.

Lemma insert_by_filter_out (P : A -> bool) x l :
  P x = false ->
  List.filter P (insert_by ltb key x l) = List.filter P l.
Proof.
  intros HP. induction l as [|y l IH]; simpl.
  - now rewrite HP.
  - destruct (ltb (key y) (key x)); simpl.
    + now rewrite IH.
    + now rewrite HP.
Qed.

Lemma insert_by_filter_keq v x l :
  keq ltb (key x) v = true ->
  List.filter (fun a => keq ltb (key a) v) (insert_by ltb key x l)
  = x :: List.filter (fun a => keq ltb (key a) v) l.
Proof.
  intros Hx. induction l as [|y l IH]; simpl.
  - now rewrite Hx.
  - destruct (ltb (key y) (key x)) eqn:Hyx; simpl.
    + assert (Hy : keq ltb (key y) v = false).
      { unfold keq in *. apply andb_true_iff in Hx as [H1 H2].
        apply negb_true_iff in H1, H2.
        destruct (ltb (key y) v) eqn:Hyv; [reflexivity|].
        rewrite (ltb_negtrans _ _ _ Hyv H2) in Hyx. discriminate. }
      rewrite Hy. exact IH.
    + now rewrite Hx.
Qed.

(** Stability: the elements of one key keep the order they came in. *)
Lemma sort_by_stable v l :
  List.filter (fun a => keq ltb (key a) v) (sort_by ltb key l)
  = List.filter (fun a => keq ltb (key a) v) l.
Proof.
  induction l as [|x l IH]; simpl; [reflexivity|].
  destruct (keq ltb (key x) v) eqn:Hx.
  - rewrite insert_by_filter_keq by exact Hx. now rewrite IH.
  - rewrite insert_by_filter_out by exact Hx. exact IH.
Qed.

Lemma ascending_app_inv l1 l2 :
  ascending ltb key (l1 ++ l2) ->
  forall x y, In x l1 -> In y l2 -> not_after ltb key x y.
Proof.
  induction l1 as [|a l1 IH]; simpl; intros Hs x y Hx Hy; [contradiction|].
  apply StronglySorted_inv in Hs as [Hs Ha].
  destruct Hx as [<-|Hx].
  - rewrite List.Forall_forall in Ha. apply Ha, in_or_app. now right.
  - now apply IH.
Qed.

Lemma ascending_firstn_skipn n l :
  ascending ltb key l ->
  forall x y, In x (firstn n l) -> In y (skipn n l) -> not_after ltb key x y.
Proof.
  intros Hs. apply ascending_app_inv. now rewrite firstn_skipn.
Qed.

Lemma ascending_sublist l1 l2 l3 :
  ascending ltb key (l1 ++ l2 ++ l3) -> ascending ltb key (l1 ++ l3).
Proof.
  induction l1 as [|a l1 IH]; simpl; intros Hs.
  - induction l2 as [|b l2 IH2]; simpl in *; [exact Hs|].
    apply StronglySorted_inv in Hs as [Hs _]. now apply IH2.
  - apply StronglySorted_inv in Hs as [Hs Ha].
    constructor; [now apply IH|].
    rewrite List.Forall_forall in *. intros z Hz. apply Ha.
    apply in_app_or in Hz as [Hz|Hz]; apply in_or_app; [now left|].
    right. apply in_or_app. now right.
Qed.

Lemma ascending_firstn n l : ascending ltb key l -> ascending ltb key (firstn n l).
Proof.
  intros Hs. rewrite <- (firstn_skipn n l) in Hs.
  rewrite <- (app_nil_r (firstn n l)).
  apply (ascending_sublist _ (skipn n l) []). now rewrite app_nil_r.
Qed.

Lemma ascending_filter (P : A -> bool) l :
  ascending ltb key l -> ascending ltb key (List.filter P l).
Proof.
  induction l as [|a l IH]; simpl; intros Hs; [constructor|].
  apply StronglySorted_inv in Hs as [Hs Ha].
  destruct (P a); [|now apply IH].
  constructor; [now apply IH|].
  rewrite List.Forall_forall in *. intros z Hz.
  apply filter_In in Hz as [Hz _]. now apply Ha.
Qed.

Hypothesis ltb_total :
  forall a b, ltb a b = false -> ltb b a = false -> a = b.

Lemma key_inj_on l a b :
  List.NoDup (map key l) -> In a l -> In b l -> key a = key b -> a = b.
Proof.
  induction l as [|x l IH]; simpl; intros Hnd Ha Hb Hk; [contradiction|].
  inversion Hnd as [|? ? Hx Hnd']; subst.
  destruct Ha as [<-|Ha], Hb as [<-|Hb]; auto.
  - exfalso. apply Hx. rewrite Hk. now apply in_map.
  - exfalso. apply Hx. rewrite <- Hk. now apply in_map.
Qed.

(** With distinct keys there is one ascending arrangement. *)
Lemma ascending_unique l l' :
  ascending ltb key l -> ascending ltb key l' -> Permutation l l' ->
  List.NoDup (map key l) -> l = l'.
Proof.
  revert l'. induction l as [|x l IH]; intros l' Hs Hs' Hp Hnd.
  - apply Permutation_nil in Hp. now subst.
  - destruct l' as [|y l'].
    { symmetry in Hp. apply Permutation_nil in Hp. discriminate. }
    assert (Hxy : x = y).
    { apply StronglySorted_inv in Hs as [_ Hx].
      apply StronglySorted_inv in Hs' as [_ Hy].
      rewrite List.Forall_forall in Hx, Hy.
      assert (Hy_in : In y (x :: l))
        by (eapply Permutation_in; [symmetry; exact Hp|now left]).
      assert (Hx_in : In x (y :: l'))
        by (eapply Permutation_in; [exact Hp|now left]).
      apply (key_inj_on (x :: l)); auto; [now left|].
      apply ltb_total.
      - destruct Hx_in as [->|Hx_in]; [apply ltb_irrefl|].
        specialize (Hy _ Hx_in). exact Hy.
      - destruct Hy_in as [->|Hy_in]; [apply ltb_irrefl|].
        specialize (Hx _ Hy_in). exact Hx. }
    subst y. f_equal.
    apply StronglySorted_inv in Hs as [Hs _].
    apply StronglySorted_inv in Hs' as [Hs' _].
    inversion Hnd; subst.
    apply IH; auto. now apply Permutation_cons_inv in Hp.
Qed.

(** So the order of the input is immaterial when the keys are distinct. *)
Lemma sort_by_perm_eq l l' :
  Permutation l l' -> List.NoDup (map key l) ->
  sort_by ltb key l = sort_by ltb key l'.
Proof.
  intros Hp Hnd. apply ascending_unique; try apply sort_by_ascending.
  - rewrite !sort_by_perm. exact Hp.
  - eapply Permutation_NoDup; [|exact Hnd].
    apply Permutation_map. symmetry. apply sort_by_perm.
Qed.

Lemma sort_by_id l :
  ascending ltb key l -> List.NoDup (map key l) -> sort_by ltb key l = l.
Proof.
  intros Hs Hnd. symmetry. apply ascending_unique; auto.
  - apply sort_by_ascending.
  - symmetry. apply sort_by_perm.
Qed.
End SortFacts.

(** ** The order of datetimes *)

Lemma lexZ_refl a : lexZ a a = Eq.
Proof. induction a as [|x a IH]; simpl; [reflexivity|]. now rewrite Z.compare_refl. Qed.

Lemma lexZ_eq a b : lexZ a b = Eq -> a = b.
Proof.
  revert b. induction a as [|x a IH]; intros [|y b]; simpl; try discriminate; auto.
  destruct (Z.compare_spec x y); try discriminate.
  intros Hab. subst. f_equal. now apply IH.
Qed.

Lemma lexZ_opp a b : lexZ b a = CompOpp (lexZ a b).
Proof.
  revert b. induction a as [|x a IH]; intros [|y b]; simpl; auto.
  rewrite (Z.compare_antisym x y).
  destruct (x ?= y); simpl; auto.
Qed.

Lemma lexZ_lt_trans a b c : lexZ a b = Lt -> lexZ b c = Lt -> lexZ a c = Lt.
Proof.
  revert b c. induction a as [|x a IH]; intros [|y b] [|z c]; simpl;
    try discriminate; auto.
  destruct (Z.compare_spec x y), (Z.compare_spec y z), (Z.compare_spec x z);
    try discriminate; try lia; auto.
  apply IH.
Qed.

Lemma lexZ_ge_trans a b c : lexZ a b <> Lt -> lexZ b c <> Lt -> lexZ a c <> Lt.
Proof.
  revert b c. induction a as [|x a IH]; intros [|y b] [|z c]; simpl;
    try congruence.
  destruct (Z.compare_spec x y), (Z.compare_spec y z), (Z.compare_spec x z);
    try congruence; try lia.
  apply IH.
Qed.

Lemma dt_fields_inj a b : dt_fields a = dt_fields b -> a = b.
Proof. destruct a, b; unfold dt_fields; simpl. intros [=]. now subst. Qed.

Lemma dt_ltb_irrefl a : dt_ltb a a = false.
Proof. unfold dt_ltb, dt_compare. now rewrite lexZ_refl. Qed.

Lemma dt_ltb_trans a b c :
  dt_ltb a b = true -> dt_ltb b c = true -> dt_ltb a c = true.
Proof.
  unfold dt_ltb, dt_compare. intros H1 H2.
  destruct (lexZ (dt_fields a) (dt_fields b)) eqn:E1; try discriminate.
  destruct (lexZ (dt_fields b) (dt_fields c)) eqn:E2; try discriminate.
  now rewrite (lexZ_lt_trans _ _ _ E1 E2).
Qed.

Lemma dt_ltb_false a b : dt_ltb a b = false <-> dt_compare a b <> Lt.
Proof.
  unfold dt_ltb. destruct (dt_compare a b); split; congruence.
Qed.

Lemma dt_ltb_negtrans a b c :
  dt_ltb a b = false -> dt_ltb b c = false -> dt_ltb a c = false.
Proof.
  rewrite !dt_ltb_false. unfold dt_compare. apply lexZ_ge_trans.
Qed.

Lemma dt_ltb_total a b : dt_ltb a b = false -> dt_ltb b a = false -> a = b.
Proof.
  rewrite !dt_ltb_false. unfold dt_compare. intros H1 H2.
  apply dt_fields_inj, lexZ_eq.
  rewrite (lexZ_opp (dt_fields a) (dt_fields b)) in H2.
  destruct (lexZ (dt_fields a) (dt_fields b)); simpl in *; congruence.
Qed.

Lemma Zltb_irrefl a : Z.ltb a a = false.
Proof. apply Z.ltb_irrefl. Qed.

Lemma Zltb_trans a b c : Z.ltb a b = true -> Z.ltb b c = true -> Z.ltb a c = true.
Proof. rewrite !Z.ltb_lt. lia. Qed.

Lemma Zltb_negtrans a b c :
  Z.ltb a b = false -> Z.ltb b c = false -> Z.ltb a c = false.
Proof. rewrite !Z.ltb_ge. lia. Qed.

Lemma Zltb_total a b : Z.ltb a b = false -> Z.ltb b a = false -> a = b.
Proof. rewrite !Z.ltb_ge. lia. Qed.

(** ** Strings, paths *)

Lemma chars_app a b : chars (a +:+ b) = chars a ++ chars b.
Proof. unfold chars. induction a as [|c a IH]; simpl; [reflexivity|]. now rewrite IH. Qed.

Lemma str_chars s : str (chars s) = s.
Proof. apply string_of_list_ascii_of_string. Qed.

Lemma chars_str l : chars (str l) = l.
Proof. apply list_ascii_of_string_of_list_ascii. Qed.

Lemma chars_inj a b : chars a = chars b -> a = b.
Proof. intros E. rewrite <- (str_chars a), <- (str_chars b). now rewrite E. Qed.

Lemma basename_acc_plain acc l :
  plain_chars l = true -> basename_acc acc l = rev acc ++ l.
Proof.
  revert acc. induction l as [|c l IH]; simpl; intros acc Hp.
  - now rewrite app_nil_r.
  - apply andb_true_iff in Hp as [Hc Hl]. apply negb_true_iff in Hc.
    rewrite Hc, IH by exact Hl. simpl. now rewrite <- app_assoc.
Qed.

Lemma basename_acc_sep acc x l :
  plain_chars l = true -> basename_acc acc (x ++ "/"%char :: l) = l.
Proof.
  revert acc. induction x as [|c x IH]; simpl; intros acc Hp.
  - now rewrite basename_acc_plain.
  - destruct (Ascii.eqb c "/"); now apply IH.
Qed.

Lemma basename_plain n : plain n = true -> basename n = n.
Proof.
  intros Hp. unfold basename. rewrite basename_acc_plain by exact Hp.
  simpl. apply str_chars.
Qed.

Lemma rev_cons_inv {A} (l : list A) e r : rev l = e :: r -> l = rev r ++ [e].
Proof. intros E. rewrite <- (rev_involutive l), E. reflexivity. Qed.

Lemma basename_path_join d n :
  plain n = true -> basename (path_join d n) = n.
Proof.
  intros Hp. unfold path_join.
  destruct (chars n) as [|c cs] eqn:En.
  - assert (n = ""%string) as -> by (apply chars_inj; exact En).
    destruct (rev (chars d)) as [|e r] eqn:Ed; [reflexivity|].
    apply rev_cons_inv in Ed.
    destruct (Ascii.eqb e "/") eqn:Ee.
    + apply Ascii.eqb_eq in Ee. subst e. unfold basename. rewrite Ed.
      now rewrite basename_acc_sep.
    + unfold basename. rewrite chars_app. simpl.
      now rewrite basename_acc_sep.
  - assert (Hc : Ascii.eqb c "/" = false).
    { unfold plain in Hp. rewrite En in Hp. simpl in Hp.
      apply andb_true_iff in Hp as [Hc _]. now apply negb_true_iff in Hc. }
    rewrite Hc.
    destruct (rev (chars d)) as [|e r] eqn:Ed; [now apply basename_plain|].
    apply rev_cons_inv in Ed.
    destruct (Ascii.eqb e "/") eqn:Ee.
    + apply Ascii.eqb_eq in Ee. subst e. unfold basename.
      rewrite chars_app, Ed, <- app_assoc. simpl.
      rewrite basename_acc_sep by exact Hp. apply str_chars.
    + unfold basename. rewrite !chars_app. simpl.
      rewrite basename_acc_sep by exact Hp. apply str_chars.
Qed.

(** ** Digits, [strftime] and back *)

Lemma digit_char_nat d :
  nat_of_ascii (digit_char d) = Z.to_nat (48 + d mod 10).
Proof.
  unfold digit_char. apply nat_ascii_embedding.
  assert (0 <= d mod 10 < 10) by (apply Z.mod_pos_bound; lia). lia.
Qed.

Lemma is_digit_digit_char d : is_digit (digit_char d) = true.
Proof.
  unfold is_digit. rewrite digit_char_nat.
  assert (0 <= d mod 10 < 10) by (apply Z.mod_pos_bound; lia).
  apply andb_true_iff. split; apply Nat.leb_le; lia.
Qed.

Lemma digit_val_digit_char d : digit_val (digit_char d) = d mod 10.
Proof.
  unfold digit_val. rewrite digit_char_nat.
  assert (0 <= d mod 10 < 10) by (apply Z.mod_pos_bound; lia). lia.
Qed.

Lemma digit_char_digit_val c : is_digit c = true -> digit_char (digit_val c) = c.
Proof.
  unfold is_digit, digit_char, digit_val. intros Hd.
  apply andb_true_iff in Hd as [H1 H2]. apply Nat.leb_le in H1, H2.
  rewrite Z.mod_small by lia.
  replace (Z.to_nat (48 + (Z.of_nat (nat_of_ascii c) - 48))) with (nat_of_ascii c) by lia.
  apply ascii_nat_embedding.
Qed.

Lemma digit_val_range c : is_digit c = true -> 0 <= digit_val c <= 9.
Proof.
  unfold is_digit, digit_val. intros Hd.
  apply andb_true_iff in Hd as [H1 H2]. apply Nat.leb_le in H1, H2. lia.
Qed.

Lemma num_pad2 n : 0 <= n <= 99 -> num (pad2 n) = Some n.
Proof.
  intros Hn. unfold num, pad2. simpl.
  rewrite !is_digit_digit_char, !digit_val_digit_char. f_equal.
  Z.div_mod_to_equations. lia.
Qed.

Lemma num_pad4 n : 0 <= n <= 9999 -> num (pad4 n) = Some n.
Proof.
  intros Hn. unfold num, pad4. simpl.
  rewrite !is_digit_digit_char, !digit_val_digit_char. f_equal.
  Z.div_mod_to_equations. lia.
Qed.

(** ** The pattern search *)

Lemma match_here_spec p s m r :
  match_here p s = Some (m, r) ->
  s = m ++ r /\ Forall2 (fun k c => cls_match k c = true) p m.
Proof.
  revert s m r. induction p as [|k p IH]; simpl; intros s m r E.
  - injection E as <- <-. split; [reflexivity|constructor].
  - destruct s as [|c s]; [discriminate|].
    destruct (cls_match k c) eqn:Hk; [|discriminate].
    destruct (match_here p s) as [[m' r']|] eqn:E'; [|discriminate].
    injection E as <- <-. apply IH in E' as [-> HF].
    split; [reflexivity|now constructor].
Qed.

Lemma match_here_complete p m r :
  Forall2 (fun k c => cls_match k c = true) p m ->
  match_here p (m ++ r) = Some (m, r).
Proof.
  induction 1 as [|k c p m Hk HF IH]; simpl; [reflexivity|].
  now rewrite Hk, IH.
Qed.

Lemma Forall2_last_lit p a m :
  Forall2 (fun k c => cls_match k c = true) (p ++ [L a]) m ->
  exists m0, m = m0 ++ [a].
Proof.
  revert m. induction p as [|k p IH]; simpl; intros m HF.
  - inversion HF as [|? c ? ? Hc HF']; subst. inversion HF'; subst.
    simpl in Hc. apply Ascii.eqb_eq in Hc as <-. now exists [].
  - inversion HF as [|? c ? m' Hc HF']; subst.
    apply IH in HF' as [m0 ->]. now exists (c :: m0).
Qed.

(** A match that reaches the end of the name is the one the search finds. *)
Lemma re_search_at_end pre m :
  Forall2 (fun k c => cls_match k c = true) TIMESTAMP_RE m ->
  re_search (pre ++ m) = Some (firstn 19 (skipn 1 m)).
Proof.
  intros HF.
  assert (Hm : match_here TIMESTAMP_RE m = Some (m, [])).
  { rewrite <- (app_nil_r m) at 1. now apply match_here_complete. }
  assert (Hlen : length m = 24%nat) by (apply Forall2_length in HF; now rewrite <- HF).
  destruct (Forall2_last_lit (firstn 23 TIMESTAMP_RE) "g"%char m HF) as [m0 Em0].
  induction pre as [|c pre IH].
  - simpl app. destruct m as [|c m']; [discriminate|].
    unfold re_search; fold re_search. now rewrite Hm.
  - simpl app. unfold re_search; fold re_search.
    destruct (match_here TIMESTAMP_RE (c :: pre ++ m)) as [[m' r']|] eqn:E;
      [|exact IH].
    destruct (at_dollar r') eqn:Hd; [exfalso|exact IH].
    apply match_here_spec in E as [Es HF'].
    assert (Hlen' : length m' = 24%nat)
      by (apply Forall2_length in HF'; now rewrite <- HF').
    assert (Hr : length r' = S (length pre)).
    { apply (f_equal (@length ascii)) in Es. simpl in Es.
      rewrite !length_app in Es. lia. }
    destruct r' as [|x [|y r']]; simpl in Hd, Hr; try discriminate.
    apply Ascii.eqb_eq in Hd. subst x.
    destruct pre; [|discriminate]. simpl in Es.
    rewrite Em0 in Es. rewrite app_comm_cons in Es.
    apply app_inj_tail in Es as [_ Es]. discriminate.
Qed.

Lemma days_in_month_le y m : days_in_month y m <= 31.
Proof.
  unfold days_in_month.
  destruct (m =? 2); [destruct (is_leap y); lia|].
  destruct ((m =? 4) || (m =? 6) || (m =? 9) || (m =? 11)); lia.
Qed.

Lemma dt_valid_ranges d :
  dt_valid d = true ->
  1 <= year d <= 9999 /\ 1 <= month d <= 12 /\
  1 <= day d <= days_in_month (year d) (month d) /\
  0 <= hour d <= 23 /\ 0 <= minute d <= 59 /\ 0 <= second d <= 59.
Proof.
  unfold dt_valid. rewrite !andb_true_iff, !Z.leb_le. tauto.
Qed.

(** Reading back what [strftime] wrote gives the time, to the second. *)
Lemma strptime_strftime d :
  dt_valid d = true -> strptime (strftime_ts d) = Some (trunc_seconds d).
Proof.
  intros Hv. pose proof (dt_valid_ranges d Hv) as (Hy & Hm & Hd & Hh & Hmi & Hs).
  pose proof (days_in_month_le (year d) (month d)).
  unfold strptime, strftime_ts, slice.
  cbn [app firstn skipn pad2 pad4].
  change [digit_char (year d / 1000); digit_char (year d / 100);
          digit_char (year d / 10); digit_char (year d)] with (pad4 (year d)).
  change [digit_char (month d / 10); digit_char (month d)] with (pad2 (month d)).
  change [digit_char (day d / 10); digit_char (day d)] with (pad2 (day d)).
  change [digit_char (hour d / 10); digit_char (hour d)] with (pad2 (hour d)).
  change [digit_char (minute d / 10); digit_char (minute d)] with (pad2 (minute d)).
  change [digit_char (second d / 10); digit_char (second d)] with (pad2 (second d)).
  rewrite num_pad4 by lia. rewrite !num_pad2 by lia.
  cbn [length Nat.eqb andb].
  replace (dt_valid _) with (dt_valid d) by (destruct d; reflexivity).
  now rewrite Hv.
Qed.

Lemma strftime_ts_shape d :
  Forall2 (fun k c => cls_match k c = true) TIMESTAMP_RE
    ("_"%char :: strftime_ts d ++ chars ".log").
Proof.
  unfold TIMESTAMP_RE, strftime_ts, pad2, pad4. simpl.
  repeat (constructor; [first [apply is_digit_digit_char | reflexivity]|]).
  constructor.
Qed.

Lemma length_strftime_ts d : length (strftime_ts d) = 19%nat.
Proof. reflexivity. Qed.

Lemma re_search_strftime pre d :
  re_search (pre ++ "_"%char :: strftime_ts d ++ chars ".log") = Some (strftime_ts d).
Proof.
  rewrite re_search_at_end by apply strftime_ts_shape.
  change (skipn 1 ("_"%char :: strftime_ts d ++ chars ".log"))
    with (strftime_ts d ++ chars ".log").
  rewrite List.firstn_app, length_strftime_ts.
  rewrite List.firstn_all2 by (rewrite length_strftime_ts; lia).
  change (19 - 19)%nat with 0%nat. rewrite List.firstn_O. now rewrite app_nil_r.
Qed.

Lemma digit_char_not_sep d : Ascii.eqb (digit_char d) "/" = false.
Proof.
  apply Ascii.eqb_neq. intros E. apply (f_equal nat_of_ascii) in E.
  rewrite digit_char_nat in E. change (nat_of_ascii "/") with 47%nat in E.
  assert (0 <= d mod 10 < 10) by (apply Z.mod_pos_bound; lia). lia.
Qed.

Lemma plain_chars_app a b :
  plain_chars (a ++ b) = plain_chars a && plain_chars b.
Proof. apply forallb_app. Qed.

Lemma plain_strftime_ts d : plain_chars (strftime_ts d) = true.
Proof.
  unfold strftime_ts, pad2, pad4, plain_chars. simpl.
  now rewrite !digit_char_not_sep.
Qed.

Lemma chars_session_name m d :
  chars (session_name m d) = chars m ++ "_"%char :: strftime_ts d ++ chars ".log".
Proof.
  unfold session_name. rewrite !chars_app, chars_str. reflexivity.
Qed.

Lemma plain_session_name m d : plain m = true -> plain (session_name m d) = true.
Proof.
  unfold plain. intros Hm. rewrite chars_session_name, plain_chars_app, Hm.
  change ("_"%char :: strftime_ts d ++ chars ".log")
    with (["_"%char] ++ strftime_ts d ++ chars ".log").
  rewrite !plain_chars_app, plain_strftime_ts. reflexivity.
Qed.

(** The session file's name parses back to the time it was made. *)
Lemma parse_session_name log_dir m d :
  plain m = true -> dt_valid d = true ->
  _parse_timestamp_from_filename (path_join log_dir (session_name m d))
  = Some (trunc_seconds d).
Proof.
  intros Hm Hv. unfold _parse_timestamp_from_filename.
  rewrite basename_path_join by now apply plain_session_name.
  rewrite chars_session_name, re_search_strftime.
  now apply strptime_strftime.
Qed.

(** ** The directory and the deletion loop *)

Lemma name_is_eq n g : name_is n g = true <-> fname g = n.
Proof. unfold name_is. apply String.eqb_eq. Qed.

Lemma name_is_neq n g : name_is n g = false <-> fname g <> n.
Proof. unfold name_is. apply String.eqb_neq. Qed.

Lemma find_name_in fs g :
  List.NoDup (map fname fs) -> In g fs ->
  List.find (name_is (fname g)) fs = Some g.
Proof.
  induction fs as [|x fs IH]; simpl; intros Hnd Hin; [contradiction|].
  inversion Hnd as [|? ? Hx Hnd']; subst.
  destruct Hin as [->|Hin].
  - now rewrite (proj2 (name_is_eq (fname g) g) eq_refl).
  - destruct (name_is (fname g) x) eqn:E; [|now apply IH].
    exfalso. apply name_is_eq in E. apply Hx. rewrite E. now apply in_map.
Qed.

Lemma wf_dir_plain fs g : wf_dir fs -> In g fs -> plain (fname g) = true.
Proof. intros [_ Hp] Hin. rewrite List.Forall_forall in Hp. now apply Hp. Qed.

Lemma fs_find_path fs log_dir g :
  wf_dir fs -> In g fs -> fs_find fs (path_join log_dir (fname g)) = Some g.
Proof.
  intros Hwf Hin. unfold fs_find.
  rewrite basename_path_join by (eapply wf_dir_plain; eauto).
  apply find_name_in; [apply Hwf|exact Hin].
Qed.

Lemma getmtime_path fs log_dir g :
  wf_dir fs -> In g fs -> getmtime fs (path_join log_dir (fname g)) = mtime g.
Proof. intros Hwf Hin. unfold getmtime. now rewrite fs_find_path. Qed.

Lemma can_remove_path fs log_dir g :
  wf_dir fs -> In g fs -> can_remove fs (path_join log_dir (fname g)) = removable g.
Proof. intros Hwf Hin. unfold can_remove. now rewrite fs_find_path. Qed.

Lemma glob_matched `{Platform} fs log_dir pat :
  glob fs log_dir pat = map (fun g => path_join log_dir (fname g)) (matched fs pat).
Proof. reflexivity. Qed.

Lemma in_matched `{Platform} fs pat g :
  In g (matched fs pat) <-> In g fs /\ glob1 pat (fname g) = true.
Proof. unfold matched. apply List.filter_In. Qed.

Lemma in_glob `{Platform} fs log_dir pat p :
  In p (glob fs log_dir pat) <->
  exists g, In g fs /\ glob1 pat (fname g) = true /\ p = path_join log_dir (fname g).
Proof.
  rewrite glob_matched, in_map_iff. split.
  - intros (g & <- & Hg). apply in_matched in Hg as [? ?]. eauto.
  - intros (g & Hin & Hm & ->). exists g. split; [reflexivity|].
    now apply in_matched.
Qed.

Lemma NoDup_map_filter {A B} (g : A -> B) (P : A -> bool) l :
  List.NoDup (map g l) -> List.NoDup (map g (List.filter P l)).
Proof.
  induction l as [|x l IH]; simpl; intros Hnd; [constructor|].
  inversion Hnd as [|? ? Hx Hnd']; subst.
  destruct (P x); simpl; [|now apply IH].
  constructor; [|now apply IH].
  intros Hin. apply Hx. apply in_map_iff in Hin as (y & Ey & Hy).
  apply List.filter_In in Hy as [Hy _]. rewrite <- Ey. now apply in_map.
Qed.

Lemma NoDup_firstn {A} n (l : list A) : List.NoDup l -> List.NoDup (firstn n l).
Proof.
  intros Hnd. rewrite <- (firstn_skipn n l) in Hnd.
  now apply List.NoDup_app_remove_r in Hnd.
Qed.

Lemma basename_glob `{Platform} fs log_dir pat :
  wf_dir fs ->
  map basename (glob fs log_dir pat) = map fname (matched fs pat).
Proof.
  intros Hwf. rewrite glob_matched, map_map. apply map_ext_in.
  intros g Hg. apply in_matched in Hg as [Hg _].
  apply basename_path_join. eapply wf_dir_plain; eauto.
Qed.

Lemma NoDup_basename_glob `{Platform} fs log_dir pat :
  wf_dir fs -> List.NoDup (map basename (glob fs log_dir pat)).
Proof.
  intros Hwf. rewrite basename_glob by exact Hwf.
  apply NoDup_map_filter, Hwf.
Qed.

Lemma NoDup_glob `{Platform} fs log_dir pat :
  wf_dir fs -> List.NoDup (glob fs log_dir pat).
Proof.
  intros Hwf. eapply List.NoDup_map_inv. now apply NoDup_basename_glob.
Qed.

Lemma find_filter_other n n' fs :
  n <> n' ->
  List.find (name_is n) (List.filter (fun g => negb (name_is n' g)) fs)
  = List.find (name_is n) fs.
Proof.
  intros Hne. induction fs as [|x fs IH]; simpl; [reflexivity|].
  destruct (name_is n' x) eqn:E'; simpl.
  - destruct (name_is n x) eqn:E; [|exact IH].
    apply name_is_eq in E, E'. congruence.
  - now rewrite IH.
Qed.

Lemma os_remove_spec fs path :
  os_remove fs path = if can_remove fs path then Some (fs_minus fs [path]) else None.
Proof.
  unfold os_remove, can_remove, fs_minus.
  destruct (fs_find fs path) as [g|]; [|reflexivity].
  destruct (removable g); [|reflexivity].
  f_equal. apply List.filter_ext. intros a. simpl. now rewrite orb_false_r.
Qed.

Lemma filter_filter {A} (P Q : A -> bool) l :
  List.filter P (List.filter Q l) = List.filter (fun x => Q x && P x) l.
Proof.
  induction l as [|x l IH]; simpl; [reflexivity|].
  destruct (Q x); simpl; [destruct (P x)|]; now rewrite IH.
Qed.

Lemma fs_minus_cons fs p ps : fs_minus (fs_minus fs [p]) ps = fs_minus fs (p :: ps).
Proof.
  unfold fs_minus. rewrite filter_filter. apply List.filter_ext.
  intros a. simpl. rewrite orb_false_r. now rewrite negb_orb.
Qed.

Lemma fs_minus_nil fs : fs_minus fs [] = fs.
Proof.
  unfold fs_minus. induction fs as [|x fs IH]; [reflexivity|].
  cbn [List.filter existsb negb]. now f_equal.
Qed.

Lemma can_remove_minus fs p q :
  basename q <> basename p -> can_remove (fs_minus fs [p]) q = can_remove fs q.
Proof.
  intros Hne. unfold can_remove, fs_find, fs_minus.
  rewrite (List.filter_ext _ (fun g => negb (name_is (basename p) g))).
  - now rewrite find_filter_other.
  - intros a. simpl. now rewrite orb_false_r.
Qed.

(** What the loop returns and leaves: the candidates [os.remove] accepts,
    in their order, and the directory without them. *)
Lemma delete_loop_spec cands : forall fs acc,
  List.NoDup (map basename cands) ->
  delete_loop fs cands acc
  = (acc ++ List.filter (can_remove fs) cands,
     fs_minus fs (List.filter (can_remove fs) cands)).
Proof.
  induction cands as [|p rest IH]; simpl; intros fs acc Hnd.
  - now rewrite app_nil_r, fs_minus_nil.
  - inversion Hnd as [|? ? Hp Hnd']; subst.
    assert (Hrest : forall fs',
      fs' = fs_minus fs [p] ->
      List.filter (can_remove fs') rest = List.filter (can_remove fs) rest).
    { intros fs' ->. apply List.filter_ext_in. intros q Hq.
      apply can_remove_minus. intros E. apply Hp. rewrite <- E.
      now apply in_map. }
    rewrite os_remove_spec. destruct (can_remove fs p) eqn:Hc.
    + rewrite IH by exact Hnd'. rewrite (Hrest _ eq_refl).
      rewrite fs_minus_cons, <- app_assoc. reflexivity.
    + now apply IH.
Qed.

Lemma in_fs_minus fs ps g :
  In g (fs_minus fs ps) <->
  In g fs /\ forall p, In p ps -> basename p <> fname g.
Proof.
  unfold fs_minus. rewrite List.filter_In, negb_true_iff.
  split; intros [Hin Hx]; split; auto.
  - intros p Hp E. apply not_true_iff_false in Hx. apply Hx.
    apply existsb_exists. exists p. split; [exact Hp|]. now apply name_is_eq.
  - apply not_true_iff_false. intros Hex.
    apply existsb_exists in Hex as (p & Hp & E). apply name_is_eq in E.
    now apply (Hx p).
Qed.

(** ** Patterns *)

Lemma is_prefix_spec p s : is_prefix p s = true <-> exists r, s = p ++ r.
Proof.
  revert s. induction p as [|a p IH]; intros s; simpl.
  - split; [intros _; now exists s|reflexivity].
  - destruct s as [|c s].
    + split; [discriminate|intros [r Hr]; discriminate].
    + rewrite andb_true_iff, IH. split.
      * intros [Hac [r ->]]. apply Ascii.eqb_eq in Hac as ->. now exists r.
      * intros [r [= -> ->]]. split; [apply Ascii.eqb_refl|now exists r].
Qed.

Lemma has_suffix_spec suf s : has_suffix suf s = true <-> exists pre, s = pre ++ suf.
Proof.
  unfold has_suffix. rewrite is_prefix_spec. split.
  - intros [r Hr]. exists (rev r).
    rewrite <- (rev_involutive s), Hr, rev_app_distr, rev_involutive. reflexivity.
  - intros [pre ->]. exists (rev pre). apply rev_app_distr.
Qed.

Section PatternFacts.
Context `{Platform}.

Lemma glob_match_star ts s :
  glob_match (TStar :: ts) s
  = glob_match ts s
    || match s with [] => false | _ :: s' => glob_match (TStar :: ts) s' end.
Proof. destruct s; reflexivity. Qed.

Lemma glob_match_star_spec ts s :
  glob_match (TStar :: ts) s = true <->
  exists a b, s = a ++ b /\ glob_match ts b = true.
Proof.
  induction s as [|c s IH]; rewrite glob_match_star.
  - rewrite orb_false_r. split.
    + intros Hm. now exists [], [].
    + intros (a & b & E & Hm). symmetry in E.
      apply app_eq_nil in E as [-> ->]. exact Hm.
  - rewrite orb_true_iff, IH. split.
    + intros [Hm|(a & b & -> & Hm)].
      * now exists [], (c :: s).
      * now exists (c :: a), b.
    + intros (a & b & E & Hm). destruct a as [|a0 a].
      * left. simpl in E. now subst b.
      * right. injection E as -> ->. now exists a, b.
Qed.

Lemma glob_match_app ts1 ts2 s :
  glob_match (ts1 ++ ts2) s = true <->
  exists s1 s2, s = s1 ++ s2 /\ glob_match ts1 s1 = true /\ glob_match ts2 s2 = true.
Proof.
  revert s. induction ts1 as [|t ts1 IH]; intros s.
  - simpl app. split.
    + intros Hm. now exists [], s.
    + intros (s1 & s2 & -> & H1 & H2). destruct s1; [exact H2|discriminate].
  - destruct t.
    + change ((TStar :: ts1) ++ ts2) with (TStar :: (ts1 ++ ts2)).
      rewrite glob_match_star_spec. split.
      * intros (a & b & -> & Hm). apply IH in Hm as (s1 & s2 & -> & H1 & H2).
        exists (a ++ s1), s2. rewrite app_assoc. split; [reflexivity|].
        split; [|exact H2]. apply glob_match_star_spec. now exists a, s1.
      * intros (s1 & s2 & -> & H1 & H2).
        apply glob_match_star_spec in H1 as (a & b & -> & H1).
        exists a, (b ++ s2). rewrite app_assoc. split; [reflexivity|].
        apply IH. now exists b, s2.
    + simpl. destruct s as [|c s].
      * split; [discriminate|].
        intros (s1 & s2 & E & H1 & _). destruct s1; discriminate.
      * rewrite IH. split.
        -- intros (s1 & s2 & -> & H1 & H2). now exists (c :: s1), s2.
        -- intros (s1 & s2 & E & H1 & H2). destruct s1 as [|c1 s1]; [discriminate|].
           injection E as -> ->. now exists s1, s2.
    + simpl. destruct s as [|c0 s].
      * split; [discriminate|].
        intros (s1 & s2 & E & H1 & _). destruct s1; discriminate.
      * rewrite andb_true_iff, IH. split.
        -- intros (Hc & s1 & s2 & -> & H1 & H2). exists (c0 :: s1), s2.
           simpl. now rewrite Hc, H1.
        -- intros (s1 & s2 & E & H1 & H2). destruct s1 as [|c1 s1]; [discriminate|].
           injection E as -> ->. apply andb_true_iff in H1 as [Hc H1].
           split; [exact Hc|]. now exists s1, s2.
    + simpl. destruct s as [|c0 s].
      * split; [discriminate|].
        intros (s1 & s2 & E & H1 & _). destruct s1; discriminate.
      * rewrite andb_true_iff, IH. split.
        -- intros (Hc & s1 & s2 & -> & H1 & H2). exists (c0 :: s1), s2.
           simpl. now rewrite Hc, H1.
        -- intros (s1 & s2 & E & H1 & H2). destruct s1 as [|c1 s1]; [discriminate|].
           injection E as -> ->. apply andb_true_iff in H1 as [Hc H1].
           split; [exact Hc|]. now exists s1, s2.
Qed.

Lemma glob_match_lits l s : glob_match (map TLit l) s = true <-> s = l.
Proof.
  revert s. induction l as [|a l IH]; intros [|c s]; simpl;
    try (split; [discriminate|discriminate]); try tauto.
  rewrite andb_true_iff, IH, Ascii.eqb_eq. split.
  - intros [-> ->]. reflexivity.
  - intros [= -> ->]. auto.
Qed.

Lemma glob_match_star_log ts s :
  glob_match (ts ++ star_log) s = true <->
  exists s1 x, s = s1 ++ x ++ chars ".log" /\ glob_match ts s1 = true.
Proof.
  rewrite glob_match_app. split.
  - intros (s1 & s2 & -> & H1 & H2).
    apply glob_match_star_spec in H2 as (a & b & -> & Hb).
    apply glob_match_lits in Hb as ->. now exists s1, a.
  - intros (s1 & x & -> & H1). exists s1, (x ++ chars ".log").
    split; [reflexivity|]. split; [exact H1|].
    apply glob_match_star_spec. exists x, (chars ".log").
    split; [reflexivity|]. now apply glob_match_lits.
Qed.

Lemma fnmatch_log name : fnmatch name "*.log" = ends_log name.
Proof.
  unfold fnmatch, ends_log.
  change (tokens 0 (chars "*.log")) with ([] ++ star_log).
  apply eq_true_iff_eq. rewrite glob_match_star_log, has_suffix_spec. split.
  - intros (s1 & x & -> & H1). destruct s1; [|discriminate]. now exists x.
  - intros [pre ->]. now exists [], pre.
Qed.

Lemma scan_close_app r suf :
  no_close suf = true ->
  scan_close (r ++ suf)
  = match scan_close r with
    | Some (s, rest) => Some (s, rest ++ suf)
    | None => None
    end.
Proof.
  intros Hs. induction r as [|c r IH]; simpl.
  - induction suf as [|c suf IH]; simpl; [reflexivity|].
    simpl in Hs. apply andb_true_iff in Hs as [Hc Hs].
    apply negb_true_iff in Hc. rewrite Hc. now rewrite IH.
  - destruct (Ascii.eqb c "]"); [reflexivity|].
    rewrite IH. now destruct (scan_close r) as [[s rest]|].
Qed.

Lemma scan_close_length r s rest :
  scan_close r = Some (s, rest) -> length r = S (length s + length rest).
Proof.
  revert s rest. induction r as [|c r IH]; simpl; intros s rest E; [discriminate|].
  destruct (Ascii.eqb c "]").
  - injection E as <- <-. reflexivity.
  - destruct (scan_close r) as [[s' rest']|]; [|discriminate].
    injection E as <- <-. simpl. f_equal. now apply IH.
Qed.

Lemma scan_close_none suf : no_close suf = true -> scan_close suf = None.
Proof. intros Hs. exact (scan_close_app [] suf Hs). Qed.

Lemma strip_cons_app x c r suf :
  strip x ((c :: r) ++ suf) = (fst (strip x (c :: r)), snd (strip x (c :: r)) ++ suf).
Proof. simpl. now destruct (Ascii.eqb c x). Qed.

Lemma strip_no_close x suf :
  no_close suf = true -> no_close (snd (strip x suf)) = true.
Proof.
  destruct suf as [|c q]; simpl; [reflexivity|]. intros Hs.
  destruct (Ascii.eqb c x); simpl; [|exact Hs].
  now apply andb_true_iff in Hs as [_ Hq].
Qed.

Lemma strip_close_no_close suf :
  no_close suf = true -> strip "]" suf = ([], suf).
Proof.
  destruct suf as [|c q]; simpl; [reflexivity|]. intros Hs.
  apply andb_true_iff in Hs as [Hc _]. apply negb_true_iff in Hc.
  now rewrite Hc.
Qed.

Lemma bracket_no_close suf : no_close suf = true -> bracket suf = None.
Proof.
  intros Hs. unfold bracket.
  pose proof (strip_no_close "!" suf Hs) as H1.
  destruct (strip "!" suf) as [pre1 p1]. simpl in H1.
  rewrite (strip_close_no_close p1 H1).
  now rewrite scan_close_none.
Qed.

Lemma bracket_app r suf :
  no_close suf = true ->
  bracket (r ++ suf)
  = match bracket r with
    | Some (s, rest) => Some (s, rest ++ suf)
    | None => None
    end.
Proof.
  intros Hs. destruct r as [|c r].
  - simpl app. now rewrite bracket_no_close.
  - unfold bracket. rewrite strip_cons_app.
    destruct (strip "!" (c :: r)) as [pre1 p1]. cbn [fst snd].
    destruct p1 as [|c' p1].
    + simpl app. rewrite (strip_close_no_close suf Hs).
      now rewrite scan_close_none.
    + rewrite strip_cons_app.
      destruct (strip "]" (c' :: p1)) as [pre2 p2]. cbn [fst snd].
      rewrite scan_close_app by exact Hs.
      now destruct (scan_close p2) as [[s rest]|].
Qed.

Lemma strip_length x p :
  length p = (length (fst (strip x p)) + length (snd (strip x p)))%nat.
Proof. destruct p as [|c q]; simpl; [reflexivity|]. now destruct (Ascii.eqb c x). Qed.

Lemma bracket_length r s rest :
  bracket r = Some (s, rest) -> (S (length s) <= length r)%nat.
Proof.
  unfold bracket.
  pose proof (strip_length "!" r) as H1.
  destruct (strip "!" r) as [pre1 p1]. cbn [fst snd] in H1.
  pose proof (strip_length "]" p1) as H2.
  destruct (strip "]" p1) as [pre2 p2]. cbn [fst snd] in H2.
  destruct (scan_close p2) as [[s' rest']|] eqn:E; [|discriminate].
  intros [= <- <-]. apply scan_close_length in E.
  rewrite !length_app. lia.
Qed.

(** A suffix without a closing bracket is translated on its own. *)
Lemma tokens_app suf m :
  no_close suf = true ->
  forall k, (k <= length m)%nat ->
  tokens k (m ++ suf) = tokens k m ++ tokens 0 suf.
Proof.
  intros Hs. induction m as [|c m IH]; intros k Hk.
  - simpl in Hk. assert (k = 0%nat) as -> by lia. reflexivity.
  - simpl app. simpl in Hk. destruct k as [|k].
    + cbn [tokens].
      destruct (Ascii.eqb c "*"); [now rewrite IH by lia|].
      destruct (Ascii.eqb c "?"); [now rewrite IH by lia|].
      destruct (Ascii.eqb c "[").
      * rewrite bracket_app by exact Hs.
        destruct (bracket m) as [[s rest]|] eqn:E.
        -- rewrite IH by (eapply bracket_length; eauto). reflexivity.
        -- now rewrite IH by lia.
      * now rewrite IH by lia.
    + cbn [tokens]. apply IH. lia.
Qed.

Lemma tokens_pattern_of m :
  tokens 0 (chars (Sta.pattern_of m))
  = tokens 0 (chars m) ++ TLit "_"%char :: star_log.
Proof.
  unfold Sta.pattern_of. rewrite chars_app.
  now rewrite tokens_app by (reflexivity || lia).
Qed.

(** Both selectors take names that end in [.log] only. *)
Lemma glob1_log_ends name : glob1 "*.log" name = true -> ends_log name = true.
Proof.
  unfold glob1. rewrite andb_true_iff, fnmatch_log. tauto.
Qed.

Lemma glob1_pattern_of_ends m name :
  glob1 (Sta.pattern_of m) name = true -> ends_log name = true.
Proof.
  unfold glob1, fnmatch. rewrite andb_true_iff, tokens_pattern_of.
  intros [_ Hm].
  change (tokens 0 (chars m) ++ TLit "_"%char :: star_log)
    with (tokens 0 (chars m) ++ [TLit "_"%char] ++ star_log) in Hm.
  rewrite app_assoc in Hm.
  apply glob_match_star_log in Hm as (s1 & x & E & _).
  apply has_suffix_spec. exists (s1 ++ x). rewrite E. now rewrite app_assoc.
Qed.

Lemma tokens_no_magic l :
  forallb (fun c => negb (Ascii.eqb c "*"%char || Ascii.eqb c "?"%char
                          || Ascii.eqb c "["%char)) l = true ->
  tokens 0 l = map TLit l.
Proof.
  induction l as [|c l IH]; simpl; intros Hl; [reflexivity|].
  apply andb_true_iff in Hl as [Hc Hl]. apply negb_true_iff in Hc.
  apply orb_false_iff in Hc as [Hc H3]. apply orb_false_iff in Hc as [H1 H2].
  rewrite H1, H2, H3. now rewrite IH.
Qed.

Lemma fnmatch_pattern_of m name :
  no_magic m = true ->
  fnmatch name (Sta.pattern_of m) = true <->
  exists x, chars name = chars m ++ "_"%char :: x ++ chars ".log".
Proof.
  intros Hm. unfold fnmatch. rewrite tokens_pattern_of.
  rewrite tokens_no_magic by exact Hm.
  change (map TLit (chars m) ++ TLit "_"%char :: star_log)
    with (map TLit (chars m) ++ [TLit "_"%char] ++ star_log).
  rewrite app_assoc. change [TLit "_"%char] with (map TLit ["_"%char]).
  rewrite <- map_app. rewrite glob_match_star_log. split.
  - intros (s1 & x & E & H1). apply glob_match_lits in H1 as ->.
    exists x. rewrite E, <- app_assoc. reflexivity.
  - intros [x E]. exists (chars m ++ ["_"%char]), x. split.
    + rewrite E, <- app_assoc. reflexivity.
    + now apply glob_match_lits.
Qed.
End PatternFacts.

(** ** The two passes *)

Lemma py_slice_to_firstn {A} (l : list A) j :
  exists n, py_slice_to l j = firstn n l /\ (n <= length l)%nat /\
            Z.of_nat n = (if j <? 0 then Z.max 0 (j + Z.of_nat (length l))
                          else Z.min j (Z.of_nat (length l))).
Proof.
  unfold py_slice_to.
  set (j' := if j <? 0 then _ else _).
  exists (Z.to_nat j'). split; [reflexivity|].
  assert (0 <= j' <= Z.of_nat (length l)) by (unfold j'; destruct (j <? 0) eqn:E; lia).
  lia.
Qed.

Lemma NoDup_map_firstn {A B} (g : A -> B) n l :
  List.NoDup (map g l) -> List.NoDup (map g (firstn n l)).
Proof. intros Hnd. rewrite <- List.firstn_map. now apply NoDup_firstn. Qed.

Lemma fs_minus_wf fs ps : wf_dir fs -> wf_dir (fs_minus fs ps).
Proof.
  intros [Hnd Hp]. split.
  - now apply NoDup_map_filter.
  - rewrite List.Forall_forall in *. intros g Hg.
    apply List.filter_In in Hg as [Hg _]. now apply Hp.
Qed.

Lemma filter_name_length n fs :
  List.NoDup (map fname fs) ->
  (length fs <= S (length (List.filter (fun g => negb (name_is n g)) fs)))%nat.
Proof.
  induction fs as [|x fs IH]; simpl; intros Hnd; [lia|].
  inversion Hnd as [|? ? Hx Hnd']; subst.
  destruct (name_is n x) eqn:E; simpl.
  - apply name_is_eq in E.
    rewrite List.forallb_filter_id; [lia|].
    apply forallb_forall. intros g Hg.
    apply negb_true_iff, name_is_neq. intros Eg. apply Hx.
    rewrite E, <- Eg. now apply in_map.
  - specialize (IH Hnd'). lia.
Qed.

Lemma fs_minus_one_length fs p :
  List.NoDup (map fname fs) -> (length fs <= S (length (fs_minus fs [p])))%nat.
Proof.
  intros Hnd. unfold fs_minus.
  rewrite (List.filter_ext _ (fun g => negb (name_is (basename p) g))).
  - now apply filter_name_length.
  - intros a. simpl. now rewrite orb_false_r.
Qed.

(** Each path takes at most one entry away. *)
Lemma fs_minus_length fs ps :
  List.NoDup (map fname fs) ->
  (length fs <= length (fs_minus fs ps) + length ps)%nat.
Proof.
  revert fs. induction ps as [|p ps IH]; intros fs Hnd.
  - rewrite fs_minus_nil. simpl. lia.
  - rewrite <- fs_minus_cons. simpl.
    pose proof (fs_minus_one_length fs p Hnd).
    assert (Hnd' : List.NoDup (map fname (fs_minus fs [p])))
      by now apply NoDup_map_filter.
    specialize (IH _ Hnd'). lia.
Qed.

Section PassFacts.
Context `{Platform}.

Lemma Dyn_sorted_perm fs log_dir :
  Permutation (Dyn.sorted_infos fs log_dir) (Dyn.file_infos fs log_dir).
Proof. apply sort_by_perm. Qed.

Lemma Dyn_sorted_ascending fs log_dir :
  ascending dt_ltb snd (Dyn.sorted_infos fs log_dir).
Proof.
  apply sort_by_ascending;
    [apply dt_ltb_irrefl|apply dt_ltb_trans|apply dt_ltb_negtrans].
Qed.

Lemma Dyn_infos_fst fs log_dir :
  map fst (Dyn.file_infos fs log_dir) = glob fs log_dir "*.log".
Proof.
  unfold Dyn.file_infos. rewrite map_map. simpl. apply map_id.
Qed.

Lemma Dyn_sorted_fst_perm fs log_dir :
  Permutation (map fst (Dyn.sorted_infos fs log_dir)) (glob fs log_dir "*.log").
Proof.
  rewrite <- Dyn_infos_fst. apply Permutation_map, Dyn_sorted_perm.
Qed.

Lemma Dyn_sorted_length fs log_dir :
  length (Dyn.sorted_infos fs log_dir) = length (glob fs log_dir "*.log").
Proof.
  rewrite <- (length_map fst). apply Permutation_length, Dyn_sorted_fst_perm.
Qed.

(** The candidates are a front of the sorted list, never longer than
    [max(0, total - keep)]. *)
Lemma Dyn_to_delete_front fs log_dir keep :
  exists n,
    Dyn.to_delete fs log_dir keep = map fst (firstn n (Dyn.sorted_infos fs log_dir)) /\
    (n <= length (glob fs log_dir "*.log"))%nat /\
    Z.of_nat n <= Z.max 0 (Z.of_nat (length (glob fs log_dir "*.log")) - keep) /\
    (0 <= keep -> Z.of_nat n = Z.max 0 (Z.of_nat (length (glob fs log_dir "*.log")) - keep)).
Proof.
  unfold Dyn.to_delete. cbv zeta. rewrite Dyn_sorted_length.
  set (total := Z.of_nat (length (glob fs log_dir "*.log"))).
  destruct (keep <? total) eqn:E.
  - apply Z.ltb_lt in E.
    destruct (py_slice_to_firstn (Dyn.sorted_infos fs log_dir) (total - keep))
      as (n & -> & Hn & Hz).
    rewrite Dyn_sorted_length in Hn, Hz. fold total in Hz.
    exists n. split; [reflexivity|]. split; [exact Hn|].
    destruct (total - keep <? 0) eqn:E'; [apply Z.ltb_lt in E'|apply Z.ltb_ge in E']; lia.
  - apply Z.ltb_ge in E. exists 0%nat. simpl. repeat split; lia.
Qed.

Lemma Dyn_to_delete_incl fs log_dir keep :
  incl (Dyn.to_delete fs log_dir keep) (glob fs log_dir "*.log").
Proof.
  destruct (Dyn_to_delete_front fs log_dir keep) as (n & -> & _).
  intros p Hp. eapply Permutation_in; [apply Dyn_sorted_fst_perm|].
  rewrite <- List.firstn_map in Hp.
  rewrite <- (firstn_skipn n (map fst _)). apply in_or_app. now left.
Qed.

Lemma Dyn_to_delete_NoDup fs log_dir keep :
  wf_dir fs -> List.NoDup (map basename (Dyn.to_delete fs log_dir keep)).
Proof.
  intros Hwf. destruct (Dyn_to_delete_front fs log_dir keep) as (n & -> & _).
  rewrite <- List.firstn_map. apply NoDup_map_firstn.
  eapply Permutation_NoDup;
    [apply Permutation_map; symmetry; apply Dyn_sorted_fst_perm|].
  now apply NoDup_basename_glob.
Qed.

(** A pass of the global variant returns the candidates it could remove,
    in order, and leaves the directory without them. *)
Lemma Dyn_purge_spec fs log_dir keep :
  wf_dir fs ->
  Dyn._purge_old_logs_global fs log_dir keep
  = (List.filter (can_remove fs) (Dyn.to_delete fs log_dir keep),
     fs_minus fs (List.filter (can_remove fs) (Dyn.to_delete fs log_dir keep))).
Proof.
  intros Hwf. unfold Dyn._purge_old_logs_global.
  destruct (glob fs log_dir "*.log") as [|p ps] eqn:E.
  - assert (Dyn.to_delete fs log_dir keep = []) as ->.
    { pose proof (Dyn_to_delete_incl fs log_dir keep) as Hi. rewrite E in Hi.
      destruct (Dyn.to_delete fs log_dir keep) as [|q qs]; [reflexivity|].
      exfalso. apply (Hi q). now left. }
    simpl. now rewrite fs_minus_nil.
  - rewrite delete_loop_spec by now apply Dyn_to_delete_NoDup.
    reflexivity.
Qed.

Lemma with_mtime_fst fs files keyed :
  Sta.with_mtime fs files = Some keyed -> map fst keyed = files.
Proof.
  revert keyed. induction files as [|p files IH]; simpl; intros keyed E.
  - now injection E as <-.
  - destruct (getmtime fs p) as [t|]; [|discriminate].
    destruct (Sta.with_mtime fs files) as [l|]; [|discriminate].
    injection E as <-. simpl. f_equal. now apply IH.
Qed.

Lemma with_mtime_snd fs files keyed :
  Sta.with_mtime fs files = Some keyed ->
  forall p t, In (p, t) keyed -> getmtime fs p = Some t.
Proof.
  revert keyed. induction files as [|p files IH]; simpl; intros keyed E q t Hin.
  - injection E as <-. contradiction.
  - destruct (getmtime fs p) as [tp|] eqn:Ep; [|discriminate].
    destruct (Sta.with_mtime fs files) as [l|]; [|discriminate].
    injection E as <-. destruct Hin as [[= <- <-]|Hin]; [exact Ep|].
    now apply (IH l).
Qed.

(** The sort raises exactly when some selected file has no readable
    modification time. *)
Lemma with_mtime_some fs files :
  (forall p, In p files -> getmtime fs p <> None) <->
  exists keyed, Sta.with_mtime fs files = Some keyed.
Proof.
  induction files as [|p files IH]; simpl.
  - split; [intros _; now exists []|intros _ p []].
  - split.
    + intros Hall. destruct (getmtime fs p) as [t|] eqn:Ep.
      * destruct (proj1 IH) as [l ->]; [intros q Hq; apply Hall; now right|].
        now exists ((p, t) :: l).
      * exfalso. apply (Hall p); [now left|exact Ep].
    + intros [keyed E] q [<-|Hq].
      * destruct (getmtime fs p); [discriminate|].
        discriminate.
      * destruct (getmtime fs p); [|discriminate].
        destruct (Sta.with_mtime fs files) as [l|] eqn:El; [|discriminate].
        apply (proj2 IH); eauto.
Qed.

Lemma Sta_sorted_perm fs m log_dir files :
  Sta.sorted_files fs m log_dir = Some files ->
  Permutation files (glob fs log_dir (Sta.pattern_of m)).
Proof.
  unfold Sta.sorted_files.
  destruct (Sta.with_mtime fs _) as [keyed|] eqn:E; [|discriminate].
  intros [= <-]. rewrite <- (with_mtime_fst _ _ _ E).
  apply Permutation_map, sort_by_perm.
Qed.

Lemma Sta_to_delete_front fs m log_dir keep cands :
  Sta.to_delete fs m log_dir keep = Some cands ->
  exists files n,
    Sta.sorted_files fs m log_dir = Some files /\
    cands = firstn n files /\
    (n <= length files)%nat /\
    Z.of_nat n <= Z.max 0 (Z.of_nat (length files) - keep) /\
    (1 <= keep -> Z.of_nat n = Z.max 0 (Z.of_nat (length files) - keep)).
Proof.
  unfold Sta.to_delete.
  destruct (Sta.sorted_files fs m log_dir) as [files|]; [|discriminate].
  destruct (keep <? Z.of_nat (length files)) eqn:E; intros [= <-].
  - apply Z.ltb_lt in E.
    destruct (py_slice_to_firstn files (- keep)) as (n & -> & Hn & Hz).
    exists files, n. split; [reflexivity|]. split; [reflexivity|].
    split; [exact Hn|].
    destruct (- keep <? 0) eqn:E'; [apply Z.ltb_lt in E'|apply Z.ltb_ge in E']; lia.
  - apply Z.ltb_ge in E. exists files, 0%nat. simpl. repeat split; lia.
Qed.

Lemma Sta_to_delete_incl fs m log_dir keep cands :
  Sta.to_delete fs m log_dir keep = Some cands ->
  incl cands (glob fs log_dir (Sta.pattern_of m)).
Proof.
  intros E. apply Sta_to_delete_front in E as (files & n & Hf & -> & _).
  intros p Hp. eapply Permutation_in; [eapply Sta_sorted_perm; eauto|].
  rewrite <- (firstn_skipn n files). apply in_or_app. now left.
Qed.

Lemma Sta_to_delete_NoDup fs m log_dir keep cands :
  wf_dir fs -> Sta.to_delete fs m log_dir keep = Some cands ->
  List.NoDup (map basename cands).
Proof.
  intros Hwf E. apply Sta_to_delete_front in E as (files & n & Hf & -> & _).
  apply NoDup_map_firstn.
  eapply Permutation_NoDup;
    [apply Permutation_map; symmetry; eapply Sta_sorted_perm; eauto|].
  now apply NoDup_basename_glob.
Qed.

(** A pass of the scoped variant: it raises when the sort does, and
    otherwise returns the candidates it could remove. *)
Lemma Sta_purge_spec fs m log_dir keep :
  wf_dir fs ->
  Sta._purge_old_timestamped_logs fs m log_dir keep
  = match Sta.to_delete fs m log_dir keep with
    | None => Raise OSError
    | Some cands =>
        Ok (List.filter (can_remove fs) cands,
            fs_minus fs (List.filter (can_remove fs) cands))
    end.
Proof.
  intros Hwf. unfold Sta._purge_old_timestamped_logs.
  destruct (glob fs log_dir (Sta.pattern_of m)) as [|p ps] eqn:E.
  - assert (Sta.to_delete fs m log_dir keep = Some []) as ->.
    { unfold Sta.to_delete, Sta.sorted_files. rewrite E.
      cbn [Sta.with_mtime sort_by fold_right map length].
      destruct (keep <? Z.of_nat 0); [|reflexivity].
      unfold py_slice_to. now rewrite List.firstn_nil. }
    cbn [List.filter]. now rewrite fs_minus_nil.
  - destruct (Sta.to_delete fs m log_dir keep) as [cands|] eqn:Ec; [|reflexivity].
    rewrite delete_loop_spec by (eapply Sta_to_delete_NoDup; eauto).
    reflexivity.
Qed.
End PassFacts.

(** ** Checking a listing *)

Lemma nodupb_ok l : nodupb l = true -> List.NoDup l.
Proof.
  induction l as [|x l IH]; simpl; intros Hb; [constructor|].
  apply andb_true_iff in Hb as [Hx Hl]. constructor; [|now apply IH].
  intros Hin. apply negb_true_iff in Hx. apply not_true_iff_false in Hx.
  apply Hx, existsb_exists. exists x. split; [exact Hin|apply String.eqb_refl].
Qed.

Lemma wf_dirb_ok fs : wf_dirb fs = true -> wf_dir fs.
Proof.
  unfold wf_dirb, wf_dir. intros Hb. apply andb_true_iff in Hb as [Hn Hp].
  split; [now apply nodupb_ok|].
  apply List.Forall_forall. now apply forallb_forall.
Qed.

Lemma rotated_name_not_log n d : ends_log (rotated_name n d) = false.
Proof.
  apply not_true_iff_false. unfold ends_log. rewrite has_suffix_spec.
  intros [pre E]. unfold rotated_name in E. rewrite !chars_app, chars_str in E.
  unfold strftime_date, pad2 in E.
  change (chars ".log") with (chars ".lo" ++ ["g"%char]) in E.
  replace (chars n ++ chars "." ++ pad4 (year d) ++ ["-"%char]
           ++ [digit_char (month d / 10); digit_char (month d)] ++ ["-"%char]
           ++ [digit_char (day d / 10); digit_char (day d)])
    with ((chars n ++ chars "." ++ pad4 (year d) ++ ["-"%char]
           ++ [digit_char (month d / 10); digit_char (month d)] ++ ["-"%char]
           ++ [digit_char (day d / 10)]) ++ [digit_char (day d)]) in E
    by (rewrite <- !app_assoc; reflexivity).
  rewrite (app_assoc pre) in E. apply app_inj_tail in E as [_ E].
  apply (f_equal nat_of_ascii) in E. rewrite digit_char_nat in E.
  change (nat_of_ascii "g") with 103%nat in E.
  assert (0 <= day d mod 10 < 10) by (apply Z.mod_pos_bound; lia). lia.
Qed.

Section SelectorFacts.
Context `{Platform}.

(** An entry the pattern does not select is out of reach of a deletion
    of selected paths. *)
Lemma unselected_survives fs log_dir pat ps g :
  wf_dir fs -> incl ps (glob fs log_dir pat) ->
  In g fs -> glob1 pat (fname g) = false -> In g (fs_minus fs ps).
Proof.
  intros Hwf Hi Hg Hm. apply in_fs_minus. split; [exact Hg|].
  intros p Hp E. apply Hi, in_glob in Hp as (g' & Hg' & Hm' & ->).
  rewrite basename_path_join in E by (eapply wf_dir_plain; eauto).
  rewrite E in Hm'. congruence.
Qed.

Lemma filter_incl_any {A} (P : A -> bool) l : incl (List.filter P l) l.
Proof. intros x Hx. now apply List.filter_In in Hx as [? _]. Qed.

Lemma filter_length_le {A} (P : A -> bool) l :
  (length (List.filter P l) <= length l)%nat.
Proof. induction l as [|x l IH]; simpl; [lia|]. destruct (P x); simpl; lia. Qed.

(** The selection does not see the entries whose names do not end in
    [.log]. *)
Lemma glob_only_logs fs log_dir pat :
  (forall n, glob1 pat n = true -> ends_log n = true) ->
  glob (List.filter (fun g => ends_log (fname g)) fs) log_dir pat
  = glob fs log_dir pat.
Proof.
  intros Hp. unfold glob. f_equal. rewrite filter_filter.
  apply List.filter_ext. intros g.
  destruct (glob1 pat (fname g)) eqn:E; [|now rewrite andb_false_r].
  now rewrite (Hp _ E).
Qed.
End SelectorFacts.

Section WithinFacts.
Context `{Platform}.

Lemma Dyn_purge_within fs log_dir keep deleted fs' :
  wf_dir fs ->
  Dyn._purge_old_logs_global fs log_dir keep = (deleted, fs') ->
  Z.of_nat (length deleted)
    <= Z.max 0 (Z.of_nat (length (glob fs log_dir "*.log")) - keep) /\
  (length fs <= length fs' + length deleted)%nat /\
  incl deleted (glob fs log_dir "*.log") /\
  (forall g, In g fs -> glob1 "*.log" (fname g) = false -> In g fs').
Proof.
  intros Hwf E. rewrite Dyn_purge_spec in E by exact Hwf.
  injection E as <- <-.
  pose proof (Dyn_to_delete_incl fs log_dir keep) as Hi.
  destruct (Dyn_to_delete_front fs log_dir keep) as (n & En & Hn & Hz & _).
  pose proof (filter_length_le (can_remove fs) (Dyn.to_delete fs log_dir keep)) as Hl.
  rewrite En in Hl at 2. rewrite length_map, List.length_firstn in Hl.
  split; [lia|]. split; [apply fs_minus_length, Hwf|].
  split.
  - intros p Hp. apply Hi. eapply filter_incl_any; eauto.
  - intros g Hg Hm. eapply unselected_survives; eauto.
    intros p Hp. apply Hi. eapply filter_incl_any; eauto.
Qed.

Lemma Sta_purge_within fs m log_dir keep deleted fs' :
  wf_dir fs ->
  Sta._purge_old_timestamped_logs fs m log_dir keep = Ok (deleted, fs') ->
  Z.of_nat (length deleted)
    <= Z.max 0 (Z.of_nat (length (glob fs log_dir (Sta.pattern_of m))) - keep) /\
  (length fs <= length fs' + length deleted)%nat /\
  incl deleted (glob fs log_dir (Sta.pattern_of m)) /\
  (forall g, In g fs -> glob1 (Sta.pattern_of m) (fname g) = false -> In g fs').
Proof.
  intros Hwf E. rewrite Sta_purge_spec in E by exact Hwf.
  destruct (Sta.to_delete fs m log_dir keep) as [cands|] eqn:Ec; [|discriminate].
  injection E as <- <-.
  pose proof (Sta_to_delete_incl _ _ _ _ _ Ec) as Hi.
  apply Sta_to_delete_front in Ec as (files & n & Hf & -> & Hn & Hz & _).
  apply Sta_sorted_perm, Permutation_length in Hf.
  pose proof (filter_length_le (can_remove fs) (firstn n files)) as Hl.
  rewrite List.length_firstn in Hl.
  split; [lia|]. split; [apply fs_minus_length, Hwf|].
  split.
  - intros p Hp. apply Hi. eapply filter_incl_any; eauto.
  - intros g Hg Hm. eapply unselected_survives; eauto.
    intros p Hp. apply Hi. eapply filter_incl_any; eauto.
Qed.
End WithinFacts.

(** C4: a retention pass of either variant deletes at most
    [max(0, count - keep)] files, where [count] is the number of entries
    its pattern selects; every path it deletes is a selected one and
    every entry outside the selection is still there afterwards. A scoped
    pass for ["svc"] leaves [other_2024-01-01_00-00-00.log] in place. *)
Theorem C4_pass_bounded_within_selector `{Platform}
    (fs : dir) (module_name log_dir : string) (keep : Z) :
  wf_dir fs ->
  (forall deleted fs',
     Dyn._purge_old_logs_global fs log_dir keep = (deleted, fs') ->
     Z.of_nat (length deleted)
       <= Z.max 0 (Z.of_nat (length (glob fs log_dir "*.log")) - keep) /\
     (length fs <= length fs' + length deleted)%nat /\
     incl deleted (glob fs log_dir "*.log") /\
     (forall g, In g fs -> glob1 "*.log" (fname g) = false -> In g fs'))
  /\
  (forall deleted fs',
     Sta._purge_old_timestamped_logs fs module_name log_dir keep = Ok (deleted, fs') ->
     Z.of_nat (length deleted)
       <= Z.max 0 (Z.of_nat (length (glob fs log_dir (Sta.pattern_of module_name))) - keep) /\
     (length fs <= length fs' + length deleted)%nat /\
     incl deleted (glob fs log_dir (Sta.pattern_of module_name)) /\
     (forall g, In g fs -> glob1 (Sta.pattern_of module_name) (fname g) = false ->
                In g fs'))
  /\
  (forall g deleted fs',
     In g fs -> fname g = "other_2024-01-01_00-00-00.log"%string ->
     Sta._purge_old_timestamped_logs fs "svc" log_dir keep = Ok (deleted, fs') ->
     In g fs' /\ ~ In (path_join log_dir (fname g)) deleted).
Proof.
  intros Hwf. split; [|split].
  - intros deleted fs' E. eapply Dyn_purge_within; eauto.
  - intros deleted fs' E. eapply Sta_purge_within; eauto.
  - intros g deleted fs' Hg En E.
    destruct (Sta_purge_within _ _ _ _ _ _ Hwf E) as (_ & _ & Hi & Hs).
    assert (Hm : glob1 (Sta.pattern_of "svc") (fname g) = false)
      by (rewrite En; reflexivity).
    split; [now apply Hs|].
    intros Hd. apply Hi, in_glob in Hd as (g' & Hg' & Hm' & E').
    assert (fname g' = fname g).
    { apply (f_equal basename) in E'.
      rewrite !basename_path_join in E' by (eapply wf_dir_plain; eauto).
      now symmetry. }
    congruence.
Qed.

Lemma C4_witness :
  wf_dir C4_dir /\
  (forall g deleted fs',
     In g C4_dir -> fname g = "other_2024-01-01_00-00-00.log"%string ->
     @Sta._purge_old_timestamped_logs utc_platform C4_dir "svc" "logs" 1
       = Ok (deleted, fs') ->
     In g fs' /\ ~ In (path_join "logs" (fname g)) deleted).
Proof.
  assert (Hwf : wf_dir C4_dir) by (apply wf_dirb_ok; reflexivity).
  split; [exact Hwf|].
  exact (proj2 (proj2
    (@C4_pass_bounded_within_selector utc_platform C4_dir "svc" "logs" 1 Hwf))).
Defined.

Lemma Sta_to_delete_none `{Platform} fs module_name log_dir keep :
  Sta.to_delete fs module_name log_dir keep = None <->
  exists p, In p (glob fs log_dir (Sta.pattern_of module_name)) /\
            getmtime fs p = None.
Proof.
  unfold Sta.to_delete, Sta.sorted_files.
  pose proof (with_mtime_some fs (glob fs log_dir (Sta.pattern_of module_name))) as Hs.
  destruct (Sta.with_mtime fs _) as [keyed|] eqn:E.
  - split.
    + destruct (keep <? _); discriminate.
    + intros (p & Hp & Hn). exfalso.
      apply (proj2 Hs (ex_intro _ keyed eq_refl) p Hp Hn).
  - split; [intros _|reflexivity].
    destruct (List.existsb (fun p => match getmtime fs p with None => true | _ => false end)
                (glob fs log_dir (Sta.pattern_of module_name))) eqn:Ex.
    + apply existsb_exists in Ex as (p & Hp & Hn). exists p. split; [exact Hp|].
      now destruct (getmtime fs p).
    + exfalso. destruct (proj1 Hs) as [k Hk]; [|discriminate].
      intros p Hp Hn. apply not_true_iff_false in Ex. apply Ex.
      apply existsb_exists. exists p. split; [exact Hp|]. now rewrite Hn.
Qed.

(** C5: a pass returns, whatever [os.remove] does. It goes through every
    candidate in order: one that cannot be removed is left in the
    directory and out of the returned list, and the candidates after it
    are still removed and returned. The scoped pass raises only when a
    modification time cannot be read, before any deletion. *)
Theorem C5_deletion_failures_passed_over `{Platform}
    (fs : dir) (module_name log_dir : string) (keep : Z) :
  wf_dir fs ->
  (exists fs',
     Dyn._purge_old_logs_global fs log_dir keep
       = (List.filter (can_remove fs) (Dyn.to_delete fs log_dir keep), fs') /\
     forall g, In g fs ->
       In (path_join log_dir (fname g)) (Dyn.to_delete fs log_dir keep) ->
       if removable g
       then In (path_join log_dir (fname g))
               (fst (Dyn._purge_old_logs_global fs log_dir keep)) /\ ~ In g fs'
       else ~ In (path_join log_dir (fname g))
               (fst (Dyn._purge_old_logs_global fs log_dir keep)) /\ In g fs')
  /\
  (forall cands, Sta.to_delete fs module_name log_dir keep = Some cands ->
     exists fs',
       Sta._purge_old_timestamped_logs fs module_name log_dir keep
         = Ok (List.filter (can_remove fs) cands, fs') /\
       forall g, In g fs -> In (path_join log_dir (fname g)) cands ->
         if removable g
         then In (path_join log_dir (fname g)) (List.filter (can_remove fs) cands)
              /\ ~ In g fs'
         else ~ In (path_join log_dir (fname g)) (List.filter (can_remove fs) cands)
              /\ In g fs')
  /\
  (Sta.to_delete fs module_name log_dir keep = None <->
   exists p, In p (glob fs log_dir (Sta.pattern_of module_name)) /\
             getmtime fs p = None).
Proof.
  intros Hwf.
  assert (Hcase : forall cands g, In g fs ->
    In (path_join log_dir (fname g)) cands ->
    if removable g
    then In (path_join log_dir (fname g)) (List.filter (can_remove fs) cands)
         /\ ~ In g (fs_minus fs (List.filter (can_remove fs) cands))
    else ~ In (path_join log_dir (fname g)) (List.filter (can_remove fs) cands)
         /\ In g (fs_minus fs (List.filter (can_remove fs) cands))).
  { intros cands g Hg Hc.
    assert (Hcr : forall p, basename p = fname g -> can_remove fs p = removable g).
    { intros p E. unfold can_remove, fs_find. rewrite E.
      rewrite find_name_in; [reflexivity|apply Hwf|exact Hg]. }
    assert (Hb : basename (path_join log_dir (fname g)) = fname g)
      by (apply basename_path_join; eapply wf_dir_plain; eauto).
    destruct (removable g) eqn:Hr.
    - assert (Hin : In (path_join log_dir (fname g)) (List.filter (can_remove fs) cands)).
      { apply List.filter_In. split; [exact Hc|]. now rewrite (Hcr _ Hb). }
      split; [exact Hin|]. intros Hg'. apply in_fs_minus in Hg' as [_ Hne].
      now apply (Hne _ Hin).
    - split.
      + intros Hin. apply List.filter_In in Hin as [_ Hin].
        rewrite (Hcr _ Hb) in Hin. discriminate.
      + apply in_fs_minus. split; [exact Hg|]. intros p Hp E.
        apply List.filter_In in Hp as [Hp Hp'].
        rewrite (Hcr _ E) in Hp'. discriminate. }
  split; [|split].
  - rewrite Dyn_purge_spec by exact Hwf. eexists. split; [reflexivity|].
    intros g Hg Hc. cbn [fst]. now apply Hcase.
  - intros cands Ec. rewrite Sta_purge_spec, Ec by exact Hwf.
    eexists. split; [reflexivity|]. intros g Hg Hc. now apply Hcase.
  - apply Sta_to_delete_none.
Qed.

Lemma C5_witness :
  wf_dir C5_dir /\
  exists fs',
    @Dyn._purge_old_logs_global utc_platform C5_dir "logs" 1
      = (List.filter (can_remove C5_dir) (@Dyn.to_delete utc_platform C5_dir "logs" 1), fs').
Proof.
  assert (Hwf : wf_dir C5_dir) by (apply wf_dirb_ok; reflexivity).
  split; [exact Hwf|].
  destruct (proj1 (@C5_deletion_failures_passed_over utc_platform C5_dir "svc" "logs" 1 Hwf))
    as (fs' & E & _).
  exists fs'. exact E.
Defined.

(** The first candidate cannot be removed: the second still is. *)
Example C5_example :
  @Dyn._purge_old_logs_global utc_platform C5_dir "logs" 1
  = (["logs/svc_2024-01-02_00-00-00.log"%string],
     [mkfile "svc_2024-01-01_00-00-00.log" (Some 100) false;
      mkfile "svc_2024-01-03_00-00-00.log" (Some 300) true]).
Proof. vm_compute. reflexivity. Qed.

(** C10: both selectors take names ending in [.log] only, so a rotated
    segment, whose name ends in the date, is never selected; a pass
    selects the same paths as it would if the other entries were not
    there, and leaves those entries in place. *)
Theorem C10_only_log_names_selected `{Platform}
    (fs : dir) (module_name log_dir : string) (keep : Z) :
  wf_dir fs ->
  (forall n, glob1 "*.log" n = true -> ends_log n = true) /\
  (forall n, glob1 (Sta.pattern_of module_name) n = true -> ends_log n = true) /\
  (forall n d, ends_log (rotated_name n d) = false /\
               glob1 "*.log" (rotated_name n d) = false /\
               glob1 (Sta.pattern_of module_name) (rotated_name n d) = false) /\
  glob (List.filter (fun g => ends_log (fname g)) fs) log_dir "*.log"
    = glob fs log_dir "*.log" /\
  glob (List.filter (fun g => ends_log (fname g)) fs) log_dir (Sta.pattern_of module_name)
    = glob fs log_dir (Sta.pattern_of module_name) /\
  (forall g, In g fs -> ends_log (fname g) = false ->
     In g (snd (Dyn._purge_old_logs_global fs log_dir keep)) /\
     ~ In (path_join log_dir (fname g))
          (fst (Dyn._purge_old_logs_global fs log_dir keep))) /\
  (forall g deleted fs', In g fs -> ends_log (fname g) = false ->
     Sta._purge_old_timestamped_logs fs module_name log_dir keep = Ok (deleted, fs') ->
     In g fs' /\ ~ In (path_join log_dir (fname g)) deleted).
Proof.
  intros Hwf.
  assert (Hno : forall pat g ps,
    (forall n, glob1 pat n = true -> ends_log n = true) ->
    In g fs -> ends_log (fname g) = false -> incl ps (glob fs log_dir pat) ->
    ~ In (path_join log_dir (fname g)) ps).
  { intros pat g ps Hpat Hg He Hi Hin.
    apply Hi, in_glob in Hin as (g' & Hg' & Hm' & E').
    apply (f_equal basename) in E'.
    rewrite !basename_path_join in E' by (eapply wf_dir_plain; eauto).
    rewrite E' in He. rewrite (Hpat _ Hm') in He. discriminate. }
  assert (Hun : forall pat g,
    (forall n, glob1 pat n = true -> ends_log n = true) ->
    ends_log (fname g) = false -> glob1 pat (fname g) = false).
  { intros pat g Hpat He. destruct (glob1 pat (fname g)) eqn:E; [|reflexivity].
    rewrite (Hpat _ E) in He. discriminate. }
  split; [apply glob1_log_ends|].
  split; [apply glob1_pattern_of_ends|].
  split.
  { intros n d. pose proof (rotated_name_not_log n d) as He.
    split; [exact He|]. split.
    - destruct (glob1 "*.log" (rotated_name n d)) eqn:E; [|reflexivity].
      apply glob1_log_ends in E. congruence.
    - destruct (glob1 (Sta.pattern_of module_name) (rotated_name n d)) eqn:E;
        [|reflexivity].
      apply glob1_pattern_of_ends in E. congruence. }
  split; [apply glob_only_logs, glob1_log_ends|].
  split; [apply glob_only_logs, glob1_pattern_of_ends|].
  split.
  - intros g Hg He.
    destruct (Dyn._purge_old_logs_global fs log_dir keep) as [deleted fs'] eqn:E.
    destruct (Dyn_purge_within _ _ _ _ _ Hwf E) as (_ & _ & Hi & Hs).
    cbn [fst snd]. split.
    + apply Hs; [exact Hg|]. apply Hun; [apply glob1_log_ends|exact He].
    + eapply Hno; eauto. apply glob1_log_ends.
  - intros g deleted fs' Hg He E.
    destruct (Sta_purge_within _ _ _ _ _ _ Hwf E) as (_ & _ & Hi & Hs).
    split.
    + apply Hs; [exact Hg|]. apply Hun; [apply glob1_pattern_of_ends|exact He].
    + eapply Hno; eauto. apply glob1_pattern_of_ends.
Qed.

Lemma C10_witness :
  wf_dir C4_dir /\
  forall g, In g C4_dir -> ends_log (fname g) = false ->
    In g (snd (@Dyn._purge_old_logs_global utc_platform C4_dir "logs" 1)) /\
    ~ In (path_join "logs" (fname g))
         (fst (@Dyn._purge_old_logs_global utc_platform C4_dir "logs" 1)).
Proof.
  assert (Hwf : wf_dir C4_dir) by (apply wf_dirb_ok; reflexivity).
  split; [exact Hwf|].
  pose proof (@C10_only_log_names_selected utc_platform C4_dir "svc" "logs" 1 Hwf)
    as (_ & _ & _ & _ & _ & Hdyn & _).
  exact Hdyn.
Defined.

(** ** Which files go *)

Lemma NoDup_map_inj_on {A B} (g : A -> B) l a b :
  List.NoDup (map g l) -> In a l -> In b l -> g a = g b -> a = b.
Proof.
  induction l as [|x l IH]; simpl; intros Hnd Ha Hb Hk; [contradiction|].
  inversion Hnd as [|? ? Hx Hnd']; subst.
  destruct Ha as [<-|Ha], Hb as [<-|Hb]; auto.
  - exfalso. apply Hx. rewrite Hk. now apply in_map.
  - exfalso. apply Hx. rewrite <- Hk. now apply in_map.
Qed.

Lemma in_front_or_back {A} n (l : list A) x :
  In x l -> In x (firstn n l) \/ In x (skipn n l).
Proof. intros Hx. rewrite <- (firstn_skipn n l) in Hx. now apply in_app_or in Hx. Qed.

Section OldestFacts.
Context `{Platform}.

Lemma Dyn_in_infos fs log_dir x :
  In x (Dyn.file_infos fs log_dir) <->
  In (fst x) (glob fs log_dir "*.log") /\ snd x = Dyn.sort_key fs (fst x).
Proof.
  unfold Dyn.file_infos. rewrite in_map_iff. split.
  - intros (p & <- & Hp). now split.
  - intros [Hp E]. exists (fst x). split; [|exact Hp]. destruct x; simpl in *. now subst.
Qed.

(** No file left by the front of the sorted list is older than one in it. *)
Lemma Dyn_front_oldest fs log_dir n p q :
  In p (map fst (firstn n (Dyn.sorted_infos fs log_dir))) ->
  In q (glob fs log_dir "*.log") ->
  ~ In q (map fst (firstn n (Dyn.sorted_infos fs log_dir))) ->
  dt_ltb (Dyn.sort_key fs q) (Dyn.sort_key fs p) = false.
Proof.
  intros Hp Hq Hnq.
  apply in_map_iff in Hp as (x & <- & Hx).
  assert (Hx' : In x (Dyn.file_infos fs log_dir)).
  { eapply Permutation_in; [apply Dyn_sorted_perm|].
    rewrite <- (firstn_skipn n (Dyn.sorted_infos fs log_dir)).
    apply in_or_app. now left. }
  apply Dyn_in_infos in Hx' as [_ Ex]. rewrite <- Ex.
  assert (Hy : In (q, Dyn.sort_key fs q) (Dyn.sorted_infos fs log_dir)).
  { eapply Permutation_in; [symmetry; apply Dyn_sorted_perm|].
    apply Dyn_in_infos. now split. }
  apply (in_front_or_back n) in Hy as [Hy|Hy].
  - exfalso. apply Hnq. apply in_map_iff. now exists (q, Dyn.sort_key fs q).
  - exact (ascending_firstn_skipn dt_ltb snd n _ (Dyn_sorted_ascending fs log_dir)
             x (q, Dyn.sort_key fs q) Hx Hy).
Qed.

Lemma Sta_front_oldest fs m log_dir files n p q :
  Sta.sorted_files fs m log_dir = Some files ->
  In p (firstn n files) ->
  In q (glob fs log_dir (Sta.pattern_of m)) ->
  ~ In q (firstn n files) ->
  exists tp tq, getmtime fs p = Some tp /\ getmtime fs q = Some tq /\ tp <= tq.
Proof.
  unfold Sta.sorted_files.
  destruct (Sta.with_mtime fs _) as [keyed|] eqn:E; [|discriminate].
  intros [= <-] Hp Hq Hnq.
  set (sk := sort_by Z.ltb snd keyed) in *.
  assert (Hperm : Permutation sk keyed) by apply sort_by_perm.
  assert (Hasc : ascending Z.ltb snd sk)
    by (apply sort_by_ascending;
        [apply Zltb_irrefl|apply Zltb_trans|apply Zltb_negtrans]).
  rewrite List.firstn_map in Hp, Hnq.
  apply in_map_iff in Hp as ([p' tp] & <- & Hx). simpl.
  rewrite <- (with_mtime_fst _ _ _ E) in Hq.
  apply in_map_iff in Hq as ([q' tq] & <- & Hy). simpl in *.
  exists tp, tq.
  split.
  { apply (with_mtime_snd _ _ _ E). eapply Permutation_in; [exact Hperm|].
    rewrite <- (firstn_skipn n sk). apply in_or_app. now left. }
  split; [now apply (with_mtime_snd _ _ _ E)|].
  assert (Hy' : In (q', tq) sk) by (eapply Permutation_in; [symmetry; exact Hperm|exact Hy]).
  apply (in_front_or_back n) in Hy' as [Hy'|Hy'].
  - exfalso. apply Hnq. apply in_map_iff. now exists (q', tq).
  - pose proof (ascending_firstn_skipn Z.ltb snd n _ Hasc _ _ Hx Hy') as Hle.
    unfold not_after in Hle. simpl in Hle. apply Z.ltb_ge in Hle. exact Hle.
Qed.

Lemma filter_all {A} (P : A -> bool) l :
  (forall x, In x l -> P x = true) -> List.filter P l = l.
Proof.
  intros Hall. apply List.forallb_filter_id, forallb_forall. exact Hall.
Qed.

(** The slip of [files[:-keep]]: with [keep = 0] the slice is empty. *)
Lemma Sta_keep_zero fs m log_dir cands :
  Sta.to_delete fs m log_dir 0 = Some cands -> cands = [].
Proof.
  unfold Sta.to_delete.
  destruct (Sta.sorted_files fs m log_dir) as [files|]; [|discriminate].
  destruct (0 <? Z.of_nat (length files)); intros [= <-]; [|reflexivity].
  unfold py_slice_to. change (- 0) with 0. change (0 <? 0) with false.
  cbv iota. rewrite Z.min_l by lia. reflexivity.
Qed.
End OldestFacts.

(** The scoped pass deletes the file of 2024-01-02, the newer by name. *)
Lemma C1_counterexample :
  exists deleted fs',
    @Sta._purge_old_timestamped_logs utc_platform C1_dir "svc" "logs" 1
      = Ok (deleted, fs') /\
    ~ C1_says (@glob utc_platform C1_dir "logs" (Sta.pattern_of "svc")) deleted 1.
Proof.
  exists ["logs/svc_2024-01-02_00-00-00.log"%string],
         [entry "svc_2024-01-01_00-00-00.log" 200].
  split; [vm_compute; reflexivity|].
  intros [_ Hold].
  destruct (Hold "logs/svc_2024-01-02_00-00-00.log"%string
                 "logs/svc_2024-01-01_00-00-00.log"%string)
    as (tp & tq & Ep & Eq & Hlt).
  - now left.
  - vm_compute. now left.
  - intros [E|[]]. discriminate.
  - vm_compute in Ep, Eq. injection Ep as <-. injection Eq as <-.
    vm_compute in Hlt. discriminate.
Qed.

(** C1, amended: with every selected file removable and [keep >= 0], the
    global pass deletes exactly [max(0, n - keep)] files, the oldest by the
    timestamp in their names when these all parse and differ; with
    [keep >= 1], the scoped pass deletes exactly [max(0, n - keep)] files,
    the oldest by modification time when these are all readable and
    differ. *)
Theorem C1_pass_deletes_the_oldest `{Platform}
    (fs : dir) (module_name log_dir : string) (keep : Z) :
  wf_dir fs ->
  List.Forall (fun g => removable g = true) fs ->
  (0 <= keep ->
   let selected := glob fs log_dir "*.log" in
   (forall p, In p selected -> _parse_timestamp_from_filename p <> None) ->
   List.NoDup (map _parse_timestamp_from_filename selected) ->
   exists deleted,
     Dyn._purge_old_logs_global fs log_dir keep = (deleted, fs_minus fs deleted) /\
     List.NoDup deleted /\ incl deleted selected /\
     C1_says selected deleted keep)
  /\
  (1 <= keep ->
   let selected := glob fs log_dir (Sta.pattern_of module_name) in
   (forall p, In p selected -> getmtime fs p <> None) ->
   List.NoDup (map (getmtime fs) selected) ->
   exists deleted,
     Sta._purge_old_timestamped_logs fs module_name log_dir keep
       = Ok (deleted, fs_minus fs deleted) /\
     List.NoDup deleted /\ incl deleted selected /\
     Z.of_nat (length deleted) = Z.max 0 (Z.of_nat (length selected) - keep) /\
     forall p q, In p deleted -> In q selected -> ~ In q deleted ->
       exists tp tq, getmtime fs p = Some tp /\ getmtime fs q = Some tq /\ tp < tq).
Proof.
  intros Hwf Hrem.
  assert (Hcan : forall pat p, In p (glob fs log_dir pat) -> can_remove fs p = true).
  { intros pat p Hp. apply in_glob in Hp as (g & Hg & _ & ->).
    rewrite can_remove_path by assumption.
    rewrite List.Forall_forall in Hrem. now apply Hrem. }
  split.
  - intros Hk selected Hparse Hdist.
    exists (Dyn.to_delete fs log_dir keep).
    pose proof (Dyn_to_delete_incl fs log_dir keep) as Hi.
    assert (Hf : List.filter (can_remove fs) (Dyn.to_delete fs log_dir keep)
                 = Dyn.to_delete fs log_dir keep).
    { apply filter_all. intros p Hp. eapply Hcan, Hi, Hp. }
    split; [rewrite Dyn_purge_spec, Hf by exact Hwf; reflexivity|].
    split; [eapply List.NoDup_map_inv, Dyn_to_delete_NoDup, Hwf|].
    split; [exact Hi|].
    destruct (Dyn_to_delete_front fs log_dir keep) as (n & En & Hn & _ & Hz).
    split.
    + rewrite En, length_map, List.length_firstn, Dyn_sorted_length.
      rewrite Nat.min_l by exact Hn. now apply Hz.
    + intros p q Hp Hq Hnq. rewrite En in Hp, Hnq.
      pose proof (Dyn_front_oldest fs log_dir n p q Hp Hq Hnq) as Hle.
      assert (Hp' : In p selected).
      { apply Hi. now rewrite En. }
      destruct (_parse_timestamp_from_filename p) as [tp|] eqn:Ep;
        [|now apply Hparse in Hp'].
      destruct (_parse_timestamp_from_filename q) as [tq|] eqn:Eq;
        [|now apply Hparse in Hq].
      exists tp, tq. split; [reflexivity|]. split; [reflexivity|].
      unfold Dyn.sort_key in Hle. rewrite Ep, Eq in Hle.
      destruct (dt_ltb tp tq) eqn:Hlt; [reflexivity|exfalso].
      assert (tp = tq) by now apply dt_ltb_total.
      assert (p = q).
      { apply (NoDup_map_inj_on _parse_timestamp_from_filename selected);
          [exact Hdist|exact Hp'|exact Hq|congruence]. }
      subst q. contradiction.
  - intros Hk selected Hread Hdist.
    destruct (proj1 (with_mtime_some fs selected) Hread) as [keyed Ekeyed].
    destruct (Sta.to_delete fs module_name log_dir keep) as [cands|] eqn:Ec.
    2:{ unfold Sta.to_delete, Sta.sorted_files in Ec. fold selected in Ec.
        rewrite Ekeyed in Ec. destruct (keep <? _); discriminate. }
    exists cands.
    pose proof (Sta_to_delete_incl _ _ _ _ _ Ec) as Hi.
    assert (Hf : List.filter (can_remove fs) cands = cands).
    { apply filter_all. intros p Hp. eapply Hcan, Hi, Hp. }
    split; [rewrite Sta_purge_spec, Ec, Hf by exact Hwf; reflexivity|].
    split; [eapply List.NoDup_map_inv, Sta_to_delete_NoDup; eauto|].
    split; [exact Hi|].
    destruct (Sta_to_delete_front _ _ _ _ _ Ec) as (files & n & Hfiles & -> & Hn & _ & Hz).
    pose proof (Permutation_length (Sta_sorted_perm _ _ _ _ Hfiles)) as Hlen.
    fold selected in Hlen.
    split.
    + rewrite List.length_firstn, Nat.min_l by exact Hn.
      rewrite <- Hlen. now apply Hz.
    + intros p q Hp Hq Hnq.
      destruct (Sta_front_oldest _ _ _ _ n p q Hfiles Hp Hq Hnq)
        as (tp & tq & Ep & Eq & Hle).
      exists tp, tq. split; [exact Ep|]. split; [exact Eq|].
      destruct (Z.eq_dec tp tq) as [->|Hne]; [exfalso|lia].
      assert (p = q).
      { apply (NoDup_map_inj_on (getmtime fs) selected);
          [exact Hdist|apply Hi, Hp|exact Hq|congruence]. }
      subst q. contradiction.
Qed.

Lemma C1_witness :
  wf_dir C1_dir /\ List.Forall (fun g => removable g = true) C1_dir /\
  exists deleted,
    @Dyn._purge_old_logs_global utc_platform C1_dir "logs" 1
      = (deleted, fs_minus C1_dir deleted) /\
    C1_says (@glob utc_platform C1_dir "logs" "*.log") deleted 1.
Proof.
  assert (Hwf : wf_dir C1_dir) by (apply wf_dirb_ok; reflexivity).
  assert (Hrem : List.Forall (fun g => removable g = true) C1_dir)
    by (repeat constructor).
  split; [exact Hwf|]. split; [exact Hrem|].
  destruct (proj1 (@C1_pass_deletes_the_oldest utc_platform C1_dir "svc" "logs" 1 Hwf Hrem))
    as (deleted & E & _ & _ & Hsays).
  - lia.
  - intros p Hp. vm_compute in Hp.
    destruct Hp as [<-|[<-|[]]]; vm_compute; discriminate.
  - vm_compute. repeat constructor; simpl; intuition discriminate.
  - exists deleted. split; [exact E|exact Hsays].
Defined.

(** ** Which names carry a timestamp *)

Lemma trunc_seconds_id d : microsecond d = 0 -> trunc_seconds d = d.
Proof. destruct d; unfold trunc_seconds; simpl. now intros ->. Qed.

Lemma parse_of_timestamp p d :
  has_timestamp (basename p) d -> _parse_timestamp_from_filename p = Some d.
Proof.
  intros (Hv & Hus & pre & E). unfold _parse_timestamp_from_filename.
  rewrite E, re_search_strftime, strptime_strftime by exact Hv.
  now rewrite trunc_seconds_id.
Qed.

Lemma re_search_sound s g :
  re_search s = Some g ->
  exists pre m r,
    s = pre ++ m ++ r /\
    Forall2 (fun k c => cls_match k c = true) TIMESTAMP_RE m /\
    at_dollar r = true /\ g = firstn 19 (skipn 1 m).
Proof.
  induction s as [|c s IH]; unfold re_search; fold re_search.
  - destruct (match_here TIMESTAMP_RE []) as [[m r]|] eqn:E; [|discriminate].
    apply match_here_spec in E as [Es HF].
    destruct (at_dollar r) eqn:Hd; [|discriminate].
    intros [= <-]. exists [], m, r. auto.
  - destruct (match_here TIMESTAMP_RE (c :: s)) as [[m r]|] eqn:E.
    + apply match_here_spec in E as [Es HF].
      destruct (at_dollar r) eqn:Hd.
      * intros [= <-]. exists [], m, r. auto.
      * intros Hg. apply IH in Hg as (pre & m' & r' & -> & HF' & Hd' & ->).
        exists (c :: pre), m', r'. auto.
    + intros Hg. apply IH in Hg as (pre & m' & r' & -> & HF' & Hd' & ->).
      exists (c :: pre), m', r'. auto.
Qed.

Lemma timestamp_shape m :
  Forall2 (fun k c => cls_match k c = true) TIMESTAMP_RE m ->
  exists y1 y2 y3 y4 m1 m2 d1 d2 h1 h2 i1 i2 s1 s2,
    m = ["_"; y1; y2; y3; y4; "-"; m1; m2; "-"; d1; d2; "_";
         h1; h2; "-"; i1; i2; "-"; s1; s2; "."; "l"; "o"; "g"]%char /\
    List.Forall (fun c => is_digit c = true)
      [y1; y2; y3; y4; m1; m2; d1; d2; h1; h2; i1; i2; s1; s2].
Proof.
  unfold TIMESTAMP_RE. intros HF.
  repeat match goal with
         | H : Forall2 _ (_ :: _) _ |- _ => inversion H; clear H; subst
         | H : Forall2 _ [] _ |- _ => inversion H; clear H; subst
         end.
  cbn [cls_match] in *.
  repeat match goal with
         | H : Ascii.eqb _ _ = true |- _ => apply Ascii.eqb_eq in H; subst
         end.
  do 14 eexists. split; [reflexivity|].
  repeat constructor; assumption.
Qed.

Lemma digit_char_mod x y : x mod 10 = y mod 10 -> digit_char x = digit_char y.
Proof. unfold digit_char. now intros ->. Qed.

Lemma pad2_digits a b :
  is_digit a = true -> is_digit b = true ->
  pad2 (10 * (10 * 0 + digit_val a) + digit_val b) = [a; b].
Proof.
  intros Ha Hb. pose proof (digit_val_range a Ha). pose proof (digit_val_range b Hb).
  unfold pad2. f_equal; [|f_equal].
  - rewrite <- (digit_char_digit_val a Ha) at 2. apply digit_char_mod.
    f_equal. Z.div_mod_to_equations. lia.
  - rewrite <- (digit_char_digit_val b Hb) at 2. apply digit_char_mod.
    Z.div_mod_to_equations. lia.
Qed.

Lemma pad4_digits a b c d :
  is_digit a = true -> is_digit b = true -> is_digit c = true -> is_digit d = true ->
  pad4 (10 * (10 * (10 * (10 * 0 + digit_val a) + digit_val b) + digit_val c)
        + digit_val d) = [a; b; c; d].
Proof.
  intros Ha Hb Hc Hd.
  pose proof (digit_val_range a Ha). pose proof (digit_val_range b Hb).
  pose proof (digit_val_range c Hc). pose proof (digit_val_range d Hd).
  unfold pad4. f_equal; [|f_equal; [|f_equal; [|f_equal]]].
  - rewrite <- (digit_char_digit_val a Ha) at 2. apply digit_char_mod.
    f_equal. Z.div_mod_to_equations. lia.
  - rewrite <- (digit_char_digit_val b Hb) at 2. apply digit_char_mod.
    Z.div_mod_to_equations. lia.
  - rewrite <- (digit_char_digit_val c Hc) at 2. apply digit_char_mod.
    Z.div_mod_to_equations. lia.
  - rewrite <- (digit_char_digit_val d Hd) at 2. apply digit_char_mod.
    Z.div_mod_to_equations. lia.
Qed.

(** A name that ends in [.log] and parses carries the timestamp it parses
    to. *)
Lemma parse_sound p d :
  ends_log (basename p) = true ->
  _parse_timestamp_from_filename p = Some d ->
  has_timestamp (basename p) d.
Proof.
  unfold _parse_timestamp_from_filename. intros He.
  destruct (re_search (chars (basename p))) as [g|] eqn:Eg; [|discriminate].
  apply re_search_sound in Eg as (pre & m & r & Es & HF & Hd & ->).
  assert (r = []) as ->.
  { destruct r as [|x [|y r]]; simpl in Hd; try discriminate; [reflexivity|].
    apply Ascii.eqb_eq in Hd. subst x. exfalso.
    apply has_suffix_spec in He as [pre' He]. rewrite He in Es.
    change (chars ".log") with (chars ".lo" ++ ["g"%char]) in Es.
    rewrite !app_assoc in Es. apply app_inj_tail in Es as [_ Es]. discriminate. }
  rewrite app_nil_r in Es.
  apply timestamp_shape in HF
    as (y1 & y2 & y3 & y4 & m1 & m2 & d1 & d2 & h1 & h2 & i1 & i2 & s1 & s2 & -> & Hdig).
  repeat match goal with
         | H : List.Forall _ (_ :: _) |- _ => inversion H; clear H; subst
         end.
  unfold strptime, slice. cbn [firstn skipn length Nat.eqb andb num num_acc].
  repeat match goal with H : is_digit _ = true |- _ => rewrite H end.
  match goal with |- context [dt_valid ?x] => destruct (dt_valid x) eqn:Hv end;
    [|discriminate].
  intros [= <-]. split; [exact Hv|]. split; [reflexivity|].
  exists pre. rewrite Es. f_equal. unfold strftime_ts. cbn [year month day hour minute second].
  rewrite pad4_digits by assumption. rewrite !pad2_digits by assumption.
  reflexivity.
Qed.

Lemma parse_iff p d :
  ends_log (basename p) = true ->
  _parse_timestamp_from_filename p = Some d <-> has_timestamp (basename p) d.
Proof.
  intros He. split; [now apply parse_sound|apply parse_of_timestamp].
Qed.

(** ** The ordering key *)

(** The scoped pass goes by modification time against the names, and
    raises where the claim has the epoch. *)
Lemma C2_counterexample :
  (exists deleted fs',
     @Sta._purge_old_timestamped_logs utc_platform C1_dir "svc" "logs" 1
       = Ok (deleted, fs') /\
     ~ @C2_says utc_platform C1_dir
         (@glob utc_platform C1_dir "logs" (Sta.pattern_of "svc")) deleted) /\
  @Sta._purge_old_timestamped_logs utc_platform C2_dir "svc" "logs" 1 = Raise OSError.
Proof.
  split; [|vm_compute; reflexivity].
  exists ["logs/svc_2024-01-02_00-00-00.log"%string],
         [entry "svc_2024-01-01_00-00-00.log" 200].
  split; [vm_compute; reflexivity|].
  intros Hsays.
  specialize (Hsays "logs/svc_2024-01-02_00-00-00.log"%string
                    "logs/svc_2024-01-01_00-00-00.log"%string
                    (mkdt 2024 1 2 0 0 0 0) (mkdt 2024 1 1 0 0 0 0)).
  assert (E : dt_ltb (mkdt 2024 1 1 0 0 0 0) (mkdt 2024 1 2 0 0 0 0) = false).
  { apply Hsays.
    - now left.
    - vm_compute. now left.
    - intros [E|[]]. discriminate.
    - left. split; [reflexivity|]. split; [reflexivity|]. now exists (chars "svc").
    - left. split; [reflexivity|]. split; [reflexivity|]. now exists (chars "svc"). }
  vm_compute in E. discriminate.
Qed.

Lemma StronglySorted_map_in {A B} (R : A -> A -> Prop) (R' : B -> B -> Prop)
    (g : A -> B) l :
  (forall x y, In x l -> In y l -> R x y -> R' (g x) (g y)) ->
  StronglySorted R l -> StronglySorted R' (map g l).
Proof.
  induction l as [|a l IH]; simpl; intros Hr Hs; [constructor|].
  apply StronglySorted_inv in Hs as [Hs Ha].
  constructor.
  - apply IH; [|exact Hs]. intros x y Hx Hy. apply Hr; now right.
  - rewrite List.Forall_forall in *. intros b Hb.
    apply in_map_iff in Hb as (x & <- & Hx).
    apply Hr; [now left|now right|now apply Ha].
Qed.

Section KeyFacts.
Context `{Platform}.

Lemma Dyn_key_as_claimed fs log_dir p :
  wf_dir fs -> In p (glob fs log_dir "*.log") ->
  claimed_key_is fs p (Dyn.sort_key fs p).
Proof.
  intros Hwf Hp.
  assert (He : ends_log (basename p) = true).
  { apply in_glob in Hp as (g & Hg & Hm & ->).
    rewrite basename_path_join by (eapply wf_dir_plain; eauto).
    now apply glob1_log_ends. }
  unfold claimed_key_is, Dyn.sort_key.
  destruct (_parse_timestamp_from_filename p) as [d|] eqn:E.
  - left. now apply parse_sound.
  - right. split.
    + intros d Hd. apply parse_of_timestamp in Hd. congruence.
    + now destruct (getmtime fs p).
Qed.

(** The candidates are closed under "older": a selected file older than a
    candidate is a candidate. *)
Lemma Dyn_older_is_candidate fs log_dir keep p q :
  In p (glob fs log_dir "*.log") ->
  In q (Dyn.to_delete fs log_dir keep) ->
  dt_ltb (Dyn.sort_key fs p) (Dyn.sort_key fs q) = true ->
  In p (Dyn.to_delete fs log_dir keep).
Proof.
  intros Hp Hq Hlt.
  destruct (Dyn_to_delete_front fs log_dir keep) as (n & En & _).
  rewrite En in *.
  destruct (in_dec string_dec p (map fst (firstn n (Dyn.sorted_infos fs log_dir))))
    as [Hin|Hnin]; [exact Hin|exfalso].
  pose proof (Dyn_front_oldest fs log_dir n q p Hq Hp Hnin). congruence.
Qed.

Lemma Sta_sorted_by_mtime fs m log_dir files :
  Sta.sorted_files fs m log_dir = Some files ->
  StronglySorted (mtime_not_after fs) files.
Proof.
  unfold Sta.sorted_files.
  destruct (Sta.with_mtime fs _) as [keyed|] eqn:E; [|discriminate].
  intros [= <-].
  assert (Hperm : Permutation (sort_by Z.ltb snd keyed) keyed) by apply sort_by_perm.
  eapply StronglySorted_map_in;
    [|apply (sort_by_ascending Z.ltb snd);
      [apply Zltb_irrefl|apply Zltb_trans|apply Zltb_negtrans]].
  intros [p tp] [q tq] Hx Hy Hle. unfold not_after in Hle. simpl in *.
  apply Z.ltb_ge in Hle. exists tp, tq.
  split; [|split; [|exact Hle]];
    apply (with_mtime_snd _ _ _ E); eapply Permutation_in; eauto.
Qed.
End KeyFacts.

(** C2, amended: in the global variant the key of a selected file is the
    timestamp its name carries, else its modification time, else the
    epoch, and a selected file older by key than a candidate is a
    candidate too; in the scoped variant the order is that of the
    modification times, whatever the names, and a pass over a file whose
    modification time cannot be read raises. *)
Theorem C2_ordering_key `{Platform}
    (fs : dir) (module_name log_dir : string) (keep : Z) :
  wf_dir fs ->
  (forall p, In p (glob fs log_dir "*.log") ->
     claimed_key_is fs p (Dyn.sort_key fs p)) /\
  ascending dt_ltb snd (Dyn.sorted_infos fs log_dir) /\
  (forall p q, In p (glob fs log_dir "*.log") ->
     In q (Dyn.to_delete fs log_dir keep) ->
     dt_ltb (Dyn.sort_key fs p) (Dyn.sort_key fs q) = true ->
     In p (Dyn.to_delete fs log_dir keep)) /\
  (forall files, Sta.sorted_files fs module_name log_dir = Some files ->
     StronglySorted (mtime_not_after fs) files) /\
  ((exists p, In p (glob fs log_dir (Sta.pattern_of module_name)) /\
              getmtime fs p = None) ->
   Sta._purge_old_timestamped_logs fs module_name log_dir keep = Raise OSError).
Proof.
  intros Hwf.
  split; [intros p Hp; now apply (Dyn_key_as_claimed fs log_dir)|].
  split; [apply Dyn_sorted_ascending|].
  split; [intros p q; apply Dyn_older_is_candidate|].
  split; [intros files; apply (Sta_sorted_by_mtime fs module_name log_dir)|].
  intros Hex. rewrite Sta_purge_spec by exact Hwf.
  apply (Sta_to_delete_none fs module_name log_dir keep) in Hex. now rewrite Hex.
Qed.

Lemma C2_witness :
  wf_dir C2_dir /\
  @Sta._purge_old_timestamped_logs utc_platform C2_dir "svc" "logs" 1 = Raise OSError.
Proof.
  assert (Hwf : wf_dir C2_dir) by (apply wf_dirb_ok; reflexivity).
  split; [exact Hwf|].
  apply (@C2_ordering_key utc_platform C2_dir "svc" "logs" 1 Hwf).
  exists "logs/svc_a.log"%string. split; [vm_compute; now left|reflexivity].
Defined.

(** ** The order of the listing *)

Lemma find_name_perm n fs fs2 :
  List.NoDup (map fname fs) -> Permutation fs fs2 ->
  List.find (name_is n) fs2 = List.find (name_is n) fs.
Proof.
  intros Hnd Hp.
  assert (Hnd2 : List.NoDup (map fname fs2))
    by (eapply Permutation_NoDup; [apply Permutation_map; exact Hp|exact Hnd]).
  destruct (List.find (name_is n) fs) as [g|] eqn:E.
  - apply List.find_some in E as [Hg En]. apply name_is_eq in En. subst n.
    apply find_name_in; [exact Hnd2|]. eapply Permutation_in; eauto.
  - destruct (List.find (name_is n) fs2) as [g|] eqn:E2; [|reflexivity].
    apply List.find_some in E2 as [Hg En].
    rewrite (List.find_none _ _ E g) in En; [discriminate|].
    eapply Permutation_in; [symmetry; exact Hp|exact Hg].
Qed.

Lemma getmtime_perm fs fs2 p :
  wf_dir fs -> Permutation fs fs2 -> getmtime fs2 p = getmtime fs p.
Proof.
  intros [Hnd _] Hp. unfold getmtime, fs_find. now rewrite (find_name_perm _ fs fs2).
Qed.

Lemma filter_perm {A} (P : A -> bool) l l' :
  Permutation l l' -> Permutation (List.filter P l) (List.filter P l').
Proof.
  induction 1 as [|x l l' Hp IH|x y l|l l' l'' H1 IH1 H2 IH2]; simpl.
  - constructor.
  - destruct (P x); [now constructor|exact IH].
  - destruct (P x), (P y); try reflexivity. apply perm_swap.
  - now transitivity (List.filter P l').
Qed.

Lemma filter_map_swap {A B} (g : A -> B) (P : B -> bool) l :
  List.filter P (map g l) = map g (List.filter (fun x => P (g x)) l).
Proof.
  induction l as [|x l IH]; simpl; [reflexivity|].
  destruct (P (g x)); simpl; now rewrite IH.
Qed.

Lemma keq_Z a b : keq Z.ltb a b = (a =? b).
Proof.
  unfold keq. destruct (Z.ltb_spec a b), (Z.ltb_spec b a), (Z.eqb_spec a b);
    simpl; try reflexivity; lia.
Qed.

Section ListingFacts.
Context `{Platform}.

Lemma glob_perm fs fs2 log_dir pat :
  Permutation fs fs2 -> Permutation (glob fs log_dir pat) (glob fs2 log_dir pat).
Proof. intros Hp. unfold glob. now apply Permutation_map, filter_perm. Qed.

Lemma Dyn_sort_key_perm fs fs2 p :
  wf_dir fs -> Permutation fs fs2 -> Dyn.sort_key fs2 p = Dyn.sort_key fs p.
Proof.
  intros Hwf Hp. unfold Dyn.sort_key. now rewrite (getmtime_perm fs fs2).
Qed.

Lemma Dyn_infos_perm fs fs2 log_dir :
  wf_dir fs -> Permutation fs fs2 ->
  Permutation (Dyn.file_infos fs log_dir) (Dyn.file_infos fs2 log_dir).
Proof.
  intros Hwf Hp. unfold Dyn.file_infos.
  rewrite (map_ext (fun p => (p, Dyn.sort_key fs2 p)) (fun p => (p, Dyn.sort_key fs p)))
    by (intros p; now rewrite (Dyn_sort_key_perm fs fs2)).
  now apply Permutation_map, glob_perm.
Qed.

(** With distinct keys the candidates do not depend on the order of the
    listing. *)
Lemma Dyn_to_delete_perm fs fs2 log_dir keep :
  wf_dir fs -> Permutation fs fs2 ->
  List.NoDup (map (Dyn.sort_key fs) (glob fs log_dir "*.log")) ->
  Dyn.to_delete fs2 log_dir keep = Dyn.to_delete fs log_dir keep.
Proof.
  intros Hwf Hp Hnd.
  assert (Hs : Dyn.sorted_infos fs log_dir = Dyn.sorted_infos fs2 log_dir).
  { apply sort_by_perm_eq;
      [apply dt_ltb_irrefl|apply dt_ltb_trans|apply dt_ltb_negtrans
      |apply dt_ltb_total|now apply Dyn_infos_perm|].
    unfold Dyn.file_infos. now rewrite map_map. }
  unfold Dyn.to_delete. now rewrite Hs.
Qed.

Lemma with_mtime_perm fs fs2 files files2 :
  (forall p, getmtime fs2 p = getmtime fs p) ->
  Permutation files files2 ->
  match Sta.with_mtime fs files, Sta.with_mtime fs2 files2 with
  | Some k, Some k2 => Permutation k k2
  | None, None => True
  | _, _ => False
  end.
Proof.
  intros Hg. induction 1 as [|x l l' Hp IH|x y l|l l' l'' H1 IH1 H2 IH2]; simpl.
  - constructor.
  - rewrite Hg. destruct (getmtime fs x).
    + destruct (Sta.with_mtime fs l), (Sta.with_mtime fs2 l'); try contradiction; auto.
    + exact I.
  - rewrite !Hg.
    assert (Hsame : Sta.with_mtime fs2 l = Sta.with_mtime fs l).
    { clear -Hg. induction l as [|p l IH]; simpl; [reflexivity|].
      now rewrite Hg, IH. }
    rewrite Hsame.
    destruct (getmtime fs y), (getmtime fs x), (Sta.with_mtime fs l); auto.
    apply perm_swap.
  - assert (Hmid : Sta.with_mtime fs2 l' = Sta.with_mtime fs l').
    { clear -Hg. induction l' as [|p l IH]; simpl; [reflexivity|].
      now rewrite Hg, IH. }
    rewrite Hmid in IH1.
    destruct (Sta.with_mtime fs l), (Sta.with_mtime fs l'), (Sta.with_mtime fs2 l'');
      try contradiction; auto.
    now transitivity l1.
Qed.

Lemma with_mtime_keys fs files keyed :
  Sta.with_mtime fs files = Some keyed ->
  map Some (map snd keyed) = map (getmtime fs) files.
Proof.
  revert keyed. induction files as [|p files IH]; simpl; intros keyed E.
  - now injection E as <-.
  - destruct (getmtime fs p) as [t|]; [|discriminate].
    destruct (Sta.with_mtime fs files) as [l|]; [|discriminate].
    injection E as <-. simpl. f_equal. now apply IH.
Qed.

Lemma Sta_to_delete_perm fs fs2 m log_dir keep :
  wf_dir fs -> Permutation fs fs2 ->
  List.NoDup (map (getmtime fs) (glob fs log_dir (Sta.pattern_of m))) ->
  Sta.to_delete fs2 m log_dir keep = Sta.to_delete fs m log_dir keep.
Proof.
  intros Hwf Hp Hnd.
  assert (Hs : Sta.sorted_files fs2 m log_dir = Sta.sorted_files fs m log_dir).
  { unfold Sta.sorted_files.
    pose proof (with_mtime_perm fs fs2 _ _
                  (fun p => getmtime_perm fs fs2 p Hwf Hp)
                  (glob_perm fs fs2 log_dir (Sta.pattern_of m) Hp)) as Hk.
    destruct (Sta.with_mtime fs _) as [k|] eqn:E,
             (Sta.with_mtime fs2 _) as [k2|]; try contradiction; [|reflexivity].
    f_equal. f_equal. symmetry.
    apply sort_by_perm_eq;
      [apply Zltb_irrefl|apply Zltb_trans|apply Zltb_negtrans|apply Zltb_total
      |exact Hk|].
    apply (List.NoDup_map_inv Some). now rewrite (with_mtime_keys _ _ _ E). }
  unfold Sta.to_delete. now rewrite Hs.
Qed.

(** Files of one modification time keep the order of the listing. *)
Lemma Sta_sorted_stable fs m log_dir files t :
  Sta.sorted_files fs m log_dir = Some files ->
  List.filter (mtime_is fs t) files
  = List.filter (mtime_is fs t) (glob fs log_dir (Sta.pattern_of m)).
Proof.
  unfold Sta.sorted_files.
  destruct (Sta.with_mtime fs _) as [keyed|] eqn:E; [|discriminate].
  intros [= <-]. rewrite <- (with_mtime_fst _ _ _ E). rewrite !filter_map_swap.
  f_equal.
  assert (Hperm : Permutation (sort_by Z.ltb snd keyed) keyed) by apply sort_by_perm.
  rewrite (List.filter_ext_in _ (fun x => keq Z.ltb (snd x) t)).
  - rewrite (sort_by_stable Z.ltb snd Zltb_negtrans).
    apply List.filter_ext_in. intros [p tp] Hx. unfold mtime_is. simpl.
    rewrite (with_mtime_snd _ _ _ E p tp Hx). now rewrite keq_Z.
  - intros [p tp] Hx. unfold mtime_is. simpl.
    rewrite (with_mtime_snd _ _ _ E p tp); [now rewrite keq_Z|].
    eapply Permutation_in; eauto.
Qed.
End ListingFacts.

(** The candidate is whichever the listing has first, not the first by
    name. *)
Lemma C7_counterexample :
  Permutation C7_dir1 C7_dir2 /\
  @Dyn.to_delete utc_platform C7_dir1 "logs" 1 = ["logs/b_2024-01-01_00-00-00.log"%string] /\
  @Dyn.to_delete utc_platform C7_dir2 "logs" 1 = ["logs/a_2024-01-01_00-00-00.log"%string] /\
  String.ltb "logs/a_2024-01-01_00-00-00.log" "logs/b_2024-01-01_00-00-00.log" = true.
Proof.
  split; [apply perm_swap|]. split; [vm_compute; reflexivity|].
  split; vm_compute; reflexivity.
Qed.

(** C7, amended: the selected files are sorted ascending by key; files of
    equal key keep the order of the directory listing, no file name
    breaks a tie; when the keys are distinct the candidates are the same
    for every order of the listing. *)
Theorem C7_sorted_and_stable `{Platform}
    (fs fs2 : dir) (module_name log_dir : string) (keep : Z) :
  wf_dir fs -> Permutation fs fs2 ->
  (ascending dt_ltb snd (Dyn.sorted_infos fs log_dir) /\
   Permutation (Dyn.sorted_infos fs log_dir) (Dyn.file_infos fs log_dir) /\
   (forall k,
      List.filter (fun x => keq dt_ltb (snd x) k) (Dyn.sorted_infos fs log_dir)
      = List.filter (fun x => keq dt_ltb (snd x) k) (Dyn.file_infos fs log_dir)) /\
   (List.NoDup (map (Dyn.sort_key fs) (glob fs log_dir "*.log")) ->
    Dyn.to_delete fs2 log_dir keep = Dyn.to_delete fs log_dir keep))
  /\
  ((forall files, Sta.sorted_files fs module_name log_dir = Some files ->
      StronglySorted (mtime_not_after fs) files /\
      Permutation files (glob fs log_dir (Sta.pattern_of module_name)) /\
      forall t, List.filter (mtime_is fs t) files
                = List.filter (mtime_is fs t)
                    (glob fs log_dir (Sta.pattern_of module_name))) /\
   (List.NoDup (map (getmtime fs) (glob fs log_dir (Sta.pattern_of module_name))) ->
    Sta.to_delete fs2 module_name log_dir keep
    = Sta.to_delete fs module_name log_dir keep)).
Proof.
  intros Hwf Hp. split.
  - split; [apply Dyn_sorted_ascending|].
    split; [apply Dyn_sorted_perm|].
    split; [intros k; apply (sort_by_stable dt_ltb snd dt_ltb_negtrans)|].
    now apply Dyn_to_delete_perm.
  - split.
    + intros files Hf.
      split; [now apply (Sta_sorted_by_mtime fs module_name log_dir)|].
      split; [now apply Sta_sorted_perm|].
      intros t. now apply Sta_sorted_stable.
    + now apply Sta_to_delete_perm.
Qed.

Lemma C7_witness :
  wf_dir C7_dir3 /\ Permutation C7_dir3 C7_dir4 /\
  @Dyn.to_delete utc_platform C7_dir4 "logs" 1
  = @Dyn.to_delete utc_platform C7_dir3 "logs" 1.
Proof.
  assert (Hwf : wf_dir C7_dir3) by (apply wf_dirb_ok; reflexivity).
  assert (Hp : Permutation C7_dir3 C7_dir4) by apply perm_swap.
  split; [exact Hwf|]. split; [exact Hp|].
  apply (@C7_sorted_and_stable utc_platform C7_dir3 C7_dir4 "svc" "logs" 1 Hwf Hp).
  vm_compute. repeat constructor; simpl; intuition discriminate.
Defined.

(** ** The twelve files of the example *)

Lemma insert_by_map {A B K} (ltb : K -> K -> bool) (key : B -> K) (h : A -> B) x l :
  insert_by ltb key (h x) (map h l) = map h (insert_by ltb (fun a => key (h a)) x l).
Proof.
  induction l as [|y l IH]; simpl; [reflexivity|].
  destruct (ltb (key (h y)) (key (h x))); simpl; [now rewrite IH|reflexivity].
Qed.

Lemma sort_by_map {A B K} (ltb : K -> K -> bool) (key : B -> K) (h : A -> B) l :
  sort_by ltb key (map h l) = map h (sort_by ltb (fun a => key (h a)) l).
Proof.
  induction l as [|x l IH]; simpl; [reflexivity|].
  now rewrite IH, insert_by_map.
Qed.

Lemma StronglySorted_filter {A} (R : A -> A -> Prop) (P : A -> bool) l :
  StronglySorted R l -> StronglySorted R (List.filter P l).
Proof.
  induction l as [|a l IH]; simpl; intros Hs; [constructor|].
  apply StronglySorted_inv in Hs as [Hs Ha].
  destruct (P a); [|now apply IH].
  constructor; [now apply IH|].
  rewrite List.Forall_forall in *. intros z Hz.
  apply List.filter_In in Hz as [Hz _]. now apply Ha.
Qed.

Lemma StronglySorted_lt_NoDup {A} (g : A -> Z) l :
  StronglySorted (fun a b => g a < g b) l -> List.NoDup (map g l).
Proof.
  induction l as [|a l IH]; simpl; intros Hs; [constructor|].
  apply StronglySorted_inv in Hs as [Hs Ha].
  constructor; [|now apply IH].
  intros Hin. apply in_map_iff in Hin as (b & Eb & Hb).
  rewrite List.Forall_forall in Ha. specialize (Ha b Hb). lia.
Qed.

Section ExampleFacts.
Context `{Platform}.

Lemma glob_all fs log_dir pat :
  (forall g, In g fs -> glob1 pat (fname g) = true) ->
  glob fs log_dir pat = map (path_join log_dir) (map fname fs).
Proof.
  intros Hall. unfold glob. rewrite filter_all by exact Hall. now rewrite map_map.
Qed.

Lemma with_mtime_total fs files :
  (forall p, In p files -> getmtime fs p <> None) ->
  Sta.with_mtime fs files = Some (map (fun p => (p, mtime_of fs p)) files).
Proof.
  induction files as [|p files IH]; simpl; intros Hall; [reflexivity|].
  rewrite IH by (intros q Hq; apply Hall; now right).
  unfold mtime_of. destruct (getmtime fs p) eqn:E; [reflexivity|].
  exfalso. apply (Hall p); [now left|exact E].
Qed.

Lemma Dyn_deleted_sorted fs log_dir keep :
  wf_dir fs ->
  StronglySorted
    (fun p q => dt_ltb (Dyn.sort_key fs q) (Dyn.sort_key fs p) = false)
    (fst (Dyn._purge_old_logs_global fs log_dir keep)).
Proof.
  intros Hwf. rewrite Dyn_purge_spec by exact Hwf. cbn [fst].
  apply StronglySorted_filter.
  destruct (Dyn_to_delete_front fs log_dir keep) as (n & -> & _).
  eapply StronglySorted_map_in;
    [|apply (ascending_firstn dt_ltb snd), Dyn_sorted_ascending].
  intros x y Hx Hy Hle.
  assert (Hin : forall z, In z (firstn n (Dyn.sorted_infos fs log_dir)) ->
                          snd z = Dyn.sort_key fs (fst z)).
  { intros z Hz. apply (Dyn_in_infos fs log_dir).
    eapply Permutation_in; [apply Dyn_sorted_perm|].
    rewrite <- (firstn_skipn n (Dyn.sorted_infos fs log_dir)).
    apply in_or_app. now left. }
  rewrite <- (Hin x Hx), <- (Hin y Hy). exact Hle.
Qed.

Lemma StronglySorted_firstn {A} (R : A -> A -> Prop) n l :
  StronglySorted R l -> StronglySorted R (firstn n l).
Proof.
  revert n. induction l as [|a l IH]; intros [|n] Hs; simpl; try constructor.
  - apply StronglySorted_inv in Hs as [Hs _]. now apply IH.
  - apply StronglySorted_inv in Hs as [_ Ha].
    rewrite List.Forall_forall in *. intros z Hz. apply Ha.
    rewrite <- (firstn_skipn n l). apply in_or_app. now left.
Qed.

Lemma Sta_deleted_sorted fs m log_dir keep deleted fs' :
  wf_dir fs ->
  Sta._purge_old_timestamped_logs fs m log_dir keep = Ok (deleted, fs') ->
  StronglySorted (mtime_not_after fs) deleted /\ fs' = fs_minus fs deleted.
Proof.
  intros Hwf E. rewrite Sta_purge_spec in E by exact Hwf.
  destruct (Sta.to_delete fs m log_dir keep) as [cands|] eqn:Ec; [|discriminate].
  injection E as <- <-. split; [|reflexivity].
  apply StronglySorted_filter.
  apply Sta_to_delete_front in Ec as (files & n & Hf & -> & _).
  apply StronglySorted_firstn. now apply (Sta_sorted_by_mtime fs m log_dir).
Qed.

Lemma names12_in fs g : holds_names12 fs -> In g fs -> In (fname g) names12.
Proof. intros Hp Hg. eapply Permutation_in; [exact Hp|]. now apply in_map. Qed.

Lemma names12_wf fs : holds_names12 fs -> wf_dir fs.
Proof.
  intros Hp. split.
  - eapply Permutation_NoDup; [symmetry; exact Hp|].
    apply nodupb_ok. reflexivity.
  - apply List.Forall_forall. intros g Hg.
    apply (names12_in fs g Hp) in Hg.
    assert (Hall : List.Forall (fun n => plain n = true) names12)
      by (repeat constructor).
    rewrite List.Forall_forall in Hall. now apply Hall.
Qed.

Lemma names12_can_remove fs log_dir n :
  holds_names12 fs -> List.Forall (fun g => removable g = true) fs ->
  In n names12 -> can_remove fs (path_join log_dir n) = true.
Proof.
  intros Hp Hrem Hn.
  assert (Hin : In n (map fname fs))
    by (eapply Permutation_in; [symmetry; exact Hp|exact Hn]).
  apply in_map_iff in Hin as (g & <- & Hg).
  rewrite can_remove_path by (try apply names12_wf; assumption).
  rewrite List.Forall_forall in Hrem. now apply Hrem.
Qed.

Lemma names12_sort_key fs log_dir n :
  In n names12 -> Dyn.sort_key fs (path_join log_dir n) = name_key n.
Proof.
  intros Hn.
  assert (Hall : List.Forall
            (fun n => plain n = true /\ _parse_timestamp_from_filename n <> None)
            names12)
    by (repeat constructor; discriminate).
  rewrite List.Forall_forall in Hall. destruct (Hall n Hn) as [Hpl Hparse].
  unfold Dyn.sort_key, name_key.
  assert (E : _parse_timestamp_from_filename (path_join log_dir n)
              = _parse_timestamp_from_filename n).
  { unfold _parse_timestamp_from_filename.
    now rewrite basename_path_join, basename_plain. }
  rewrite E. destruct (_parse_timestamp_from_filename n); [reflexivity|].
  now contradiction Hparse.
Qed.

(** The global pass on the twelve files, [keep = 10]. *)
Lemma Dyn_names12 fs log_dir :
  holds_names12 fs -> List.Forall (fun g => removable g = true) fs ->
  fst (Dyn._purge_old_logs_global fs log_dir 10)
  = [path_join log_dir "svc_2024-01-01_00-00-00.log";
     path_join log_dir "svc_2024-01-02_00-00-00.log"].
Proof.
  intros Hp Hrem. pose proof (names12_wf fs Hp) as Hwf.
  rewrite Dyn_purge_spec by exact Hwf. cbn [fst].
  assert (Hglob : glob fs log_dir "*.log" = map (path_join log_dir) (map fname fs)).
  { apply glob_all. intros g Hg. apply (names12_in fs g Hp) in Hg.
    assert (Hall : List.Forall (fun n => glob1 "*.log" n = true) names12)
      by (repeat constructor).
    rewrite List.Forall_forall in Hall. now apply Hall. }
  set (info := fun n : string => (path_join log_dir n, name_key n)).
  assert (Hinfos : Dyn.file_infos fs log_dir = map info (map fname fs)).
  { unfold Dyn.file_infos. rewrite Hglob, !map_map. apply map_ext_in.
    intros g Hg. unfold info. f_equal.
    apply names12_sort_key. now apply (names12_in fs g Hp). }
  assert (Hsorted : Dyn.sorted_infos fs log_dir = map info names12).
  { unfold Dyn.sorted_infos. rewrite Hinfos.
    rewrite (sort_by_perm_eq dt_ltb snd dt_ltb_irrefl dt_ltb_trans dt_ltb_negtrans
               dt_ltb_total _ (map info names12)).
    - rewrite sort_by_map. f_equal.
    - now apply Permutation_map.
    - rewrite map_map. simpl.
      eapply Permutation_NoDup;
        [apply Permutation_map; symmetry; exact Hp|].
      vm_compute. repeat constructor; simpl; intuition discriminate. }
  assert (Hdel : Dyn.to_delete fs log_dir 10
                 = [path_join log_dir "svc_2024-01-01_00-00-00.log";
                    path_join log_dir "svc_2024-01-02_00-00-00.log"]).
  { unfold Dyn.to_delete. rewrite Hsorted. reflexivity. }
  rewrite Hdel. apply filter_all. intros p [<-|[<-|[]]];
    apply names12_can_remove; auto; simpl; tauto.
Qed.

(** The scoped pass on the twelve files, [keep = 10], when the
    modification times grow with the names. *)
Lemma Sta_names12 fs log_dir :
  holds_names12 fs -> List.Forall (fun g => removable g = true) fs ->
  StronglySorted
    (fun a b => mtime_before fs (path_join log_dir a) (path_join log_dir b))
    names12 ->
  exists fs',
    Sta._purge_old_timestamped_logs fs "svc" log_dir 10
    = Ok ([path_join log_dir "svc_2024-01-01_00-00-00.log";
           path_join log_dir "svc_2024-01-02_00-00-00.log"], fs').
Proof.
  intros Hp Hrem Hmt. pose proof (names12_wf fs Hp) as Hwf.
  rewrite Sta_purge_spec by exact Hwf.
  assert (Hglob : glob fs log_dir (Sta.pattern_of "svc")
                  = map (path_join log_dir) (map fname fs)).
  { apply glob_all. intros g Hg. apply (names12_in fs g Hp) in Hg.
    assert (Hall : List.Forall (fun n => glob1 (Sta.pattern_of "svc") n = true) names12)
      by (repeat constructor).
    rewrite List.Forall_forall in Hall. now apply Hall. }
  set (paths := map (path_join log_dir) names12).
  assert (Hread : forall n, In n names12 -> getmtime fs (path_join log_dir n) <> None).
  { intros n Hn.
    assert (Hfirst : forall a b, mtime_before fs a b -> getmtime fs a <> None
                                                        /\ getmtime fs b <> None).
    { intros a b (ta & tb & -> & -> & _). split; discriminate. }
    assert (Hrefl : forall l, StronglySorted
              (fun a b => mtime_before fs (path_join log_dir a) (path_join log_dir b)) l ->
              (2 <= length l)%nat ->
              forall n, In n l -> getmtime fs (path_join log_dir n) <> None).
    { clear -Hfirst. intros l Hs. induction Hs as [|a l Hs IH Ha]; intros Hl n0 Hn0.
      - simpl in Hl. lia.
      - rewrite List.Forall_forall in Ha. destruct l as [|b l]; [simpl in Hl; lia|].
        destruct Hn0 as [<-|Hn0].
        + apply (Hfirst _ _ (Ha b (or_introl eq_refl))).
        + apply (Hfirst _ _ (Ha n0 Hn0)). }
    apply (Hrefl names12 Hmt); [simpl; lia|exact Hn]. }
  assert (Hsorted : Sta.sorted_files fs "svc" log_dir = Some paths).
  { unfold Sta.sorted_files. rewrite Hglob.
    rewrite with_mtime_total.
    2:{ intros p Hp'. apply in_map_iff in Hp' as (n & <- & Hn).
        apply Hread. eapply Permutation_in; eauto. }
    f_equal.
    set (keyed := fun p : string => (p, mtime_of fs p)).
    assert (Hkeys : StronglySorted (fun a b => mtime_of fs a < mtime_of fs b) paths).
    { unfold paths. eapply StronglySorted_map_in; [|exact Hmt].
      intros a b _ _ (ta & tb & Ea & Eb & Hlt). unfold mtime_of.
      now rewrite Ea, Eb. }
    rewrite (sort_by_perm_eq Z.ltb snd Zltb_irrefl Zltb_trans Zltb_negtrans Zltb_total
               _ (map keyed paths)).
    - rewrite sort_by_id;
        [|apply Zltb_irrefl|apply Zltb_trans|apply Zltb_negtrans|apply Zltb_total| |].
      + rewrite map_map. unfold keyed. cbn [fst]. apply map_id.
      + eapply StronglySorted_map_in; [|exact Hkeys].
        intros a b _ _ Hlt. unfold not_after, keyed. cbn [snd]. cbv beta in Hlt.
        apply Z.ltb_ge. lia.
      + rewrite map_map. unfold keyed. cbn [snd]. now apply StronglySorted_lt_NoDup.
    - unfold paths. now apply Permutation_map, Permutation_map.
    - rewrite map_map. unfold keyed. cbn [snd].
      eapply Permutation_NoDup;
        [apply Permutation_map, Permutation_map; symmetry; exact Hp|].
      fold paths. now apply StronglySorted_lt_NoDup. }
  assert (Hdel : Sta.to_delete fs "svc" log_dir 10
                 = Some [path_join log_dir "svc_2024-01-01_00-00-00.log";
                         path_join log_dir "svc_2024-01-02_00-00-00.log"]).
  { unfold Sta.to_delete. rewrite Hsorted. reflexivity. }
  rewrite Hdel. eexists. f_equal. f_equal.
  apply filter_all. intros p [<-|[<-|[]]];
    apply names12_can_remove; auto; simpl; tauto.
Qed.
End ExampleFacts.

(** The scoped pass deletes the two latest by name. *)
Lemma C6_counterexample :
  holds_names12 C6_dir /\
  exists fs',
    @Sta._purge_old_timestamped_logs utc_platform C6_dir "svc" "logs" 10
    = Ok (["logs/svc_2024-01-12_00-00-00.log"%string;
           "logs/svc_2024-01-11_00-00-00.log"%string], fs') /\
    ["logs/svc_2024-01-12_00-00-00.log"%string;
     "logs/svc_2024-01-11_00-00-00.log"%string]
    <> ["logs/svc_2024-01-01_00-00-00.log"%string;
        "logs/svc_2024-01-02_00-00-00.log"%string].
Proof.
  split; [exact (Permutation_refl names12)|].
  eexists. split; [vm_compute; reflexivity|discriminate].
Qed.

(** C6, amended: a pass returns the paths it deleted in the order it
    deleted them, oldest first by its sort key. With [keep = 10] and the
    twelve files [svc_2024-01-01...] to [svc_2024-01-12...], all removable,
    the global pass deletes and returns the two earliest in that order,
    whatever the listing order and the modification times; the scoped
    pass does so when the modification times grow with the names. *)
Theorem C6_returns_deleted_oldest_first `{Platform}
    (fs : dir) (module_name log_dir : string) (keep : Z) :
  wf_dir fs ->
  (StronglySorted
     (fun p q => dt_ltb (Dyn.sort_key fs q) (Dyn.sort_key fs p) = false)
     (fst (Dyn._purge_old_logs_global fs log_dir keep)) /\
   fst (Dyn._purge_old_logs_global fs log_dir keep)
     = List.filter (can_remove fs) (Dyn.to_delete fs log_dir keep) /\
   snd (Dyn._purge_old_logs_global fs log_dir keep)
     = fs_minus fs (fst (Dyn._purge_old_logs_global fs log_dir keep)))
  /\
  (forall deleted fs',
     Sta._purge_old_timestamped_logs fs module_name log_dir keep = Ok (deleted, fs') ->
     StronglySorted (mtime_not_after fs) deleted /\ fs' = fs_minus fs deleted)
  /\
  (holds_names12 fs -> List.Forall (fun g => removable g = true) fs ->
   fst (Dyn._purge_old_logs_global fs log_dir 10)
   = [path_join log_dir "svc_2024-01-01_00-00-00.log";
      path_join log_dir "svc_2024-01-02_00-00-00.log"])
  /\
  (holds_names12 fs -> List.Forall (fun g => removable g = true) fs ->
   StronglySorted
     (fun a b => mtime_before fs (path_join log_dir a) (path_join log_dir b))
     names12 ->
   exists fs',
     Sta._purge_old_timestamped_logs fs "svc" log_dir 10
     = Ok ([path_join log_dir "svc_2024-01-01_00-00-00.log";
            path_join log_dir "svc_2024-01-02_00-00-00.log"], fs')).
Proof.
  intros Hwf. split; [|split; [|split]].
  - split; [now apply Dyn_deleted_sorted|].
    rewrite Dyn_purge_spec by exact Hwf. split; reflexivity.
  - intros deleted fs'. now apply Sta_deleted_sorted.
  - apply Dyn_names12.
  - apply Sta_names12.
Qed.

Lemma C6_witness :
  wf_dir C6_dir_ok /\
  @Dyn._purge_old_logs_global utc_platform C6_dir_ok "logs" 10
  = (["logs/svc_2024-01-01_00-00-00.log"%string;
      "logs/svc_2024-01-02_00-00-00.log"%string],
     fs_minus C6_dir_ok ["logs/svc_2024-01-01_00-00-00.log"%string;
                         "logs/svc_2024-01-02_00-00-00.log"%string]).
Proof.
  assert (Hwf : wf_dir C6_dir_ok) by (apply wf_dirb_ok; reflexivity).
  split; [exact Hwf|].
  pose proof (@C6_returns_deleted_oldest_first utc_platform C6_dir_ok "svc" "logs" 10 Hwf)
    as ((_ & _ & Hsnd) & _ & Hex & _).
  assert (Hfst : fst (@Dyn._purge_old_logs_global utc_platform C6_dir_ok "logs" 10)
                 = ["logs/svc_2024-01-01_00-00-00.log"%string;
                    "logs/svc_2024-01-02_00-00-00.log"%string]).
  { apply Hex.
    - unfold holds_names12, C6_dir_ok. rewrite map_rev.
      symmetry. exact (Permutation_rev names12).
    - vm_compute. repeat constructor. }
  rewrite Hfst in Hsnd.
  destruct (@Dyn._purge_old_logs_global utc_platform C6_dir_ok "logs" 10) as [d fs'].
  simpl in Hfst, Hsnd. now subst.
Defined.

(** ** The registry of loggers *)

Lemma getLogger_insert reg n l m :
  getLogger (<[logger_key n := l]> reg) m
  = if decide (logger_key n = logger_key m) then l else getLogger reg m.
Proof.
  unfold getLogger. rewrite lookup_insert. now destruct (decide _).
Qed.

Lemma getLogger_key reg n m :
  logger_key n = logger_key m -> getLogger reg n = getLogger reg m.
Proof. unfold getLogger. now intros ->. Qed.

Lemma handlers_setLevel reg n l m :
  lg_handlers (getLogger (setLevel reg n l) m) = lg_handlers (getLogger reg m).
Proof.
  unfold setLevel. rewrite getLogger_insert.
  destruct (decide _) as [E|]; [|reflexivity].
  simpl. now rewrite (getLogger_key reg n m E).
Qed.

Lemma handlers_addHandler reg m h :
  lg_handlers (getLogger (addHandler reg m h) m)
  = lg_handlers (getLogger reg m) ++ [h].
Proof.
  unfold addHandler. rewrite getLogger_insert.
  now destruct (decide _).
Qed.

Lemma handlers_quiet_noisy reg m :
  lg_handlers (getLogger (quiet_noisy reg) m) = lg_handlers (getLogger reg m).
Proof.
  unfold quiet_noisy. generalize noisy_loggers. intros l. revert reg.
  induction l as [|n l IH]; intros reg; simpl; [reflexivity|].
  now rewrite IH, handlers_setLevel.
Qed.

(** ** Making the session file *)

Lemma basename_acc_is_plain acc l :
  plain_chars acc = true -> plain_chars (basename_acc acc l) = true.
Proof.
  revert acc. induction l as [|c l IH]; simpl; intros acc Hacc.
  - unfold plain_chars in *. rewrite forallb_forall in *.
    intros x Hx. apply Hacc. now apply in_rev.
  - destruct (Ascii.eqb c "/") eqn:E; apply IH; [reflexivity|].
    simpl. now rewrite E, Hacc.
Qed.

Lemma basename_is_plain p : plain (basename p) = true.
Proof.
  unfold plain, basename. rewrite chars_str. now apply basename_acc_is_plain.
Qed.

Lemma fs_touch_present fs e path g :
  fs_find fs path = Some g -> fs_touch fs e path = fs.
Proof. unfold fs_touch. now intros ->. Qed.

Lemma fs_touch_perm fs e path :
  fs_find fs path = None ->
  Permutation (fs_touch fs e path) (new_entry e path :: fs).
Proof.
  unfold fs_touch. intros ->. fold (new_entry e path).
  rewrite <- (firstn_skipn (slot e) fs) at 3.
  symmetry. apply Permutation_middle.
Qed.

Lemma fs_find_none fs path g :
  fs_find fs path = None -> In g fs -> fname g <> basename path.
Proof.
  unfold fs_find. intros E Hg. apply name_is_neq. eapply List.find_none; eauto.
Qed.

Lemma fs_touch_wf fs e path : wf_dir fs -> wf_dir (fs_touch fs e path).
Proof.
  intros Hwf. destruct (fs_find fs path) as [g|] eqn:E.
  - now rewrite (fs_touch_present _ _ _ _ E).
  - pose proof (fs_touch_perm fs e path E) as Hp. destruct Hwf as [Hnd Hpl]. split.
    + eapply Permutation_NoDup; [symmetry; apply Permutation_map; exact Hp|].
      simpl. constructor; [|exact Hnd].
      intros Hin. apply in_map_iff in Hin as (g & Eg & Hg).
      now apply (fs_find_none fs path g E Hg).
    + eapply Permutation_Forall; [symmetry; exact Hp|].
      constructor; [apply basename_is_plain|exact Hpl].
Qed.

Lemma find_app_split {A} (P : A -> bool) l1 l2 :
  List.find P (l1 ++ l2)
  = match List.find P l1 with
    | Some x => Some x
    | None => List.find P l2
    end.
Proof.
  induction l1 as [|x l1 IH]; simpl; [reflexivity|]. now destruct (P x).
Qed.

Lemma fs_touch_twice fs e path :
  fs_touch (fs_touch fs e path) e path = fs_touch fs e path.
Proof.
  destruct (fs_find fs path) as [g|] eqn:E.
  - now rewrite !(fs_touch_present _ _ _ _ E).
  - assert (Hf : fs_find (fs_touch fs e path) path = Some (new_entry e path)).
    { unfold fs_touch. rewrite E. unfold fs_find in *.
      rewrite find_app_split.
      assert (Hnone : List.find (name_is (basename path)) (firstn (slot e) fs) = None).
      { destruct (List.find _ (firstn (slot e) fs)) as [g|] eqn:Eg; [|reflexivity].
        apply List.find_some in Eg as [Hg Hn].
        rewrite (List.find_none _ _ E g) in Hn; [discriminate|].
        rewrite <- (firstn_skipn (slot e) fs). apply in_or_app. now left. }
      rewrite Hnone. simpl. unfold name_is at 1. simpl.
      now rewrite String.eqb_refl. }
    now rewrite (fs_touch_present _ _ _ _ Hf).
Qed.

Section SetupFacts.
Context `{Platform}.

(** A call of the global variant on a logger without handlers. *)
Lemma Dyn_setup_first w e m log_dir level when backup_count keep :
  lg_handlers (getLogger (w_loggers w) m) = [] ->
  Dyn.setup_logger w e m log_dir level when backup_count keep
  = if negb (w_makedirs_ok w) then Raise OSError
    else if negb (w_open_ok w) then Raise OSError
    else
      let fs := fs_touch (w_files w) e (log_filename_of e m log_dir) in
      let reg :=
        quiet_noisy
          (addHandler
             (addHandler (setLevel (w_loggers w) m level) m
                (TimedRotatingFileHandler (log_filename_of e m log_dir) when
                   backup_count "utf-8" false level FORMAT))
             m (StreamHandler INFO FORMAT)) in
      Ok (logger_key m, fst (Dyn._purge_old_logs_global fs log_dir keep),
          mkworld (snd (Dyn._purge_old_logs_global fs log_dir keep)) reg
                  (w_makedirs_ok w) (w_open_ok w)).
Proof.
  intros Hh. unfold Dyn.setup_logger.
  destruct (w_makedirs_ok w); [|reflexivity]. cbn [negb].
  rewrite handlers_setLevel, Hh.
  destruct (w_open_ok w); [|reflexivity]. cbn [negb].
  rewrite fs_touch_twice.
  now destruct (Dyn._purge_old_logs_global _ log_dir keep).
Qed.

(** A call of the global variant on a logger that has handlers. *)
Lemma Dyn_setup_again w e m log_dir level when backup_count keep :
  lg_handlers (getLogger (w_loggers w) m) <> [] ->
  Dyn.setup_logger w e m log_dir level when backup_count keep
  = if negb (w_makedirs_ok w) then Raise OSError
    else
      let fs := Dyn_touched w e m log_dir in
      Ok (logger_key m, fst (Dyn._purge_old_logs_global fs log_dir keep),
          mkworld (snd (Dyn._purge_old_logs_global fs log_dir keep))
                  (setLevel (w_loggers w) m level)
                  (w_makedirs_ok w) (w_open_ok w)).
Proof.
  intros Hh. unfold Dyn.setup_logger, Dyn_touched.
  destruct (w_makedirs_ok w); [|reflexivity]. cbn [negb].
  rewrite handlers_setLevel.
  destruct (lg_handlers (getLogger (w_loggers w) m)) as [|h hs]; [contradiction|].
  now destruct (Dyn._purge_old_logs_global _ log_dir keep).
Qed.

Lemma Sta_setup_first w e m log_dir level when backup_count keep :
  lg_handlers (getLogger (w_loggers w) m) = [] ->
  Sta.setup_logger w e m log_dir level when backup_count keep
  = if negb (w_makedirs_ok w) then Raise OSError
    else if negb (w_open_ok w) then Raise OSError
    else
      let fs := fs_touch (w_files w) e (log_filename_of e m log_dir) in
      let reg :=
        quiet_noisy
          (addHandler
             (addHandler (setLevel (w_loggers w) m level) m
                (TimedRotatingFileHandler (log_filename_of e m log_dir) when
                   backup_count "utf-8" false level FORMAT))
             m (StreamHandler INFO FORMAT)) in
      match Sta._purge_old_timestamped_logs fs m log_dir keep with
      | Raise x => Raise x
      | Ok (deleted, fs') =>
          Ok (logger_key m, deleted,
              mkworld fs' reg (w_makedirs_ok w) (w_open_ok w))
      end.
Proof.
  intros Hh. unfold Sta.setup_logger.
  destruct (w_makedirs_ok w); [|reflexivity]. cbn [negb].
  rewrite handlers_setLevel, Hh.
  destruct (w_open_ok w); reflexivity.
Qed.

Lemma Sta_setup_again w e m log_dir level when backup_count keep :
  lg_handlers (getLogger (w_loggers w) m) <> [] ->
  Sta.setup_logger w e m log_dir level when backup_count keep
  = if negb (w_makedirs_ok w) then Raise OSError
    else
      match Sta._purge_old_timestamped_logs (w_files w) m log_dir keep with
      | Raise x => Raise x
      | Ok (deleted, fs') =>
          Ok (logger_key m, deleted,
              mkworld fs' (setLevel (w_loggers w) m level)
                      (w_makedirs_ok w) (w_open_ok w))
      end.
Proof.
  intros Hh. unfold Sta.setup_logger.
  destruct (w_makedirs_ok w); [|reflexivity]. cbn [negb].
  rewrite handlers_setLevel.
  now destruct (lg_handlers (getLogger (w_loggers w) m)) as [|h hs].
Qed.

(** The handlers of the logger after a first call. *)
Lemma handlers_after_first reg m level fh ch :
  lg_handlers (getLogger reg m) = [] ->
  lg_handlers
    (getLogger
       (quiet_noisy (addHandler (addHandler (setLevel reg m level) m fh) m ch)) m)
  = [fh; ch].
Proof.
  intros Hh. rewrite handlers_quiet_noisy, !handlers_addHandler, handlers_setLevel.
  now rewrite Hh.
Qed.
End SetupFacts.

(** What a formatter built on [FORMAT] makes of a record. *)
Lemma render_FORMAT r : render FORMAT r = Some (format_line r).
Proof.
  unfold render, format_line.
  change (render_from FText (chars FORMAT) r)
    with (Some (chars (asctime r) ++ chars " - " ++ chars (levelname r)
                ++ chars " - " ++ chars (name r) ++ chars " - "
                ++ chars (message r) ++ [])).
  cbn [option_map]. f_equal. apply chars_inj.
  rewrite chars_str, !chars_app, app_nil_r. reflexivity.
Qed.

(** C8: a call for a logger that has no handler yet, in a directory that
    can be made and written, with a rollover interval the handler takes,
    attaches exactly two: a time-rotating file handler on the timestamped
    file, UTF-8, keeping [backup_count] rotations, at level [level]; and a
    console handler at level [INFO] whatever [level] is; the formatter of
    both is built on [FORMAT], which renders a record of the logger as
    [asctime - levelname - name - message]. *)
Theorem C8_first_call_attaches_two_sinks `{Platform}
    (w : world) (e : env) (module_name log_dir : string)
    (level : Z) (when : string) (backup_count keep : Z) :
  lg_handlers (getLogger (w_loggers w) module_name) = [] ->
  w_makedirs_ok w = true -> w_open_ok w = true -> valid_when when = true ->
  let file_sink :=
    TimedRotatingFileHandler (log_filename_of e module_name log_dir) when
      backup_count "utf-8" false level FORMAT in
  let console_sink := StreamHandler INFO FORMAT in
  let touched := fs_touch (w_files w) e (log_filename_of e module_name log_dir) in
  (exists deleted w',
     Dyn.setup_logger w e module_name log_dir level when backup_count keep
       = Ok (logger_key module_name, deleted, w') /\
     lg_handlers (getLogger (w_loggers w') module_name) = [file_sink; console_sink])
  /\
  (forall k deleted w',
     Sta.setup_logger w e module_name log_dir level when backup_count keep
       = Ok (k, deleted, w') ->
     k = logger_key module_name /\
     lg_handlers (getLogger (w_loggers w') module_name) = [file_sink; console_sink])
  /\
  (plain module_name = true -> tidy_dir log_dir = true ->
   (forall p, In p (glob touched log_dir (Sta.pattern_of module_name)) ->
              getmtime touched p <> None) ->
   exists deleted w',
     Sta.setup_logger w e module_name log_dir level when backup_count keep
       = Ok (logger_key module_name, deleted, w'))
  /\
  (forall levelno,
     h_accepts file_sink levelno = (level <=? levelno) /\
     h_accepts console_sink levelno = (INFO <=? levelno))
  /\
  (forall h, In h [file_sink; console_sink] ->
     h_formatter h = FORMAT /\
     forall t l msg,
       render (h_formatter h) (mkrec t l (logger_key module_name) msg)
       = Some (t +:+ " - " +:+ l +:+ " - " +:+ logger_key module_name
                 +:+ " - " +:+ msg)%string).
Proof.
  intros Hh Hmk Hop _ file_sink console_sink touched.
  split; [|split; [|split; [|split]]].
  - rewrite Dyn_setup_first by exact Hh. rewrite Hmk, Hop. cbn [negb].
    do 2 eexists. split; [reflexivity|]. cbn [w_loggers].
    now apply handlers_after_first.
  - intros k deleted w'. rewrite Sta_setup_first by exact Hh.
    rewrite Hmk, Hop. cbn [negb]. cbv zeta.
    destruct (Sta._purge_old_timestamped_logs _ module_name log_dir keep)
      as [[d fs']|x]; [|discriminate].
    intros [= <- <- <-]. split; [reflexivity|]. cbn [w_loggers].
    now apply handlers_after_first.
  - intros _ _ Hread. rewrite Sta_setup_first by exact Hh.
    rewrite Hmk, Hop. cbn [negb]. cbv zeta. fold touched.
    unfold Sta._purge_old_timestamped_logs.
    destruct (glob touched log_dir (Sta.pattern_of module_name)) as [|p ps] eqn:Eg.
    + now do 2 eexists.
    + destruct (Sta.to_delete touched module_name log_dir keep) as [cands|] eqn:Ec.
      * destruct (delete_loop touched cands []) as [d fs']. now do 2 eexists.
      * exfalso. apply Sta_to_delete_none in Ec as (q & Hq & Hn).
        rewrite Eg in Hq. now apply (Hread q).
  - intros levelno. split; reflexivity.
  - intros h Hin.
    assert (Ef : h_formatter h = FORMAT)
      by (destruct Hin as [<-|[<-|[]]]; reflexivity).
    split; [exact Ef|]. intros t l msg. rewrite Ef.
    apply render_FORMAT.
Qed.

Lemma C8_witness :
  exists deleted w',
    @Dyn.setup_logger utc_platform C8_world C8_env "svc" "logs" DEBUG "midnight" 7 10
      = Ok ("svc"%string, deleted, w') /\
    lg_handlers (getLogger (w_loggers w') "svc")
    = [TimedRotatingFileHandler "logs/svc_2024-01-02_03-04-05.log" "midnight" 7
         "utf-8" false DEBUG FORMAT;
       StreamHandler INFO FORMAT].
Proof.
  exact (proj1 (@C8_first_call_attaches_two_sinks utc_platform C8_world C8_env
                  "svc" "logs" DEBUG "midnight" 7 10 eq_refl eq_refl eq_refl eq_refl)).
Defined.

(** ** Calling twice *)

(** The scoped variant: a second call for the same name makes no file and
    no handler; it runs a pass on the directory as it is and returns the
    same logger, still bound to the first file. *)
Lemma Sta_setup_twice `{Platform} (w : world) (e1 e2 : env) (m log_dir : string)
    (level1 level2 : Z) (when1 when2 : string) (bc1 bc2 keep1 keep2 : Z)
    (k1 : string) (deleted1 : list string) (w1 : world) :
  lg_handlers (getLogger (w_loggers w) m) = [] ->
  Sta.setup_logger w e1 m log_dir level1 when1 bc1 keep1 = Ok (k1, deleted1, w1) ->
  forall k2 deleted2 w2,
    Sta.setup_logger w1 e2 m log_dir level2 when2 bc2 keep2 = Ok (k2, deleted2, w2) ->
    k2 = k1 /\
    lg_handlers (getLogger (w_loggers w2) m)
    = [TimedRotatingFileHandler (log_filename_of e1 m log_dir) when1 bc1 "utf-8"
         false level1 FORMAT;
       StreamHandler INFO FORMAT] /\
    Sta._purge_old_timestamped_logs (w_files w1) m log_dir keep2
    = Ok (deleted2, w_files w2).
Proof.
  intros Hh E1 k2 deleted2 w2 E2.
  rewrite Sta_setup_first in E1 by exact Hh.
  destruct (w_makedirs_ok w) eqn:Hmk; [|discriminate].
  destruct (w_open_ok w) eqn:Hop; [|discriminate]. cbn [negb] in E1. cbv zeta in E1.
  destruct (Sta._purge_old_timestamped_logs _ m log_dir keep1) as [[d fs']|x];
    [|discriminate].
  injection E1 as <- <- <-.
  assert (Hh1 : lg_handlers (getLogger (w_loggers
            (mkworld fs'
               (quiet_noisy
                  (addHandler
                     (addHandler (setLevel (w_loggers w) m level1) m
                        (TimedRotatingFileHandler (log_filename_of e1 m log_dir)
                           when1 bc1 "utf-8" false level1 FORMAT))
                     m (StreamHandler INFO FORMAT))) true true)) m)
          = [TimedRotatingFileHandler (log_filename_of e1 m log_dir) when1 bc1
               "utf-8" false level1 FORMAT;
             StreamHandler INFO FORMAT])
    by (cbn [w_loggers]; now apply handlers_after_first).
  rewrite Sta_setup_again in E2 by (rewrite Hh1; discriminate).
  cbn [w_makedirs_ok w_open_ok w_files negb] in E2.
  destruct (Sta._purge_old_timestamped_logs fs' m log_dir keep2) as [[d2 fs2]|x] eqn:Ep;
    [|discriminate].
  injection E2 as <- <- <-. split; [reflexivity|].
  split; [|cbn [w_files]; exact Ep].
  cbn [w_loggers]. rewrite handlers_setLevel. exact Hh1.
Qed.

(** C3 at two calls one second apart, in the global variant: the second
    call leaves the handlers as they are, bound to the first file, and
    makes a second file. *)
Theorem C3_dynamic_second_call_makes_a_file :
  exists w1 w2,
    @Dyn.setup_logger utc_platform (mkworld [] ∅ true true) C3_env1
      "svc" "logs" DEBUG "midnight" 7 10 = Ok ("svc"%string, [], w1) /\
    @Dyn.setup_logger utc_platform w1 C3_env2
      "svc" "logs" DEBUG "midnight" 7 10 = Ok ("svc"%string, [], w2) /\
    map fname (w_files w1) = ["svc_2024-01-02_03-04-05.log"%string] /\
    map fname (w_files w2)
    = ["svc_2024-01-02_03-04-06.log"%string; "svc_2024-01-02_03-04-05.log"%string] /\
    lg_handlers (getLogger (w_loggers w2) "svc")
    = [TimedRotatingFileHandler "logs/svc_2024-01-02_03-04-05.log" "midnight" 7
         "utf-8" false DEBUG FORMAT;
       StreamHandler INFO FORMAT].
Proof.
  do 2 eexists. split; [vm_compute; reflexivity|].
  split; [vm_compute; reflexivity|].
  split; [reflexivity|]. split; reflexivity.
Qed.

(** The same two calls in the scoped variant leave one file. *)
Example C3_static_second_call_makes_no_file :
  exists w1 w2,
    @Sta.setup_logger utc_platform (mkworld [] ∅ true true) C3_env1
      "svc" "logs" DEBUG "midnight" 7 10 = Ok ("svc"%string, [], w1) /\
    @Sta.setup_logger utc_platform w1 C3_env2
      "svc" "logs" DEBUG "midnight" 7 10 = Ok ("svc"%string, [], w2) /\
    map fname (w_files w2) = ["svc_2024-01-02_03-04-05.log"%string].
Proof.
  do 2 eexists. split; [vm_compute; reflexivity|].
  split; [vm_compute; reflexivity|]. reflexivity.
Qed.

(** ** The session file in the pass *)

Section SessionFacts.
Context `{Platform}.

Lemma log_filename_session e m log_dir :
  log_filename_of e m log_dir
  = path_join log_dir (session_name m (fromtimestamp (now e))).
Proof. reflexivity. Qed.

Lemma basename_log_filename e m log_dir :
  plain m = true ->
  basename (log_filename_of e m log_dir) = session_name m (fromtimestamp (now e)).
Proof.
  intros Hm. rewrite log_filename_session.
  apply basename_path_join. now apply plain_session_name.
Qed.

Lemma ishidden_session m d : _ishidden (session_name m d) = _ishidden (Sta.pattern_of m).
Proof.
  unfold _ishidden, Sta.pattern_of. rewrite chars_session_name, chars_app.
  now destruct (chars m).
Qed.

Lemma ishidden_session_plain m d :
  _ishidden m = false -> _ishidden (session_name m d) = false.
Proof.
  unfold _ishidden. rewrite chars_session_name.
  now destruct (chars m).
Qed.

(** The session file is one the global pattern selects. *)
Lemma session_selected_global m d :
  _ishidden m = false -> glob1 "*.log" (session_name m d) = true.
Proof.
  intros Hm. unfold glob1. rewrite (ishidden_session_plain m d Hm).
  rewrite fnmatch_log. unfold ends_log. apply has_suffix_spec.
  rewrite chars_session_name.
  exists (chars m ++ "_"%char :: strftime_ts d). now rewrite <- app_assoc.
Qed.

(** And one the scoped pattern of its module selects. *)
Lemma session_selected_scoped m d :
  no_magic m = true -> glob1 (Sta.pattern_of m) (session_name m d) = true.
Proof.
  intros Hm. unfold glob1. rewrite ishidden_session.
  destruct (_ishidden (Sta.pattern_of m)); simpl;
    apply fnmatch_pattern_of; try exact Hm;
    exists (strftime_ts d); apply chars_session_name.
Qed.

Lemma glob_touch fs e log_dir pat n :
  plain n = true ->
  fs_find fs (path_join log_dir n) = None -> glob1 pat n = true ->
  Permutation (glob (fs_touch fs e (path_join log_dir n)) log_dir pat)
              (path_join log_dir n :: glob fs log_dir pat).
Proof.
  intros Hn Hnone Hm.
  rewrite (glob_perm _ _ log_dir pat (fs_touch_perm fs e _ Hnone)).
  unfold glob, new_entry. simpl. rewrite basename_path_join by exact Hn.
  now rewrite Hm.
Qed.

Lemma getmtime_touch_new fs e path :
  wf_dir fs -> fs_find fs path = None ->
  getmtime (fs_touch fs e path) path = Some (now e).
Proof.
  intros Hwf Hnone. unfold getmtime, fs_find.
  change (basename path) with (fname (new_entry e path)).
  rewrite find_name_in; [reflexivity|apply fs_touch_wf, Hwf|].
  eapply Permutation_in; [symmetry; apply fs_touch_perm, Hnone|]. now left.
Qed.

Lemma getmtime_touch_old fs e path p :
  wf_dir fs -> fs_find fs path = None -> basename p <> basename path ->
  getmtime (fs_touch fs e path) p = getmtime fs p.
Proof.
  intros Hwf Hnone Hne. unfold getmtime, fs_find.
  rewrite (find_name_perm (basename p) (new_entry e path :: fs) (fs_touch fs e path)).
  - simpl. unfold name_is at 1. simpl.
    destruct (String.eqb_spec (basename path) (basename p)); [congruence|reflexivity].
  - eapply Permutation_NoDup;
      [apply Permutation_map, fs_touch_perm, Hnone|apply fs_touch_wf, Hwf].
  - symmetry. now apply fs_touch_perm.
Qed.

Lemma basename_in_glob fs log_dir pat p path :
  wf_dir fs -> fs_find fs path = None -> In p (glob fs log_dir pat) ->
  basename p <> basename path.
Proof.
  intros Hwf Hnone Hp. apply in_glob in Hp as (g & Hg & _ & ->).
  rewrite basename_path_join by (eapply wf_dir_plain; eauto).
  now apply (fs_find_none fs).
Qed.

Lemma Dyn_sort_key_touch_old fs e path p :
  wf_dir fs -> fs_find fs path = None -> basename p <> basename path ->
  Dyn.sort_key (fs_touch fs e path) p = Dyn.sort_key fs p.
Proof.
  intros Hwf Hnone Hne. unfold Dyn.sort_key.
  now rewrite getmtime_touch_old.
Qed.

(** A call of the global variant that can make its directory and file
    returns, and its pass works on the directory with the session file. *)
Lemma Dyn_setup_ok w e m log_dir level when backup_count keep :
  w_makedirs_ok w = true -> w_open_ok w = true ->
  let touched := fs_touch (w_files w) e (log_filename_of e m log_dir) in
  exists reg,
    Dyn.setup_logger w e m log_dir level when backup_count keep
    = Ok (logger_key m, fst (Dyn._purge_old_logs_global touched log_dir keep),
          mkworld (snd (Dyn._purge_old_logs_global touched log_dir keep)) reg
                  true true).
Proof.
  intros Hmk Hop touched.
  destruct (lg_handlers (getLogger (w_loggers w) m)) as [|h hs] eqn:Hh.
  - rewrite Dyn_setup_first by exact Hh. rewrite Hmk, Hop. cbn [negb].
    eexists. reflexivity.
  - rewrite Dyn_setup_again by (rewrite Hh; discriminate).
    unfold Dyn_touched. rewrite Hmk, Hop. cbn [negb].
    eexists. reflexivity.
Qed.

(** With [keep] one less than the number of selected files, the global
    pass has one candidate, the oldest by key. *)
Lemma Dyn_single_candidate fs log_dir n :
  length (glob fs log_dir "*.log") = S n ->
  exists c, Dyn.to_delete fs log_dir (Z.of_nat n) = [c] /\
            oldest_by_key fs (glob fs log_dir "*.log") c.
Proof.
  intros Hlen.
  destruct (Dyn_to_delete_front fs log_dir (Z.of_nat n)) as (k & Ek & Hk & _ & Hz).
  rewrite Hlen in Hz. assert (k = 1%nat) as -> by lia.
  pose proof (Dyn_sorted_length fs log_dir) as Hsl. rewrite Hlen in Hsl.
  destruct (Dyn.sorted_infos fs log_dir) as [|x xs] eqn:Es; [discriminate|].
  exists (fst x). rewrite Ek. split; [reflexivity|].
  assert (Hc : In (fst x) (glob fs log_dir "*.log")).
  { eapply Permutation_in; [apply Dyn_sorted_fst_perm|]. rewrite Es. now left. }
  split; [exact Hc|]. intros q Hq.
  destruct (string_dec q (fst x)) as [->|Hne]; [apply dt_ltb_irrefl|].
  apply (Dyn_front_oldest fs log_dir 1); try rewrite Es; simpl; auto.
  intros [E|[]]. congruence.
Qed.

Lemma Sta_single_candidate fs m log_dir n :
  length (glob fs log_dir (Sta.pattern_of m)) = S n -> (1 <= n)%nat ->
  (forall p, In p (glob fs log_dir (Sta.pattern_of m)) -> getmtime fs p <> None) ->
  exists c, Sta.to_delete fs m log_dir (Z.of_nat n) = Some [c] /\
            oldest_by_mtime fs (glob fs log_dir (Sta.pattern_of m)) c.
Proof.
  intros Hlen Hn Hread.
  destruct (Sta.to_delete fs m log_dir (Z.of_nat n)) as [cands|] eqn:Ec.
  2:{ apply Sta_to_delete_none in Ec as (p & Hp & Hnone). now apply Hread in Hp. }
  destruct (Sta_to_delete_front _ _ _ _ _ Ec) as (files & k & Hf & -> & Hk & _ & Hz).
  pose proof (Sta_sorted_perm _ _ _ _ Hf) as Hperm.
  pose proof (Permutation_length Hperm) as Hfl. rewrite Hlen in Hfl.
  rewrite Hfl in Hz. assert (k = 1%nat) as -> by lia.
  destruct files as [|c cs]; [discriminate|].
  exists c. split; [reflexivity|].
  assert (Hc : In c (glob fs log_dir (Sta.pattern_of m)))
    by (eapply Permutation_in; [exact Hperm|now left]).
  split; [exact Hc|]. intros q Hq.
  destruct (string_dec q c) as [->|Hne].
  - destruct (getmtime fs c) as [t|] eqn:Et; [|now apply Hread in Hc].
    exists t, t. repeat split; auto. lia.
  - apply (Sta_front_oldest fs m log_dir (c :: cs) 1 c q Hf); simpl; auto.
    intros [E|[]]. congruence.
Qed.
End SessionFacts.

(** The pass sees two candidates and deletes the session file itself. *)
Lemma C9_counterexample :
  @glob utc_platform (w_files C9_world) "logs" "*.log"
    = ["logs/svc_2999-01-01_00-00-00.log"%string] /\
  exists w',
    @Dyn.setup_logger utc_platform C9_world C3_env1 "svc" "logs" DEBUG "midnight" 7 1
      = Ok ("svc"%string, ["logs/svc_2024-01-02_03-04-05.log"%string], w') /\
    map fname (w_files w') = ["svc_2999-01-01_00-00-00.log"%string] /\
    ~ C9_says (@glob utc_platform (w_files C9_world) "logs" "*.log")
              ["logs/svc_2024-01-02_03-04-05.log"%string].
Proof.
  split; [reflexivity|]. eexists. split; [vm_compute; reflexivity|].
  split; [reflexivity|].
  intros (p & [= <-] & Hin). vm_compute in Hin.
  destruct Hin as [E|[]]. discriminate.
Qed.

(** C9, amended: for a module name that is a plain name (not starting with
    a dot for the global variant, free of glob metacharacters for the
    scoped one), a directory path that [glob] lists as written (no glob
    metacharacter, no doubled separator at its end), a rollover interval
    the handler takes and a session file that is new, the session file is
    selected by the pass of the call that made it: with [k] files selected
    before the call the pass sees [k + 1], and with [keep = k] (and, in
    the scoped variant, [k >= 1] and readable modification times) it has
    exactly one candidate, the oldest by sort key, which it deletes if it
    can; that candidate is a pre-existing file whenever some pre-existing
    file is older than the session file. *)
Theorem C9_session_file_counts `{Platform}
    (w : world) (e : env) (module_name log_dir : string)
    (level : Z) (when : string) (backup_count : Z) :
  let path := log_filename_of e module_name log_dir in
  let touched := fs_touch (w_files w) e path in
  wf_dir (w_files w) -> plain module_name = true ->
  tidy_dir log_dir = true -> valid_when when = true ->
  dt_valid (fromtimestamp (now e)) = true ->
  w_makedirs_ok w = true -> w_open_ok w = true ->
  fs_find (w_files w) path = None ->
  (_ishidden module_name = false ->
   let before := glob (w_files w) log_dir "*.log" in
   let keep := Z.of_nat (length before) in
   In path (glob touched log_dir "*.log") /\
   length (glob touched log_dir "*.log") = S (length before) /\
   exists c w',
     Dyn.setup_logger w e module_name log_dir level when backup_count keep
       = Ok (logger_key module_name, List.filter (can_remove touched) [c], w') /\
     w_files w' = fs_minus touched (List.filter (can_remove touched) [c]) /\
     Dyn.to_delete touched log_dir keep = [c] /\
     oldest_by_key touched (glob touched log_dir "*.log") c /\
     ((exists p0, In p0 before /\
                  dt_ltb (Dyn.sort_key (w_files w) p0)
                         (trunc_seconds (fromtimestamp (now e))) = true) ->
      In c before))
  /\
  (no_magic module_name = true ->
   lg_handlers (getLogger (w_loggers w) module_name) = [] ->
   let before := glob (w_files w) log_dir (Sta.pattern_of module_name) in
   let keep := Z.of_nat (length before) in
   (1 <= length before)%nat ->
   (forall p, In p before -> getmtime (w_files w) p <> None) ->
   In path (glob touched log_dir (Sta.pattern_of module_name)) /\
   length (glob touched log_dir (Sta.pattern_of module_name)) = S (length before) /\
   exists c w',
     Sta.setup_logger w e module_name log_dir level when backup_count keep
       = Ok (logger_key module_name, List.filter (can_remove touched) [c], w') /\
     w_files w' = fs_minus touched (List.filter (can_remove touched) [c]) /\
     Sta.to_delete touched module_name log_dir keep = Some [c] /\
     oldest_by_mtime touched (glob touched log_dir (Sta.pattern_of module_name)) c /\
     ((exists p0 t0, In p0 before /\ getmtime (w_files w) p0 = Some t0 /\
                     t0 < now e) ->
      In c before)).
Proof.
  intros path touched Hwf Hpl _ _ Hclock Hmk Hop Hnew.
  set (n := session_name module_name (fromtimestamp (now e))).
  assert (Hn : plain n = true) by now apply plain_session_name.
  assert (Epath : path = path_join log_dir n) by reflexivity.
  assert (Hwt : wf_dir touched) by now apply fs_touch_wf.
  assert (Hperm : forall pat, glob1 pat n = true ->
            Permutation (glob touched log_dir pat) (path :: glob (w_files w) log_dir pat)).
  { intros pat Hsel. unfold touched. rewrite Epath.
    apply glob_touch; auto; now rewrite <- Epath. }
  split.
  - intros Hhid before keep.
    pose proof (Hperm "*.log"%string (session_selected_global _ _ Hhid)) as Hp.
    assert (Hlen : length (glob touched log_dir "*.log") = S (length before))
      by (rewrite (Permutation_length Hp); reflexivity).
    split; [eapply Permutation_in; [symmetry; exact Hp|now left]|].
    split; [exact Hlen|].
    destruct (Dyn_single_candidate touched log_dir (length before) Hlen)
      as (c & Ec & Hold).
    destruct (Dyn_setup_ok w e module_name log_dir level when backup_count keep Hmk Hop)
      as (reg & Eset).
    fold path in Eset. fold touched in Eset.
    rewrite Dyn_purge_spec in Eset by exact Hwt. cbn [fst snd] in Eset.
    unfold keep in Eset. rewrite Ec in Eset.
    exists c. eexists. split; [exact Eset|]. split; [reflexivity|].
    split; [exact Ec|]. split; [exact Hold|].
    intros (p0 & Hp0 & Hlt). destruct Hold as [Hc Hmin].
    apply (Permutation_in _ Hp) in Hc. destruct Hc as [<-|Hc]; [exfalso|exact Hc].
    assert (Hp0' : In p0 (glob touched log_dir "*.log"))
      by (eapply Permutation_in; [symmetry; exact Hp|now right]).
    specialize (Hmin p0 Hp0').
    unfold touched in Hmin.
    rewrite (Dyn_sort_key_touch_old (w_files w) e path p0 Hwf Hnew
               (basename_in_glob _ log_dir "*.log" p0 path Hwf Hnew Hp0)) in Hmin.
    assert (Ekey : Dyn.sort_key (fs_touch (w_files w) e path) path
                   = trunc_seconds (fromtimestamp (now e))).
    { unfold Dyn.sort_key. rewrite Epath.
      unfold n. now rewrite parse_session_name. }
    rewrite Ekey in Hmin. congruence.
  - intros Hmagic Hh before keep Hk Hread.
    pose proof (Hperm _ (session_selected_scoped _ _ Hmagic)) as Hp.
    assert (Hlen : length (glob touched log_dir (Sta.pattern_of module_name))
                   = S (length before))
      by (rewrite (Permutation_length Hp); reflexivity).
    assert (Hnewm : getmtime touched path = Some (now e))
      by now apply getmtime_touch_new.
    assert (Holdm : forall p, In p before -> getmtime touched p = getmtime (w_files w) p).
    { intros p Hp'. apply getmtime_touch_old; auto.
      exact (basename_in_glob _ log_dir _ p path Hwf Hnew Hp'). }
    assert (Hreadt : forall p, In p (glob touched log_dir (Sta.pattern_of module_name)) ->
                               getmtime touched p <> None).
    { intros p Hp'. apply (Permutation_in _ Hp) in Hp'. destruct Hp' as [<-|Hp'].
      - now rewrite Hnewm.
      - rewrite Holdm by exact Hp'. now apply Hread. }
    split; [eapply Permutation_in; [symmetry; exact Hp|now left]|].
    split; [exact Hlen|].
    destruct (Sta_single_candidate touched module_name log_dir (length before)
                Hlen Hk Hreadt) as (c & Ec & Hold).
    exists c. eexists.
    split.
    { rewrite Sta_setup_first by exact Hh. rewrite Hmk, Hop. cbn [negb]. cbv zeta.
      fold path. fold touched. rewrite Sta_purge_spec by exact Hwt.
      unfold keep. rewrite Ec. reflexivity. }
    split; [reflexivity|]. split; [exact Ec|]. split; [exact Hold|].
    intros (p0 & t0 & Hp0 & Et0 & Hlt). destruct Hold as [Hc Hmin].
    apply (Permutation_in _ Hp) in Hc. destruct Hc as [<-|Hc]; [exfalso|exact Hc].
    assert (Hp0' : In p0 (glob touched log_dir (Sta.pattern_of module_name)))
      by (eapply Permutation_in; [symmetry; exact Hp|now right]).
    destruct (Hmin p0 Hp0') as (tp & tq & Etp & Etq & Hle).
    rewrite Hnewm in Etp. rewrite Holdm, Et0 in Etq by exact Hp0.
    injection Etp as <-. injection Etq as <-. lia.
Qed.

Lemma C9_witness :
  wf_dir (w_files C9_world_ok) /\
  exists c w',
    @Dyn.setup_logger utc_platform C9_world_ok C3_env1 "svc" "logs" DEBUG "midnight" 7 1
      = Ok ("svc"%string,
            List.filter
              (can_remove (fs_touch (w_files C9_world_ok) C3_env1
                             (@log_filename_of utc_platform C3_env1 "svc" "logs")))
              [c], w') /\
    In c (@glob utc_platform (w_files C9_world_ok) "logs" "*.log").
Proof.
  assert (Hwf : wf_dir (w_files C9_world_ok)) by (apply wf_dirb_ok; reflexivity).
  split; [exact Hwf|].
  destruct (proj1 (@C9_session_file_counts utc_platform C9_world_ok C3_env1
                     "svc" "logs" DEBUG "midnight" 7
                     Hwf eq_refl eq_refl eq_refl eq_refl eq_refl eq_refl eq_refl)
            eq_refl)
    as (_ & _ & c & w' & Eset & _ & _ & _ & Hpre).
  exists c, w'. split; [exact Eset|]. apply Hpre.
  exists "logs/svc_2023-12-31_00-00-00.log"%string.
  split; [vm_compute; now left|vm_compute; reflexivity].
Defined.

(** * Further properties of the two logger modules *)

(** ** The parser *)

Lemma basename_acc_suffix acc x r :
  plain_chars r = true -> exists pre, basename_acc acc (x ++ r) = pre ++ r.
Proof.
  revert acc. induction x as [|c x IH]; simpl; intros acc Hr.
  - exists (rev acc). now apply basename_acc_plain.
  - destruct (Ascii.eqb c "/"); now apply IH.
Qed.

Lemma chars_path_join a b : exists y, chars (path_join a b) = y ++ chars b.
Proof.
  unfold path_join. destruct (chars b) as [|c cs] eqn:Eb.
  - destruct (rev (chars a)) as [|e r].
    + exists []. now rewrite Eb.
    + destruct (Ascii.eqb e "/").
      * exists (chars a). now rewrite app_nil_r.
      * exists (chars (a +:+ "/")%string). now rewrite app_nil_r.
  - destruct (Ascii.eqb c "/").
    + exists []. now rewrite Eb.
    + destruct (rev (chars a)) as [|e r].
      * exists []. now rewrite Eb.
      * destruct (Ascii.eqb e "/").
        -- exists (chars a). now rewrite chars_app, Eb.
        -- exists (chars a ++ chars "/"). now rewrite !chars_app, Eb, <- app_assoc.
Qed.

Lemma strptime_valid ts d :
  strptime ts = Some d -> dt_valid d = true /\ microsecond d = 0.
Proof.
  unfold strptime.
  destruct (num (slice 0 4 ts)), (num (slice 5 2 ts)), (num (slice 8 2 ts)),
    (num (slice 11 2 ts)), (num (slice 14 2 ts)), (num (slice 17 2 ts));
    try discriminate.
  destruct ((length ts =? 19)%nat && dt_valid _) eqn:E; [|discriminate].
  intros [= <-]. apply andb_true_iff in E as [_ E]. now split.
Qed.

(** X1: the path [setup_logger] gives a session file parses back to the
    time of the call, cut to the second, whatever the directory and the
    module name. *)
Theorem X1_session_path_parses_back `{Platform}
    (e : env) (module_name log_dir : string) :
  dt_valid (fromtimestamp (now e)) = true ->
  _parse_timestamp_from_filename (log_filename_of e module_name log_dir)
  = Some (trunc_seconds (fromtimestamp (now e))).
Proof.
  intros Hv. set (d := fromtimestamp (now e)) in *.
  unfold _parse_timestamp_from_filename, log_filename_of, basename. fold d.
  destruct (chars_path_join log_dir (session_name module_name d)) as [y Ey].
  rewrite Ey, chars_session_name.
  set (r := "_"%char :: strftime_ts d ++ chars ".log").
  assert (Hr : plain_chars r = true).
  { unfold r. change ("_"%char :: strftime_ts d ++ chars ".log")
      with (["_"%char] ++ strftime_ts d ++ chars ".log").
    now rewrite !plain_chars_app, plain_strftime_ts. }
  rewrite app_assoc.
  destruct (basename_acc_suffix [] (y ++ chars module_name) r Hr) as [pre ->].
  rewrite chars_str. unfold r. rewrite re_search_strftime.
  now apply strptime_strftime.
Qed.

Lemma X1_witness :
  dt_valid (@fromtimestamp utc_platform (now C3_env1)) = true /\
  _parse_timestamp_from_filename (@log_filename_of utc_platform C3_env1 "a/b" "logs")
  = Some (mkdt 2024 1 2 3 4 5 0).
Proof.
  split; [reflexivity|].
  exact (@X1_session_path_parses_back utc_platform C3_env1 "a/b" "logs" eq_refl).
Defined.

(** X2: [_parse_timestamp_from_filename] only ever returns a valid
    calendar date and time with no microseconds; on a base name that ends
    in [.log] it returns [d] exactly when the name ends in
    [_YYYY-MM-DD_HH-MM-SS.log] written from [d], so a name with a date
    that does not exist gives [None]. *)
Theorem X2_parser_accepts_exactly_valid_timestamps (p : string) (d : datetime) :
  (_parse_timestamp_from_filename p = Some d ->
   dt_valid d = true /\ microsecond d = 0) /\
  (has_timestamp (basename p) d <->
   ends_log (basename p) = true /\ _parse_timestamp_from_filename p = Some d).
Proof.
  split.
  - unfold _parse_timestamp_from_filename.
    destruct (re_search (chars (basename p))); [|discriminate].
    apply strptime_valid.
  - split.
    + intros Ht. split; [|now apply parse_of_timestamp].
      destruct Ht as (_ & _ & pre & E). unfold ends_log.
      apply has_suffix_spec. exists (pre ++ "_"%char :: strftime_ts d).
      rewrite E, <- app_assoc. reflexivity.
    + intros [He Hp]. now apply parse_sound.
Qed.

(** A date that does not exist, and a name without the suffix. *)
Example X2_examples :
  _parse_timestamp_from_filename "logs/svc_2023-02-29_10-00-00.log" = None /\
  _parse_timestamp_from_filename "logs/svc_2024-02-29_10-00-00.log"
    = Some (mkdt 2024 2 29 10 0 0 0) /\
  _parse_timestamp_from_filename "logs/svc_2024-01-01_24-00-00.log" = None /\
  _parse_timestamp_from_filename "logs/svc_2024-01-01_10-00-60.log" = None /\
  _parse_timestamp_from_filename "logs/svc_2024-1-1_10-00-00.log" = None /\
  _parse_timestamp_from_filename "logs/2024-01-01_10-00-00.log" = None.
Proof. repeat split; reflexivity. Qed.

(** ** What a pass leaves *)

Section LeftFacts.
Context `{Platform}.

(** The selected paths are those a pass went through and those still in
    the directory. *)
Lemma glob_fs_minus_perm fs log_dir pat ps :
  wf_dir fs -> incl ps (glob fs log_dir pat) -> List.NoDup ps ->
  Permutation (glob fs log_dir pat) (ps ++ glob (fs_minus fs ps) log_dir pat).
Proof.
  intros Hwf Hi Hnd.
  assert (Hbase : forall g p, In g fs -> In p ps ->
                              basename p = fname g -> p = path_join log_dir (fname g)).
  { intros g p Hg Hp E. apply Hi, in_glob in Hp as (g' & Hg' & _ & ->).
    rewrite basename_path_join in E by (eapply wf_dir_plain; eauto). now rewrite E. }
  apply Stdlib.Sorting.Permutation.NoDup_Permutation.
  - now apply NoDup_glob.
  - apply List.NoDup_app; [exact Hnd| |].
    + apply NoDup_glob. now apply fs_minus_wf.
    + intros q Hq Hq'. apply in_glob in Hq' as (g & Hg & _ & ->).
      apply in_fs_minus in Hg as [Hg Hne]. apply (Hne _ Hq).
      apply basename_path_join. eapply wf_dir_plain; eauto.
  - intros q. rewrite in_app_iff. split.
    + intros Hq. destruct (in_dec string_dec q ps) as [Hin|Hnin]; [now left|right].
      apply in_glob in Hq as (g & Hg & Hm & ->). apply in_glob.
      exists g. split; [|now split].
      apply in_fs_minus. split; [exact Hg|]. intros p Hp E.
      apply Hnin. now rewrite <- (Hbase g p Hg Hp E).
    + intros [Hq|Hq]; [now apply Hi|].
      apply in_glob in Hq as (g & Hg & Hm & ->). apply in_glob.
      exists g. apply in_fs_minus in Hg as [Hg _]. now split.
Qed.

Lemma getmtime_fs_minus fs log_dir pat ps p :
  wf_dir fs -> In p (glob (fs_minus fs ps) log_dir pat) ->
  getmtime (fs_minus fs ps) p = getmtime fs p.
Proof.
  intros Hwf Hp. apply in_glob in Hp as (g & Hg & _ & ->).
  rewrite getmtime_path by (try apply fs_minus_wf; assumption).
  apply in_fs_minus in Hg as [Hg _]. now rewrite getmtime_path.
Qed.

(** A directory within the budget is left as it is. *)
Lemma Dyn_within_budget fs log_dir keep :
  Z.of_nat (length (glob fs log_dir "*.log")) <= keep ->
  Dyn._purge_old_logs_global fs log_dir keep = ([], fs).
Proof.
  intros Hk. unfold Dyn._purge_old_logs_global.
  destruct (glob fs log_dir "*.log") as [|p ps] eqn:E; [reflexivity|].
  unfold Dyn.to_delete. rewrite Dyn_sorted_length, E.
  now rewrite (proj2 (Z.ltb_ge _ _) Hk).
Qed.

Lemma Sta_within_budget fs m log_dir keep :
  Z.of_nat (length (glob fs log_dir (Sta.pattern_of m))) <= keep ->
  (forall p, In p (glob fs log_dir (Sta.pattern_of m)) -> getmtime fs p <> None) ->
  Sta._purge_old_timestamped_logs fs m log_dir keep = Ok ([], fs).
Proof.
  intros Hk Hread. unfold Sta._purge_old_timestamped_logs.
  destruct (glob fs log_dir (Sta.pattern_of m)) as [|p ps] eqn:E; [reflexivity|].
  unfold Sta.to_delete, Sta.sorted_files. rewrite E.
  rewrite <- E in Hread. apply with_mtime_some in Hread as [keyed Ek].
  rewrite E in Ek. rewrite Ek.
  rewrite length_map, sort_by_length.
  apply with_mtime_fst in Ek. rewrite <- (length_map fst), Ek.
  now rewrite (proj2 (Z.ltb_ge _ _) Hk).
Qed.

Lemma Dyn_all_removable fs log_dir keep :
  wf_dir fs ->
  (forall p, In p (glob fs log_dir "*.log") -> can_remove fs p = true) ->
  Dyn._purge_old_logs_global fs log_dir keep
  = (Dyn.to_delete fs log_dir keep, fs_minus fs (Dyn.to_delete fs log_dir keep)).
Proof.
  intros Hwf Hcan. rewrite Dyn_purge_spec by exact Hwf.
  rewrite filter_all; [reflexivity|].
  intros p Hp. apply Hcan. now apply Dyn_to_delete_incl in Hp.
Qed.

Lemma Dyn_to_delete_length fs log_dir keep :
  0 <= keep ->
  Z.of_nat (length (Dyn.to_delete fs log_dir keep))
  = Z.max 0 (Z.of_nat (length (glob fs log_dir "*.log")) - keep).
Proof.
  intros Hk. destruct (Dyn_to_delete_front fs log_dir keep) as (n & -> & Hn & _ & Hz).
  rewrite length_map, List.length_firstn, Dyn_sorted_length.
  rewrite Nat.min_l by exact Hn. now apply Hz.
Qed.

Lemma Sta_all_removable fs m log_dir keep :
  wf_dir fs ->
  (forall p, In p (glob fs log_dir (Sta.pattern_of m)) ->
             can_remove fs p = true /\ getmtime fs p <> None) ->
  exists cands,
    Sta.to_delete fs m log_dir keep = Some cands /\
    Sta._purge_old_timestamped_logs fs m log_dir keep = Ok (cands, fs_minus fs cands) /\
    (1 <= keep ->
     Z.of_nat (length cands)
     = Z.max 0 (Z.of_nat (length (glob fs log_dir (Sta.pattern_of m))) - keep)).
Proof.
  intros Hwf Hall.
  destruct (Sta.to_delete fs m log_dir keep) as [cands|] eqn:Ec.
  2:{ apply Sta_to_delete_none in Ec as (p & Hp & Hn). now destruct (Hall p Hp). }
  exists cands. split; [reflexivity|].
  pose proof (Sta_to_delete_incl _ _ _ _ _ Ec) as Hi.
  split.
  - rewrite Sta_purge_spec, Ec by exact Hwf.
    rewrite filter_all; [reflexivity|]. intros p Hp. now destruct (Hall p (Hi p Hp)).
  - intros Hk.
    destruct (Sta_to_delete_front _ _ _ _ _ Ec) as (files & n & Hf & -> & Hn & _ & Hz).
    rewrite List.length_firstn, Nat.min_l by exact Hn.
    rewrite <- (Permutation_length (Sta_sorted_perm _ _ _ _ Hf)). now apply Hz.
Qed.
End LeftFacts.

(** X3: a pass over a directory that holds no more selected files than
    [keep] deletes nothing and leaves the directory as it is; in the
    scoped variant this needs the modification times to be readable, as
    the sort comes before the count. *)
Theorem X3_within_budget_nothing_deleted `{Platform}
    (fs : dir) (module_name log_dir : string) (keep : Z) :
  (Z.of_nat (length (glob fs log_dir "*.log")) <= keep ->
   Dyn._purge_old_logs_global fs log_dir keep = ([], fs))
  /\
  (Z.of_nat (length (glob fs log_dir (Sta.pattern_of module_name))) <= keep ->
   (forall p, In p (glob fs log_dir (Sta.pattern_of module_name)) ->
              getmtime fs p <> None) ->
   Sta._purge_old_timestamped_logs fs module_name log_dir keep = Ok ([], fs)).
Proof.
  split; [apply Dyn_within_budget|apply Sta_within_budget].
Qed.

Lemma X3_witness :
  Z.of_nat (length (@glob utc_platform C4_dir "logs" "*.log")) <= 10 /\
  @Dyn._purge_old_logs_global utc_platform C4_dir "logs" 10 = ([], C4_dir).
Proof.
  assert (Hk : Z.of_nat (length (@glob utc_platform C4_dir "logs" "*.log")) <= 10)
    by (vm_compute; discriminate).
  split; [exact Hk|].
  exact (proj1 (@X3_within_budget_nothing_deleted utc_platform C4_dir "svc" "logs" 10) Hk).
Defined.

(** X4: a pass neither loses nor invents a file: the paths selected before
    it are the paths it returns as deleted together with the paths still
    selected afterwards. *)
Theorem X4_selected_is_deleted_plus_left `{Platform}
    (fs : dir) (module_name log_dir : string) (keep : Z) :
  wf_dir fs ->
  Permutation (glob fs log_dir "*.log")
    (fst (Dyn._purge_old_logs_global fs log_dir keep)
     ++ glob (snd (Dyn._purge_old_logs_global fs log_dir keep)) log_dir "*.log")
  /\
  (forall deleted fs',
     Sta._purge_old_timestamped_logs fs module_name log_dir keep = Ok (deleted, fs') ->
     Permutation (glob fs log_dir (Sta.pattern_of module_name))
       (deleted ++ glob fs' log_dir (Sta.pattern_of module_name))).
Proof.
  intros Hwf. split.
  - rewrite Dyn_purge_spec by exact Hwf. cbn [fst snd].
    apply glob_fs_minus_perm; [exact Hwf| |].
    + intros p Hp. apply List.filter_In in Hp as [Hp _].
      now apply Dyn_to_delete_incl in Hp.
    + apply List.NoDup_filter.
      eapply List.NoDup_map_inv, Dyn_to_delete_NoDup, Hwf.
  - intros deleted fs' E. rewrite Sta_purge_spec in E by exact Hwf.
    destruct (Sta.to_delete fs module_name log_dir keep) as [cands|] eqn:Ec;
      [|discriminate].
    injection E as <- <-.
    apply glob_fs_minus_perm; [exact Hwf| |].
    + intros p Hp. apply List.filter_In in Hp as [Hp _].
      now apply (Sta_to_delete_incl _ _ _ _ _ Ec) in Hp.
    + apply List.NoDup_filter.
      eapply List.NoDup_map_inv, Sta_to_delete_NoDup; eauto.
Qed.

Lemma X4_witness :
  wf_dir C5_dir /\
  Permutation (@glob utc_platform C5_dir "logs" "*.log")
    (fst (@Dyn._purge_old_logs_global utc_platform C5_dir "logs" 1)
     ++ @glob utc_platform
          (snd (@Dyn._purge_old_logs_global utc_platform C5_dir "logs" 1))
          "logs" "*.log").
Proof.
  assert (Hwf : wf_dir C5_dir) by (apply wf_dirb_ok; reflexivity).
  split; [exact Hwf|].
  exact (proj1 (@X4_selected_is_deleted_plus_left utc_platform C5_dir "svc" "logs" 1 Hwf)).
Defined.

Section BoundFacts.
Context `{Platform}.

Lemma Dyn_left_count fs log_dir keep :
  wf_dir fs -> 0 <= keep ->
  (forall p, In p (glob fs log_dir "*.log") -> can_remove fs p = true) ->
  Z.of_nat (length (glob (snd (Dyn._purge_old_logs_global fs log_dir keep))
                         log_dir "*.log"))
  = Z.min (Z.of_nat (length (glob fs log_dir "*.log"))) keep.
Proof.
  intros Hwf Hk Hcan.
  pose proof (glob_fs_minus_perm fs log_dir "*.log" (Dyn.to_delete fs log_dir keep)
                Hwf (Dyn_to_delete_incl fs log_dir keep)
                (List.NoDup_map_inv _ _ (Dyn_to_delete_NoDup fs log_dir keep Hwf)))
    as Hp.
  apply Permutation_length in Hp. rewrite length_app in Hp.
  rewrite Dyn_all_removable by assumption. cbn [snd].
  pose proof (Dyn_to_delete_length fs log_dir keep Hk). lia.
Qed.

Lemma Sta_left_count fs m log_dir keep cands :
  wf_dir fs -> 1 <= keep ->
  Sta.to_delete fs m log_dir keep = Some cands ->
  Z.of_nat (length cands)
    = Z.max 0 (Z.of_nat (length (glob fs log_dir (Sta.pattern_of m))) - keep) ->
  Z.of_nat (length (glob (fs_minus fs cands) log_dir (Sta.pattern_of m)))
  = Z.min (Z.of_nat (length (glob fs log_dir (Sta.pattern_of m)))) keep.
Proof.
  intros Hwf Hk Ec Hlen.
  pose proof (glob_fs_minus_perm fs log_dir (Sta.pattern_of m) cands
                Hwf (Sta_to_delete_incl _ _ _ _ _ Ec)
                (List.NoDup_map_inv _ _ (Sta_to_delete_NoDup _ _ _ _ _ Hwf Ec)))
    as Hp.
  apply Permutation_length in Hp. rewrite length_app in Hp. lia.
Qed.
End BoundFacts.

(** X5: when every selected file can be removed, a pass leaves
    [min(n, keep)] selected files, so never more than [keep]: for every
    [keep >= 0] in the global variant, for every [keep >= 1] and readable
    modification times in the scoped one. *)
Theorem X5_pass_leaves_at_most_keep `{Platform}
    (fs : dir) (module_name log_dir : string) (keep : Z) :
  wf_dir fs ->
  (0 <= keep ->
   (forall p, In p (glob fs log_dir "*.log") -> can_remove fs p = true) ->
   Z.of_nat (length (glob (snd (Dyn._purge_old_logs_global fs log_dir keep))
                          log_dir "*.log"))
   = Z.min (Z.of_nat (length (glob fs log_dir "*.log"))) keep)
  /\
  (1 <= keep ->
   (forall p, In p (glob fs log_dir (Sta.pattern_of module_name)) ->
              can_remove fs p = true /\ getmtime fs p <> None) ->
   exists deleted fs',
     Sta._purge_old_timestamped_logs fs module_name log_dir keep = Ok (deleted, fs') /\
     Z.of_nat (length (glob fs' log_dir (Sta.pattern_of module_name)))
     = Z.min (Z.of_nat (length (glob fs log_dir (Sta.pattern_of module_name)))) keep).
Proof.
  intros Hwf. split.
  - intros Hk Hcan. now apply Dyn_left_count.
  - intros Hk Hall.
    destruct (Sta_all_removable fs module_name log_dir keep Hwf Hall)
      as (cands & Ec & Ep & Hlen).
    exists cands, (fs_minus fs cands). split; [exact Ep|].
    apply Sta_left_count; auto.
Qed.

Lemma X5_witness :
  wf_dir C6_dir_ok /\
  Z.of_nat (length (@glob utc_platform
                      (snd (@Dyn._purge_old_logs_global utc_platform C6_dir_ok "logs" 10))
                      "logs" "*.log")) = 10.
Proof.
  assert (Hwf : wf_dir C6_dir_ok) by (apply wf_dirb_ok; reflexivity).
  split; [exact Hwf|].
  rewrite (proj1 (@X5_pass_leaves_at_most_keep utc_platform C6_dir_ok "svc" "logs" 10 Hwf)).
  - reflexivity.
  - lia.
  - intros p Hp. vm_compute in Hp.
    repeat (destruct Hp as [<-|Hp]; [reflexivity|]). contradiction.
Defined.

(** X6: under the same conditions a second pass right after the first
    deletes nothing and leaves the directory as the first left it. *)
Theorem X6_second_pass_deletes_nothing `{Platform}
    (fs : dir) (module_name log_dir : string) (keep : Z) :
  wf_dir fs ->
  (0 <= keep ->
   (forall p, In p (glob fs log_dir "*.log") -> can_remove fs p = true) ->
   let fs' := snd (Dyn._purge_old_logs_global fs log_dir keep) in
   Dyn._purge_old_logs_global fs' log_dir keep = ([], fs'))
  /\
  (1 <= keep ->
   (forall p, In p (glob fs log_dir (Sta.pattern_of module_name)) ->
              can_remove fs p = true /\ getmtime fs p <> None) ->
   exists deleted fs',
     Sta._purge_old_timestamped_logs fs module_name log_dir keep = Ok (deleted, fs') /\
     Sta._purge_old_timestamped_logs fs' module_name log_dir keep = Ok ([], fs')).
Proof.
  intros Hwf. split.
  - intros Hk Hcan fs'. apply Dyn_within_budget. unfold fs'.
    rewrite Dyn_left_count by assumption. lia.
  - intros Hk Hall.
    destruct (Sta_all_removable fs module_name log_dir keep Hwf Hall)
      as (cands & Ec & Ep & Hlen).
    exists cands, (fs_minus fs cands). split; [exact Ep|].
    apply Sta_within_budget.
    + rewrite (Sta_left_count fs module_name log_dir keep cands) by auto. lia.
    + intros p Hp.
      rewrite (getmtime_fs_minus fs log_dir (Sta.pattern_of module_name)) by assumption.
      pose proof (glob_fs_minus_perm fs log_dir (Sta.pattern_of module_name) cands
                    Hwf (Sta_to_delete_incl _ _ _ _ _ Ec)
                    (List.NoDup_map_inv _ _ (Sta_to_delete_NoDup _ _ _ _ _ Hwf Ec)))
        as Hperm.
      apply Hall. eapply Permutation_in; [symmetry; exact Hperm|].
      apply in_or_app. now right.
Qed.

Lemma X6_witness :
  wf_dir C6_dir_ok /\
  let fs' := snd (@Dyn._purge_old_logs_global utc_platform C6_dir_ok "logs" 10) in
  @Dyn._purge_old_logs_global utc_platform fs' "logs" 10 = ([], fs').
Proof.
  assert (Hwf : wf_dir C6_dir_ok) by (apply wf_dirb_ok; reflexivity).
  split; [exact Hwf|].
  apply (proj1 (@X6_second_pass_deletes_nothing utc_platform C6_dir_ok "svc" "logs" 10 Hwf)).
  - lia.
  - intros p Hp. vm_compute in Hp.
    repeat (destruct Hp as [<-|Hp]; [reflexivity|]). contradiction.
Defined.

(** ** A [keep] that is zero or negative *)

Section NonPositiveKeep.
Context `{Platform}.

Lemma Dyn_to_delete_all fs log_dir keep :
  keep <= 0 ->
  Dyn.to_delete fs log_dir keep = map fst (Dyn.sorted_infos fs log_dir).
Proof.
  intros Hk. unfold Dyn.to_delete. cbv zeta.
  set (sorted := Dyn.sorted_infos fs log_dir).
  destruct (keep <? Z.of_nat (length sorted)) eqn:E.
  - unfold py_slice_to.
    assert (Hge : (Z.of_nat (length sorted) - keep <? 0) = false)
      by (apply Z.ltb_ge; lia).
    rewrite Hge, Z.min_r by lia. rewrite Nat2Z.id. now rewrite List.firstn_all.
  - apply Z.ltb_ge in E. destruct sorted; [reflexivity|]. simpl in E. lia.
Qed.

Lemma Sta_to_delete_nonpos fs m log_dir keep files :
  keep <= 0 ->
  Sta.sorted_files fs m log_dir = Some files ->
  Sta.to_delete fs m log_dir keep = Some (firstn (Z.to_nat (- keep)) files).
Proof.
  intros Hk Hf. unfold Sta.to_delete. rewrite Hf.
  destruct (keep <? Z.of_nat (length files)) eqn:E.
  - unfold py_slice_to.
    assert (Hge : (- keep <? 0) = false) by (apply Z.ltb_ge; lia).
    rewrite Hge. f_equal.
    destruct (Z.le_ge_cases (- keep) (Z.of_nat (length files))) as [Hle|Hle].
    + now rewrite Z.min_l by exact Hle.
    + rewrite Z.min_r by exact Hle. rewrite Nat2Z.id, List.firstn_all.
      symmetry. apply List.firstn_all2. lia.
  - apply Z.ltb_ge in E. destruct files; [|simpl in E; lia].
    now rewrite List.firstn_nil.
Qed.
End NonPositiveKeep.

(** X7: with [keep <= 0] the global pass takes every selected file as a
    candidate, so the selected files it leaves are those [os.remove]
    refused. *)
Theorem X7_global_pass_keep_nonpositive `{Platform}
    (fs : dir) (log_dir : string) (keep : Z) :
  wf_dir fs -> keep <= 0 ->
  Permutation (Dyn.to_delete fs log_dir keep) (glob fs log_dir "*.log") /\
  forall g, In g (snd (Dyn._purge_old_logs_global fs log_dir keep)) ->
            glob1 "*.log" (fname g) = true -> removable g = false.
Proof.
  intros Hwf Hk.
  assert (Hperm : Permutation (Dyn.to_delete fs log_dir keep) (glob fs log_dir "*.log")).
  { rewrite Dyn_to_delete_all by exact Hk. apply Dyn_sorted_fst_perm. }
  split; [exact Hperm|].
  intros g Hg Hsel. rewrite Dyn_purge_spec in Hg by exact Hwf. cbn [snd] in Hg.
  apply in_fs_minus in Hg as [Hg Hne].
  destruct (removable g) eqn:Hr; [exfalso|reflexivity].
  apply (Hne (path_join log_dir (fname g))).
  - apply List.filter_In. split.
    + eapply Permutation_in; [symmetry; exact Hperm|].
      apply in_glob. now exists g.
    + now rewrite can_remove_path.
  - apply basename_path_join. eapply wf_dir_plain; eauto.
Qed.

Lemma X7_witness :
  wf_dir C5_dir /\ 0 <= 0 /\
  forall g, In g (snd (@Dyn._purge_old_logs_global utc_platform C5_dir "logs" 0)) ->
            @glob1 utc_platform "*.log" (fname g) = true -> removable g = false.
Proof.
  assert (Hwf : wf_dir C5_dir) by (apply wf_dirb_ok; reflexivity).
  split; [exact Hwf|]. split; [lia|].
  apply (@X7_global_pass_keep_nonpositive utc_platform C5_dir "logs" 0 Hwf). lia.
Defined.

(** X8: with [keep <= 0] the candidates of the scoped pass are the first
    [-keep] sorted files, [files[:-keep]] being then a slice counted from
    the front: with [keep = 0] the pass deletes nothing, however many
    files there are, and with [keep = -k] it deletes the [k] oldest. *)
Theorem X8_scoped_pass_keep_nonpositive `{Platform}
    (fs : dir) (module_name log_dir : string) (keep : Z) (files : list string) :
  keep <= 0 ->
  Sta.sorted_files fs module_name log_dir = Some files ->
  Sta.to_delete fs module_name log_dir keep = Some (firstn (Z.to_nat (- keep)) files) /\
  Sta._purge_old_timestamped_logs fs module_name log_dir 0 = Ok ([], fs).
Proof.
  intros Hk Hf. split; [now apply Sta_to_delete_nonpos|].
  unfold Sta._purge_old_timestamped_logs.
  destruct (glob fs log_dir (Sta.pattern_of module_name)); [reflexivity|].
  now rewrite (Sta_to_delete_nonpos fs module_name log_dir 0 files) by (auto; lia).
Qed.

Lemma X8_witness :
  0 <= 0 /\
  @Sta.sorted_files utc_platform C1_dir "svc" "logs"
    = Some ["logs/svc_2024-01-02_00-00-00.log"%string;
            "logs/svc_2024-01-01_00-00-00.log"%string] /\
  @Sta._purge_old_timestamped_logs utc_platform C1_dir "svc" "logs" 0 = Ok ([], C1_dir).
Proof.
  split; [lia|]. split; [reflexivity|].
  refine (proj2 (@X8_scoped_pass_keep_nonpositive utc_platform C1_dir "svc" "logs" 0
                   _ _ eq_refl)).
  lia.
Defined.

(** ** What the selectors take *)

(** X9: a file whose name starts with a dot is not selected by the global
    pattern, whatever its ending: no global pass deletes it. *)
Theorem X9_global_pass_spares_dot_files `{Platform}
    (fs : dir) (log_dir : string) (keep : Z) (g : file) :
  wf_dir fs -> In g fs -> _ishidden (fname g) = true ->
  glob1 "*.log" (fname g) = false /\
  In g (snd (Dyn._purge_old_logs_global fs log_dir keep)) /\
  ~ In (path_join log_dir (fname g))
       (fst (Dyn._purge_old_logs_global fs log_dir keep)).
Proof.
  intros Hwf Hg Hhid.
  assert (Hsel : glob1 "*.log" (fname g) = false)
    by (unfold glob1; rewrite Hhid; reflexivity).
  split; [exact Hsel|].
  destruct (Dyn._purge_old_logs_global fs log_dir keep) as [deleted fs'] eqn:E.
  destruct (Dyn_purge_within _ _ _ _ _ Hwf E) as (_ & _ & Hi & Hs).
  cbn [fst snd]. split; [now apply Hs|].
  intros Hd. apply Hi, in_glob in Hd as (g' & Hg' & Hm' & E').
  apply (f_equal basename) in E'.
  rewrite !basename_path_join in E' by (eapply wf_dir_plain; eauto).
  rewrite E' in Hsel. congruence.
Qed.

Lemma X9_witness :
  wf_dir X9_dir /\
  In (entry ".old_2020-01-01_00-00-00.log" 1)
     (snd (@Dyn._purge_old_logs_global utc_platform X9_dir "logs" 0)).
Proof.
  assert (Hwf : wf_dir X9_dir) by (apply wf_dirb_ok; reflexivity).
  split; [exact Hwf|].
  apply (@X9_global_pass_spares_dot_files utc_platform X9_dir "logs" 0
           (entry ".old_2020-01-01_00-00-00.log" 1) Hwf).
  - now left.
  - reflexivity.
Defined.

(** X10: the scoped pattern of a module also selects the session files of
    every module whose name is that name followed by an underscore and
    more: a pass for [svc] counts, and may delete, the files of
    [svc_worker]. *)
Theorem X10_scoped_pattern_takes_longer_names `{Platform}
    (module_name rest : string) (d : datetime) :
  no_magic module_name = true ->
  glob1 (Sta.pattern_of module_name)
        (session_name (module_name +:+ "_" +:+ rest) d) = true.
Proof.
  intros Hm. unfold glob1.
  assert (Hhid : _ishidden (session_name (module_name +:+ "_" +:+ rest) d)
                 = _ishidden (Sta.pattern_of module_name)).
  { unfold _ishidden, Sta.pattern_of. rewrite chars_session_name, !chars_app.
    now destruct (chars module_name). }
  rewrite Hhid.
  assert (Hf : fnmatch (session_name (module_name +:+ "_" +:+ rest) d)
                       (Sta.pattern_of module_name) = true).
  { apply fnmatch_pattern_of; [exact Hm|].
    exists (chars rest ++ "_"%char :: strftime_ts d).
    rewrite chars_session_name, !chars_app, <- !app_assoc. reflexivity. }
  rewrite Hf. now destruct (_ishidden (Sta.pattern_of module_name)).
Qed.

Lemma X10_witness :
  no_magic "svc" = true /\
  @glob1 utc_platform (Sta.pattern_of "svc")
    (session_name "svc_worker" (mkdt 2024 1 1 0 0 0 0)) = true.
Proof.
  split; [reflexivity|].
  exact (@X10_scoped_pattern_takes_longer_names utc_platform "svc" "worker"
           (mkdt 2024 1 1 0 0 0 0) eq_refl).
Defined.

(** A pass for [svc] deletes the file of [svc_worker]. *)
Example X10_example :
  @Sta._purge_old_timestamped_logs utc_platform X10_dir "svc" "logs" 1
  = Ok (["logs/svc_worker_2024-01-01_00-00-00.log"%string],
        [entry "svc_2024-01-02_00-00-00.log" 2]).
Proof. vm_compute. reflexivity. Qed.

(** ** Names against modification times *)

Section NameFacts.
Context `{Platform}.

Lemma glob_names fs log_dir pat :
  glob fs log_dir pat
  = map (path_join log_dir) (List.filter (glob1 pat) (map fname fs)).
Proof.
  unfold glob. rewrite filter_map_swap, map_map. reflexivity.
Qed.

Lemma Dyn_sort_key_parsed fs p d :
  _parse_timestamp_from_filename p = Some d -> Dyn.sort_key fs p = d.
Proof. unfold Dyn.sort_key. now intros ->. Qed.
End NameFacts.

(** X11: in the global variant, when every selected name carries a
    timestamp, the candidates depend on the names alone: two directories
    with the same names in the same order have the same candidates,
    whatever the modification times of their files. *)
Theorem X11_global_order_ignores_mtime_of_stamped_names `{Platform}
    (fs fs2 : dir) (log_dir : string) (keep : Z) :
  map fname fs2 = map fname fs ->
  (forall p, In p (glob fs log_dir "*.log") ->
             _parse_timestamp_from_filename p <> None) ->
  Dyn.to_delete fs2 log_dir keep = Dyn.to_delete fs log_dir keep.
Proof.
  intros Hnames Hparse.
  assert (Hglob : glob fs2 log_dir "*.log" = glob fs log_dir "*.log")
    by (rewrite !glob_names; now rewrite Hnames).
  assert (Hinfos : Dyn.file_infos fs2 log_dir = Dyn.file_infos fs log_dir).
  { unfold Dyn.file_infos. rewrite Hglob. apply map_ext_in. intros p Hp.
    destruct (_parse_timestamp_from_filename p) as [d|] eqn:E;
      [|now apply Hparse in Hp].
    now rewrite !(Dyn_sort_key_parsed _ p d E). }
  unfold Dyn.to_delete, Dyn.sorted_infos. now rewrite Hinfos.
Qed.

Lemma X11_witness :
  map fname C6_dir = map fname (rev C6_dir_ok) /\
  @Dyn.to_delete utc_platform C6_dir "logs" 10
  = @Dyn.to_delete utc_platform (rev C6_dir_ok) "logs" 10.
Proof.
  split; [reflexivity|].
  apply (@X11_global_order_ignores_mtime_of_stamped_names utc_platform
           (rev C6_dir_ok) C6_dir "logs" 10 eq_refl).
  intros p Hp. vm_compute in Hp.
  repeat (destruct Hp as [<-|Hp]; [vm_compute; discriminate|]). contradiction.
Defined.

(** ** The loggers of the process *)

Lemma level_setLevel reg n l m :
  lg_level (getLogger (setLevel reg n l) m)
  = if decide (logger_key n = logger_key m) then l else lg_level (getLogger reg m).
Proof.
  unfold setLevel. rewrite getLogger_insert. now destruct (decide _).
Qed.

Lemma level_addHandler reg n h m :
  lg_level (getLogger (addHandler reg n h) m) = lg_level (getLogger reg m).
Proof.
  unfold addHandler. rewrite getLogger_insert.
  destruct (decide _) as [E|]; [|reflexivity].
  simpl. now rewrite (getLogger_key reg n m E).
Qed.

Lemma getLogger_setLevel_other reg n l m :
  logger_key n <> logger_key m -> getLogger (setLevel reg n l) m = getLogger reg m.
Proof.
  intros Hne. unfold setLevel. rewrite getLogger_insert.
  now destruct (decide _).
Qed.

Lemma level_quiet_list l reg m :
  lg_level (getLogger (fold_left (fun r n => setLevel r n WARNING) l reg) m)
  = if existsb (fun n => String.eqb (logger_key n) (logger_key m)) l
    then WARNING else lg_level (getLogger reg m).
Proof.
  revert reg. induction l as [|n l IH]; intros reg; simpl; [reflexivity|].
  rewrite IH, level_setLevel.
  destruct (existsb _ l); [now rewrite orb_true_r|]. rewrite orb_false_r.
  destruct (decide (logger_key n = logger_key m)) as [->|Hne].
  - now rewrite String.eqb_refl.
  - now apply String.eqb_neq in Hne as ->.
Qed.

Lemma level_quiet_noisy reg m :
  lg_level (getLogger (quiet_noisy reg) m)
  = if is_noisy m then WARNING else lg_level (getLogger reg m).
Proof. apply level_quiet_list. Qed.

Lemma Dyn_first_call_ok `{Platform} w e m log_dir level when backup_count keep :
  lg_handlers (getLogger (w_loggers w) m) = [] ->
  w_makedirs_ok w = true -> w_open_ok w = true ->
  exists deleted w',
    Dyn.setup_logger w e m log_dir level when backup_count keep
    = Ok (logger_key m, deleted, w').
Proof.
  intros Hh Hmk Hop. rewrite Dyn_setup_first by exact Hh.
  rewrite Hmk, Hop. cbn [negb]. now do 2 eexists.
Qed.

(** X12: after a first call that returns, the five third-party loggers
    are at level [WARNING]; the logger of the call is at [level], unless
    its name is one of the five, in which case it is at [WARNING] whatever
    [level] was. The handlers keep the levels they were given. *)
Theorem X12_first_call_levels `{Platform}
    (w : world) (e : env) (module_name log_dir : string)
    (level : Z) (when : string) (backup_count keep : Z)
    (k : string) (deleted : list string) (w' : world) :
  lg_handlers (getLogger (w_loggers w) module_name) = [] ->
  (Dyn.setup_logger w e module_name log_dir level when backup_count keep
     = Ok (k, deleted, w') \/
   Sta.setup_logger w e module_name log_dir level when backup_count keep
     = Ok (k, deleted, w')) ->
  (forall n, In n noisy_loggers -> lg_level (getLogger (w_loggers w') n) = WARNING) /\
  lg_level (getLogger (w_loggers w') module_name)
    = (if is_noisy module_name then WARNING else level) /\
  map h_level (lg_handlers (getLogger (w_loggers w') module_name)) = [level; INFO].
Proof.
  intros Hh Hcall.
  assert (Hreg : w_loggers w'
    = quiet_noisy
        (addHandler
           (addHandler (setLevel (w_loggers w) module_name level) module_name
              (TimedRotatingFileHandler (log_filename_of e module_name log_dir) when
                 backup_count "utf-8" false level FORMAT))
           module_name (StreamHandler INFO FORMAT))).
  { destruct Hcall as [E|E].
    - rewrite Dyn_setup_first in E by exact Hh.
      destruct (w_makedirs_ok w); [|discriminate].
      destruct (w_open_ok w); [|discriminate].
      cbn [negb] in E. cbv zeta in E. now injection E as _ _ <-.
    - rewrite Sta_setup_first in E by exact Hh.
      destruct (w_makedirs_ok w); [|discriminate].
      destruct (w_open_ok w); [|discriminate].
      cbn [negb] in E. cbv zeta in E.
      destruct (Sta._purge_old_timestamped_logs _ module_name log_dir keep)
        as [[d fs']|x]; [|discriminate].
      now injection E as _ _ <-. }
  rewrite Hreg. split; [|split].
  - intros n Hn. rewrite level_quiet_noisy.
    assert (is_noisy n = true) as ->; [|reflexivity].
    unfold is_noisy. apply existsb_exists. exists n.
    split; [exact Hn|apply String.eqb_refl].
  - rewrite level_quiet_noisy, !level_addHandler, level_setLevel.
    destruct (is_noisy module_name); [reflexivity|].
    now destruct (decide _).
  - now rewrite handlers_after_first.
Qed.

Lemma X12_witness :
  exists deleted w',
    @Dyn.setup_logger utc_platform C8_world C8_env "requests" "logs" DEBUG "midnight" 7 10
    = Ok ("requests"%string, deleted, w') /\
    lg_level (getLogger (w_loggers w') "requests") = WARNING.
Proof.
  destruct (@Dyn_first_call_ok utc_platform C8_world C8_env "requests" "logs" DEBUG
              "midnight" 7 10 eq_refl eq_refl eq_refl) as (deleted & w' & E).
  exists deleted, w'. split; [exact E|].
  exact (proj1 (proj2 (@X12_first_call_levels utc_platform C8_world C8_env "requests"
           "logs" DEBUG "midnight" 7 10 "requests" deleted w' eq_refl (or_introl E)))).
Defined.

(** X13: a call for a logger that already has handlers adds none and
    changes none; it sets the logger to the [level] of this call, leaves
    every other logger as it was (the third-party loggers are not quieted
    again), and in the global variant it returns whenever the directory
    can be made. *)
Theorem X13_repeat_call_keeps_handlers `{Platform}
    (w : world) (e : env) (module_name log_dir : string)
    (level : Z) (when : string) (backup_count keep : Z) :
  lg_handlers (getLogger (w_loggers w) module_name) <> [] ->
  (forall k deleted w',
     (Dyn.setup_logger w e module_name log_dir level when backup_count keep
        = Ok (k, deleted, w') \/
      Sta.setup_logger w e module_name log_dir level when backup_count keep
        = Ok (k, deleted, w')) ->
     k = logger_key module_name /\
     lg_handlers (getLogger (w_loggers w') module_name)
       = lg_handlers (getLogger (w_loggers w) module_name) /\
     lg_level (getLogger (w_loggers w') module_name) = level /\
     forall n, logger_key n <> logger_key module_name ->
               getLogger (w_loggers w') n = getLogger (w_loggers w) n)
  /\
  (w_makedirs_ok w = true ->
   exists deleted w',
     Dyn.setup_logger w e module_name log_dir level when backup_count keep
     = Ok (logger_key module_name, deleted, w')).
Proof.
  intros Hh. split.
  - intros k deleted w' Hcall.
    assert (Hreg : k = logger_key module_name /\
                   w_loggers w' = setLevel (w_loggers w) module_name level).
    { destruct Hcall as [E|E].
      - rewrite Dyn_setup_again in E by exact Hh.
        destruct (w_makedirs_ok w); [|discriminate].
        cbn [negb] in E. cbv zeta in E. now injection E as <- _ <-.
      - rewrite Sta_setup_again in E by exact Hh.
        destruct (w_makedirs_ok w); [|discriminate]. cbn [negb] in E.
        destruct (Sta._purge_old_timestamped_logs _ module_name log_dir keep)
          as [[d fs']|x]; [|discriminate].
        now injection E as <- _ <-. }
    destruct Hreg as [-> ->]. split; [reflexivity|].
    split; [apply handlers_setLevel|]. split.
    + rewrite level_setLevel. now destruct (decide _).
    + intros n Hne. apply getLogger_setLevel_other. congruence.
  - intros Hmk. rewrite Dyn_setup_again by exact Hh. rewrite Hmk. cbn [negb].
    now do 2 eexists.
Qed.

Lemma X13_witness :
  lg_handlers (getLogger (w_loggers X13_world) "requests") <> [] /\
  exists deleted w',
    @Dyn.setup_logger utc_platform X13_world C3_env2 "requests" "logs" DEBUG "midnight" 7 10
    = Ok ("requests"%string, deleted, w').
Proof.
  assert (Hh : lg_handlers (getLogger (w_loggers X13_world) "requests") <> [])
    by (vm_compute; discriminate).
  split; [exact Hh|].
  exact (proj2 (@X13_repeat_call_keeps_handlers utc_platform X13_world C3_env2
                  "requests" "logs" DEBUG "midnight" 7 10 Hh) eq_refl).
Defined.

(** ** When a call raises *)

Lemma Sta_purge_raises `{Platform} fs m log_dir keep x :
  Sta._purge_old_timestamped_logs fs m log_dir keep = Raise x <->
  exists p, In p (glob fs log_dir (Sta.pattern_of m)) /\ getmtime fs p = None.
Proof.
  unfold Sta._purge_old_timestamped_logs.
  pose proof (Sta_to_delete_none fs m log_dir keep) as Hn.
  destruct (glob fs log_dir (Sta.pattern_of m)) as [|q qs] eqn:Eg.
  - split; [discriminate|]. intros (p & [] & _).
  - destruct (Sta.to_delete fs m log_dir keep) as [cands|].
    + split; [discriminate|]. intros Hex. apply Hn in Hex. discriminate.
    + split; [intros _; now apply Hn|]. intros _. now destruct x.
Qed.

(** X14: when [setup_logger] raises, for a module name that is a plain
    name, a directory path that [glob] lists as written and a rollover
    interval the handler takes. The global variant raises exactly when the directory cannot be
    made, or the logger has no handler yet and the file cannot be opened:
    a file that cannot be opened does not stop a call for a logger that
    has its handlers. The scoped variant raises in these cases too, and
    when a selected file of the directory its pass works on has no
    readable modification time. *)
Theorem X14_when_setup_logger_raises `{Platform}
    (w : world) (e : env) (module_name log_dir : string)
    (level : Z) (when : string) (backup_count keep : Z) (x : exn) :
  let first := match lg_handlers (getLogger (w_loggers w) module_name) with
               | [] => true
               | _ :: _ => false
               end in
  let seen := if first
              then fs_touch (w_files w) e (log_filename_of e module_name log_dir)
              else w_files w in
  plain module_name = true -> tidy_dir log_dir = true ->
  valid_when when = true ->
  (Dyn.setup_logger w e module_name log_dir level when backup_count keep = Raise x <->
   w_makedirs_ok w = false \/ (first = true /\ w_open_ok w = false))
  /\
  (Sta.setup_logger w e module_name log_dir level when backup_count keep = Raise x <->
   w_makedirs_ok w = false \/ (first = true /\ w_open_ok w = false) \/
   exists p, In p (glob seen log_dir (Sta.pattern_of module_name)) /\
             getmtime seen p = None).
Proof.
  intros first seen _ _ _. subst first seen.
  destruct (lg_handlers (getLogger (w_loggers w) module_name)) as [|h hs] eqn:Hh.
  - split.
    + rewrite Dyn_setup_first by exact Hh.
      destruct (w_makedirs_ok w), (w_open_ok w); cbn [negb]; cbv zeta;
        destruct x; split; try discriminate; auto;
        intros [E|[_ E]]; discriminate.
    + rewrite Sta_setup_first by exact Hh.
      destruct (w_makedirs_ok w), (w_open_ok w); cbn [negb]; cbv zeta;
        try (destruct x; split; now auto).
      pose proof (Sta_purge_raises
                    (fs_touch (w_files w) e (log_filename_of e module_name log_dir))
                    module_name log_dir keep x) as Hr.
      destruct (Sta._purge_old_timestamped_logs _ module_name log_dir keep)
        as [[d fs']|y].
      * split; [discriminate|].
        intros [E|[[_ E]|Hex]]; try discriminate. apply Hr in Hex. discriminate.
      * split; [intros _|intros _; now destruct x, y].
        right. right. apply Hr. now destruct x, y.
  - assert (Hne : lg_handlers (getLogger (w_loggers w) module_name) <> [])
      by (rewrite Hh; discriminate).
    split.
    + rewrite Dyn_setup_again by exact Hne.
      destruct (w_makedirs_ok w); cbn [negb]; cbv zeta.
      * split; [discriminate|]. intros [E|[E _]]; discriminate.
      * destruct x. split; auto.
    + rewrite Sta_setup_again by exact Hne.
      destruct (w_makedirs_ok w); cbn [negb]; [|destruct x; split; now auto].
      pose proof (Sta_purge_raises (w_files w) module_name log_dir keep x) as Hr.
      destruct (Sta._purge_old_timestamped_logs _ module_name log_dir keep)
        as [[d fs']|y].
      * split; [discriminate|].
        intros [E|[[E _]|Hex]]; try discriminate. apply Hr in Hex. discriminate.
      * split; [intros _|intros _; now destruct x, y].
        right. right. apply Hr. now destruct x, y.
Qed.

Lemma X14_witness :
  plain "requests" = true /\ tidy_dir "logs" = true /\
  valid_when "midnight" = true /\
  (@Dyn.setup_logger utc_platform X13_world C3_env1 "requests" "logs" DEBUG "midnight" 7 10
     = Raise OSError <->
   w_makedirs_ok X13_world = false \/ (false = true /\ w_open_ok X13_world = false)).
Proof.
  split; [reflexivity|]. split; [reflexivity|]. split; [reflexivity|].
  exact (proj1 (@X14_when_setup_logger_raises utc_platform X13_world C3_env1
                  "requests" "logs" DEBUG "midnight" 7 10 OSError
                  eq_refl eq_refl eq_refl)).
Defined.

(** ** What a call does to the directory *)

Lemma delete_loop_incl cands : forall fs acc g,
  In g (snd (delete_loop fs cands acc)) -> In g fs.
Proof.
  induction cands as [|p rest IH]; simpl; intros fs acc g Hg; [exact Hg|].
  rewrite os_remove_spec in Hg. destruct (can_remove fs p).
  - apply IH in Hg. now apply in_fs_minus in Hg as [Hg _].
  - now apply IH in Hg.
Qed.

Lemma in_fs_touch fs e path g :
  In g (fs_touch fs e path) -> In g fs \/ g = new_entry e path.
Proof.
  unfold fs_touch. destruct (fs_find fs path); [now left|].
  intros Hg. apply in_app_or in Hg as [Hg|[<-|Hg]].
  - left. rewrite <- (firstn_skipn (slot e) fs). apply in_or_app. now left.
  - now right.
  - left. rewrite <- (firstn_skipn (slot e) fs). apply in_or_app. now right.
Qed.

Section CallFacts.
Context `{Platform}.

Lemma Dyn_purge_incl fs log_dir keep g :
  In g (snd (Dyn._purge_old_logs_global fs log_dir keep)) -> In g fs.
Proof.
  unfold Dyn._purge_old_logs_global.
  destruct (glob fs log_dir "*.log"); [now simpl|apply delete_loop_incl].
Qed.

Lemma Sta_purge_incl fs m log_dir keep deleted fs' g :
  Sta._purge_old_timestamped_logs fs m log_dir keep = Ok (deleted, fs') ->
  In g fs' -> In g fs.
Proof.
  unfold Sta._purge_old_timestamped_logs.
  destruct (glob fs log_dir (Sta.pattern_of m)); [now intros [= <- <-]|].
  destruct (Sta.to_delete fs m log_dir keep) as [cands|]; [|discriminate].
  intros [= E]. intros Hg.
  apply (delete_loop_incl cands fs [] g). now rewrite E.
Qed.

(** The directory a call leaves is taken from the one it found, with the
    session file when the call made it. *)
Lemma setup_files_from w e m log_dir level when backup_count keep k deleted w' :
  (Dyn.setup_logger w e m log_dir level when backup_count keep = Ok (k, deleted, w') \/
   Sta.setup_logger w e m log_dir level when backup_count keep = Ok (k, deleted, w')) ->
  forall g, In g (w_files w') ->
            In g (fs_touch (w_files w) e (log_filename_of e m log_dir)) \/
            In g (w_files w).
Proof.
  intros Hcall g Hg.
  destruct (lg_handlers (getLogger (w_loggers w) m)) as [|h hs] eqn:Hh.
  - left. destruct Hcall as [E|E].
    + rewrite Dyn_setup_first in E by exact Hh.
      destruct (w_makedirs_ok w); [|discriminate].
      destruct (w_open_ok w); [|discriminate].
      cbn [negb] in E. cbv zeta in E. injection E as _ _ <-.
      cbn [w_files] in Hg. now apply Dyn_purge_incl in Hg.
    + rewrite Sta_setup_first in E by exact Hh.
      destruct (w_makedirs_ok w); [|discriminate].
      destruct (w_open_ok w); [|discriminate].
      cbn [negb] in E. cbv zeta in E.
      destruct (Sta._purge_old_timestamped_logs _ m log_dir keep)
        as [[d fs']|x] eqn:Ep; [|discriminate].
      injection E as _ _ <-. cbn [w_files] in Hg.
      eapply Sta_purge_incl; eauto.
  - assert (Hne : lg_handlers (getLogger (w_loggers w) m) <> [])
      by (rewrite Hh; discriminate).
    destruct Hcall as [E|E].
    + rewrite Dyn_setup_again in E by exact Hne.
      destruct (w_makedirs_ok w); [|discriminate].
      cbn [negb] in E. cbv zeta in E. injection E as _ _ <-.
      cbn [w_files] in Hg. apply Dyn_purge_incl in Hg.
      unfold Dyn_touched in Hg. destruct (w_open_ok w); [now left|now right].
    + right. rewrite Sta_setup_again in E by exact Hne.
      destruct (w_makedirs_ok w); [|discriminate]. cbn [negb] in E.
      destruct (Sta._purge_old_timestamped_logs _ m log_dir keep)
        as [[d fs']|x] eqn:Ep; [|discriminate].
      injection E as _ _ <-. cbn [w_files] in Hg.
      eapply Sta_purge_incl; eauto.
Qed.
End CallFacts.

(** X15: a call at a level above [DEBUG] emits no line of its own, so
    the directory when it returns is the one its pass leaves. Such a call,
    for a module name that is a plain name, makes no file but the session
    file: every name in the directory afterwards was there before or is
    the session file's; when a file of the session's name is already
    there (a second call in the same second), no name is new. *)
Theorem X15_call_adds_only_the_session_file `{Platform}
    (w : world) (e : env) (module_name log_dir : string)
    (level : Z) (when : string) (backup_count keep : Z)
    (k : string) (deleted : list string) (w' : world) :
  plain module_name = true -> DEBUG < level ->
  (Dyn.setup_logger w e module_name log_dir level when backup_count keep
     = Ok (k, deleted, w') \/
   Sta.setup_logger w e module_name log_dir level when backup_count keep
     = Ok (k, deleted, w')) ->
  (forall n, In n (map fname (w_files w')) ->
     In n (map fname (w_files w)) \/
     n = session_name module_name (fromtimestamp (now e))) /\
  (fs_find (w_files w) (log_filename_of e module_name log_dir) <> None ->
   incl (map fname (w_files w')) (map fname (w_files w))).
Proof.
  intros Hm _ Hcall. split.
  - intros n Hn. apply in_map_iff in Hn as (g & <- & Hg).
    destruct (setup_files_from _ _ _ _ _ _ _ _ _ _ _ Hcall g Hg) as [Ht|Ho].
    + apply in_fs_touch in Ht as [Ht| ->]; [left; now apply in_map|right].
      apply basename_path_join. now apply plain_session_name.
    + left. now apply in_map.
  - intros Hthere n Hn. apply in_map_iff in Hn as (g & <- & Hg). apply in_map.
    destruct (setup_files_from _ _ _ _ _ _ _ _ _ _ _ Hcall g Hg) as [Ht|Ho];
      [|exact Ho].
    destruct (fs_find (w_files w) (log_filename_of e module_name log_dir))
      as [g0|] eqn:E; [|contradiction].
    now rewrite (fs_touch_present _ _ _ _ E) in Ht.
Qed.

Lemma X15_witness :
  exists deleted w',
    @Dyn.setup_logger utc_platform X13_world C3_env1 "requests" "logs" INFO "midnight" 7 10
      = Ok ("requests"%string, deleted, w') /\
    incl (map fname (w_files w')) (map fname (w_files X13_world)).
Proof.
  assert (Hh : lg_handlers (getLogger (w_loggers X13_world) "requests") <> [])
    by (vm_compute; discriminate).
  assert (E : @Dyn.setup_logger utc_platform X13_world C3_env1 "requests" "logs" INFO
                "midnight" 7 10
              = Ok ("requests"%string, [],
                    mkworld (w_files X13_world)
                      (setLevel (w_loggers X13_world) "requests" INFO) true false))
    by (rewrite Dyn_setup_again by exact Hh; reflexivity).
  do 2 eexists. split; [exact E|].
  apply (proj2 (@X15_call_adds_only_the_session_file utc_platform X13_world C3_env1
                  "requests" "logs" INFO "midnight" 7 10 _ _ _
                  eq_refl eq_refl (or_introl E))).
  vm_compute. discriminate.
Defined.

(** ** The session file in the pass of its own call *)



(** An element that comes before every other one is the head. *)
Lemma sorted_first_is_head {A} (R : A -> A -> Prop) l x :
  StronglySorted R l -> In x l ->
  (forall y, In y l -> y = x \/ ~ R y x) ->
  exists r, l = x :: r.
Proof.
  intros Hs Hx Hmin. destruct l as [|a r]; [contradiction|].
  apply StronglySorted_inv in Hs as [_ Ha].
  destruct (Hmin a (or_introl eq_refl)) as [->|Hno]; [now exists r|].
  destruct Hx as [->|Hx]; [now exists r|].
  exfalso. apply Hno. rewrite List.Forall_forall in Ha. now apply Ha.
Qed.

Lemma find_absent {A} (P : A -> bool) l :
  (forall x, In x l -> P x = false) -> List.find P l = None.
Proof.
  intros Hall. destruct (List.find P l) as [x|] eqn:E; [|reflexivity].
  apply List.find_some in E as [Hx HP]. rewrite (Hall x Hx) in HP. discriminate.
Qed.


Lemma ishidden_session_name m d : _ishidden (session_name m d) = _ishidden m.
Proof.
  unfold _ishidden. rewrite chars_session_name.
  destruct (chars m) as [|c cs] eqn:E; reflexivity.
Qed.

Lemma ends_log_session_name m d : ends_log (session_name m d) = true.
Proof.
  unfold ends_log. apply has_suffix_spec.
  exists (chars m ++ "_"%char :: strftime_ts d).
  rewrite chars_session_name, <- app_assoc. reflexivity.
Qed.

Section OwnPassFacts.
Context `{Platform}.

(** The session file is selected by [*.log] unless the module name
    starts with a dot. *)
Lemma session_selected m d :
  _ishidden m = false -> glob1 "*.log" (session_name m d) = true.
Proof.
  intros Hh. unfold glob1.
  rewrite fnmatch_log, ishidden_session_name, Hh, ends_log_session_name.
  reflexivity.
Qed.

(** Once touched, the directory has an entry of the session's name. *)
Lemma session_entry fs e m log_dir :
  plain m = true ->
  exists g, In g (fs_touch fs e (log_filename_of e m log_dir)) /\
            fname g = session_name m (fromtimestamp (now e)).
Proof.
  intros Hm. set (p0 := log_filename_of e m log_dir).
  assert (Hb : basename p0 = session_name m (fromtimestamp (now e)))
    by (apply basename_path_join; now apply plain_session_name).
  unfold fs_touch. destruct (fs_find fs p0) as [g|] eqn:E.
  - unfold fs_find in E. apply List.find_some in E as [Hg Hn].
    apply name_is_eq in Hn. exists g. split; [exact Hg|]. now rewrite Hn.
  - eexists. split; [apply in_or_app; right; left; reflexivity|exact Hb].
Qed.

(** A selected path is the session's exactly when its entry has the
    session's name. *)
Lemma selected_is_session fs e m log_dir g :
  wf_dir fs -> plain m = true -> In g fs ->
  path_join log_dir (fname g) = log_filename_of e m log_dir <->
  fname g = session_name m (fromtimestamp (now e)).
Proof.
  intros Hwf Hm Hg. split.
  - intros E. apply (f_equal basename) in E.
    rewrite basename_path_join in E by (eapply wf_dir_plain; eauto).
    unfold log_filename_of in E.
    now rewrite basename_path_join in E by now apply plain_session_name.
  - intros ->. reflexivity.
Qed.

Lemma Dyn_info_in fs log_dir y :
  In y (Dyn.sorted_infos fs log_dir) ->
  In (fst y) (glob fs log_dir "*.log") /\ y = (fst y, Dyn.sort_key fs (fst y)).
Proof.
  intros Hy. apply (Permutation_in _ (Dyn_sorted_perm fs log_dir)) in Hy.
  unfold Dyn.file_infos in Hy. apply in_map_iff in Hy as (p & <- & Hp).
  now split.
Qed.



(** A selected file with a key before every other one is a candidate as
    soon as there is one. *)
Lemma Dyn_oldest_goes fs log_dir keep p :
  0 <= keep -> keep < Z.of_nat (length (glob fs log_dir "*.log")) ->
  In p (glob fs log_dir "*.log") ->
  (forall q, In q (glob fs log_dir "*.log") -> q <> p ->
             dt_ltb (Dyn.sort_key fs p) (Dyn.sort_key fs q) = true) ->
  In p (Dyn.to_delete fs log_dir keep).
Proof.
  intros Hk Hlt Hp Hmin.
  destruct (Dyn_to_delete_front fs log_dir keep) as (n & E & _ & _ & Hz).
  specialize (Hz Hk). rewrite E.
  destruct (sorted_first_is_head (not_after dt_ltb snd)
              (Dyn.sorted_infos fs log_dir) (p, Dyn.sort_key fs p)) as [r Er].
  - apply Dyn_sorted_ascending.
  - apply (Permutation_in _ (Permutation_sym (Dyn_sorted_perm fs log_dir))).
    unfold Dyn.file_infos. apply in_map_iff. now exists p.
  - intros y Hy. destruct (Dyn_info_in fs log_dir y Hy) as [Hq ->].
    destruct (string_dec (fst y) p) as [->|Hne]; [now left|].
    right. unfold not_after. cbn [snd]. rewrite (Hmin _ Hq Hne). discriminate.
  - rewrite Er. destruct n as [|n]; [lia|]. simpl. now left.
Qed.
End OwnPassFacts.



(** X17: in the global variant, for a directory path that [glob] lists as
    written and a level above [DEBUG] (the call then emits no line that
    could make the file again), when the session file can be removed
    while open, more files are selected than [keep], and the key of every
    other selected file is after the second of the call (names stamped
    with a later time), the call deletes the session file it has just
    made: its path is in the returned list and its entry is gone. *)
Theorem X17_session_file_deleted_by_its_pass `{Platform}
    (w : world) (e : env) (module_name log_dir : string)
    (level : Z) (when : string) (backup_count keep : Z) :
  let log_filename := log_filename_of e module_name log_dir in
  let touched := fs_touch (w_files w) e log_filename in
  wf_dir (w_files w) -> plain module_name = true ->
  _ishidden module_name = false -> tidy_dir log_dir = true ->
  DEBUG < level ->
  dt_valid (fromtimestamp (now e)) = true ->
  w_makedirs_ok w = true -> w_open_ok w = true -> valid_when when = true ->
  0 <= keep -> keep < Z.of_nat (length (glob touched log_dir "*.log")) ->
  can_remove touched log_filename = true ->
  (forall q, In q (glob touched log_dir "*.log") -> q <> log_filename ->
             dt_ltb (trunc_seconds (fromtimestamp (now e)))
                    (Dyn.sort_key touched q) = true) ->
  exists deleted w',
    Dyn.setup_logger w e module_name log_dir level when backup_count keep
      = Ok (logger_key module_name, deleted, w') /\
    In log_filename deleted /\
    fs_find (w_files w') log_filename = None.
Proof.
  intros p0 touched Hwf Hm Hh _ _ Hv Hmk Hop _ Hk Hlt Hcan Hmin.
  destruct (Dyn_setup_ok w e module_name log_dir level when backup_count keep Hmk Hop)
    as [reg E]. cbv zeta in E. fold p0 in E. fold touched in E.
  do 2 eexists. split; [exact E|].
  assert (Hwt : wf_dir touched) by now apply fs_touch_wf.
  rewrite Dyn_purge_spec by exact Hwt. cbn [fst snd w_files].
  assert (Hkey : Dyn.sort_key touched p0 = trunc_seconds (fromtimestamp (now e)))
    by (apply Dyn_sort_key_parsed, parse_session_name; assumption).
  assert (Hsel : In p0 (glob touched log_dir "*.log")).
  { destruct (session_entry (w_files w) e module_name log_dir Hm) as (g & Hg & Hn).
    apply in_glob. exists g. split; [exact Hg|]. rewrite Hn.
    split; [now apply session_selected|reflexivity]. }
  assert (Hdel : In p0 (List.filter (can_remove touched)
                          (Dyn.to_delete touched log_dir keep))).
  { apply List.filter_In. split; [|exact Hcan].
    apply Dyn_oldest_goes; [exact Hk|exact Hlt|exact Hsel|].
    intros q Hq Hne. rewrite Hkey. now apply Hmin. }
  split; [exact Hdel|].
  unfold fs_find. apply find_absent. intros g Hg.
  apply in_fs_minus in Hg as [_ Hg]. apply name_is_neq.
  intros Ef. now apply (Hg p0 Hdel).
Qed.

Lemma X17_witness :
  exists deleted w',
    @Dyn.setup_logger utc_platform X17_world C3_env1 "svc" "logs" INFO "midnight" 7 1
      = Ok ("svc"%string, deleted, w') /\
    In "logs/svc_2024-01-02_03-04-05.log"%string deleted /\
    fs_find (w_files w') "logs/svc_2024-01-02_03-04-05.log" = None.
Proof.
  apply (@X17_session_file_deleted_by_its_pass utc_platform X17_world C3_env1
           "svc" "logs" INFO "midnight" 7 1).
  - apply wf_dirb_ok. reflexivity.
  - reflexivity.
  - reflexivity.
  - reflexivity.
  - reflexivity.
  - reflexivity.
  - reflexivity.
  - reflexivity.
  - reflexivity.
  - lia.
  - vm_compute. reflexivity.
  - reflexivity.
  - intros q Hq Hne. vm_compute in Hq.
    repeat (destruct Hq as [<-|Hq];
            [first [reflexivity | exfalso; apply Hne; reflexivity]|]).
    contradiction.
Defined.



